(** * The SDL monitor driver (lv_drivers/display/monitor.c)

    A shallow embedding of the display-refresh engine of the PC monitor
    driver: the flush entry points [monitor_flush] / [monitor_flush2], the
    refresh cycle [monitor_sdl_refr_core], [window_update], the event
    filter [quit_filter] and the refresh thread with its teardown.

    The compile-time switches of the driver (MONITOR_DOUBLE_BUFFERED,
    MONITOR_DUAL, LV_COLOR_DEPTH, the resolutions, the platform macros)
    are not defined in monitor.c itself; they are the fields of [config]
    and every function takes the configuration it is built with.

    Integers are in [Z].  Coordinates ([lv_coord_t]) and the index
    [y * MONITOR_HOR_RES + x] are not wrapped: the index is computed in
    [int], which the products of a coordinate and a resolution fit.  The
    one conversion the code makes, the width to [uint32_t], is written
    out. *)

From Stdlib Require Import ZArith Lia Bool.
From stdpp Require Import base numbers list.

Local Open Scope Z_scope.

(** ** Configuration: the preprocessor constants the file is built with *)

Record config := Config {
  MONITOR_DOUBLE_BUFFERED : bool;
  MONITOR_DUAL : bool;
  LV_COLOR_DEPTH : Z;
  LV_HOR_RES_MAX : Z;
  LV_VER_RES_MAX : Z;
  MONITOR_HOR_RES : Z;
  MONITOR_VER_RES : Z;
  MONITOR_ZOOM : Z;
  MONITOR_VIRTUAL_MACHINE : bool;
  MONITOR_APPLE : bool;
  MONITOR_EMSCRIPTEN : bool;
  SDL_VERSION_ATLEAST_2_0_5 : bool;
  USE_MOUSE : bool;
  USE_MOUSEWHEEL : bool;
  USE_KEYBOARD : bool
}.

Definition SDL_REFR_PERIOD : Z := 50.

(** [#if LV_COLOR_DEPTH != 24 && LV_COLOR_DEPTH != 32]: the build converts
    pixel by pixel; otherwise it copies whole rows with memcpy. *)
Definition per_pixel (cfg : config) : bool :=
  negb (LV_COLOR_DEPTH cfg =? 24) && negb (LV_COLOR_DEPTH cfg =? 32).

(** ** Data *)

(** The two instances of [monitor_t]: [monitor] and, under MONITOR_DUAL,
    [monitor2]. *)
Inductive surface := Mon1 | Mon2.

Global Instance surface_eq_dec : EqDecision surface.
Proof. solve_decision. Defined.

(** [lv_disp_drv_t], the fields the driver reads. *)
Record lv_disp_drv_t := DispDrv {
  hor_res : Z;
  ver_res : Z;
  rotated : Z
}.

(** [lv_area_t]: inclusive corners. *)
Record lv_area_t := Area {
  x1 : Z;
  y1 : Z;
  x2 : Z;
  y2 : Z
}.

(** The [color_p] argument of a flush: the pointer value and the array of
    [lv_color_t] it points to (each colour by its raw [full] value). *)
Record color_buf := ColorBuf {
  buf_addr : Z;
  buf_px : list Z
}.

Definition NULL : Z := 0.

(** [monitor_t].  The SDL handles [window], [renderer] and [texture] are
    opaque to the driver, which only passes them back to SDL: an SDL call
    is recorded with the surface whose handle it is given.  A build has
    either [tft_fb_act] (double buffered) or [tft_fb]; the record carries
    both and a build only touches its own. *)
Record monitor_t := Monitor {
  sdl_refr_qry : bool;
  tft_fb_act : Z;
  tft_fb : list Z
}.

(** What SDL_UpdateTexture is handed as pixel source. *)
Inductive pixels :=
| px_owned (cells : list Z)
| px_ptr (p : Z).

Inductive SDL_WindowEventID :=
| SDL_WINDOWEVENT_EXPOSED
| SDL_WINDOWEVENT_TAKE_FOCUS
| SDL_WINDOWEVENT_CLOSE
| SDL_WINDOWEVENT_other (id : Z).

Inductive SDL_Event :=
| SDL_WINDOWEVENT (ev : SDL_WindowEventID)
| SDL_QUIT
| SDL_other (type : Z).

(** Calls into the collaborators (lvgl, SDL, the input handlers, libc) and
    stores to the volatile flag [sdl_refr_qry], in program order.
    [call_window_update] marks the entry into the static function
    [window_update], so that its invocations can be counted. *)
Inductive call :=
| lv_disp_flush_ready (drv : lv_disp_drv_t)
| wr_sdl_refr_qry (s : surface) (b : bool)
| call_window_update (s : surface)
| SDL_Init
| SDL_SetEventFilter
| SDL_CreateWindow (s : surface) (w h : Z)
| SDL_CreateRenderer (s : surface) (software : bool)
| SDL_CreateTexture (s : surface) (w h : Z)
| SDL_SetTextureBlendMode (s : surface)
| SDL_GetWindowPosition (s : surface)
| SDL_SetWindowPosition (s : surface) (x y : Z)
| SDL_UpdateTexture (s : surface) (px : pixels) (pitch : Z)
| SDL_RenderClear (s : surface)
| SDL_RenderCopy (s : surface)
| SDL_RenderPresent (s : surface)
| SDL_DestroyTexture (s : surface)
| SDL_DestroyRenderer (s : surface)
| SDL_DestroyWindow (s : surface)
| SDL_Quit
| SDL_Delay (ms : Z)
| mouse_handler (e : SDL_Event)
| mousewheel_handler (e : SDL_Event)
| keyboard_handler (e : SDL_Event)
| exit (code : Z).

(** Accesses outside an array.  C leaves them undefined; the model records
    each one and carries on (a store outside [tft_fb] leaves the array as
    it is, a load outside the source yields 0), so that a run is defined
    exactly when it records no fault. *)
Inductive fault :=
| bad_store (s : surface) (off : Z)
| bad_load (idx : nat).

(** The file-scope variables, the position SDL reports for the second
    window, the calls made so far and the faults so far. *)
Record world := World {
  monitor : monitor_t;
  monitor2 : monitor_t;
  sdl_inited : bool;
  sdl_quit_qry : bool;
  window2_pos : Z * Z;
  trace : list call;
  faults : list fault
}.

Definition mon (s : surface) (w : world) : monitor_t :=
  match s with Mon1 => monitor w | Mon2 => monitor2 w end.

Definition set_mon (s : surface) (m : monitor_t) (w : world) : world :=
  match s with
  | Mon1 => World m (monitor2 w) (sdl_inited w) (sdl_quit_qry w)
                  (window2_pos w) (trace w) (faults w)
  | Mon2 => World (monitor w) m (sdl_inited w) (sdl_quit_qry w)
                  (window2_pos w) (trace w) (faults w)
  end.

Definition log (c : call) (w : world) : world :=
  World (monitor w) (monitor2 w) (sdl_inited w) (sdl_quit_qry w)
        (window2_pos w) (trace w ++ [c]) (faults w).

Definition set_faults (fl : list fault) (w : world) : world :=
  World (monitor w) (monitor2 w) (sdl_inited w) (sdl_quit_qry w)
        (window2_pos w) (trace w) fl.

Definition set_sdl_inited (b : bool) (w : world) : world :=
  World (monitor w) (monitor2 w) b (sdl_quit_qry w)
        (window2_pos w) (trace w) (faults w).

Definition set_sdl_quit_qry (b : bool) (w : world) : world :=
  World (monitor w) (monitor2 w) (sdl_inited w) b
        (window2_pos w) (trace w) (faults w).

(** [m->sdl_refr_qry = b]: a volatile store, hence also a trace entry. *)
Definition set_refr_qry (s : surface) (b : bool) (w : world) : world :=
  let m := mon s w in
  log (wr_sdl_refr_qry s b) (set_mon s (Monitor b (tft_fb_act m) (tft_fb m)) w).

Definition set_tft_fb_act (s : surface) (p : Z) (w : world) : world :=
  let m := mon s w in
  set_mon s (Monitor (sdl_refr_qry m) p (tft_fb m)) w.

(** ** The owned frame buffer as memory *)

(** The array [tft_fb] of one surface together with the faults recorded
    while copying into it. *)
Record fbmem := FbMem {
  cells : list Z;
  flt : list fault
}.

Definition in_fb (fb : list Z) (off : Z) : bool :=
  (0 <=? off) && (off <? Z.of_nat (length fb)).

(** [tft_fb[off] = v] *)
Definition store (s : surface) (off v : Z) (m : fbmem) : fbmem :=
  if in_fb (cells m) off
  then FbMem (<[Z.to_nat off := v]> (cells m)) (flt m)
  else FbMem (cells m) (flt m ++ [bad_store s off]).

(** Read the [k]-th colour of the source, convert it with [conv] and store
    it at [off].  A read past the source array is recorded and yields 0. *)
Definition copy_cell (s : surface) (conv : Z -> Z) (src : list Z) (k : nat)
    (off : Z) (m : fbmem) : fbmem :=
  match src !! k with
  | Some c => store s off (conv c) m
  | None => store s off 0 (FbMem (cells m) (flt m ++ [bad_load k]))
  end.

(** [memcpy(&tft_fb[dst], color_p + k, n * sizeof(lv_color_t))] where
    [lv_color_t] is the 4-byte colour of the 24/32-bit builds: [n] cells
    are copied as they are. *)
Fixpoint memcpy (s : surface) (n : nat) (dst : Z) (src : list Z) (k : nat)
    (m : fbmem) : fbmem :=
  match n with
  | O => m
  | S n' => memcpy s n' (dst + 1) src (S k) (copy_cell s id src k dst m)
  end.

(** [memset(&tft_fb[dst], 0x44, n * sizeof(uint32_t))] *)
Fixpoint memset44 (s : surface) (n : nat) (dst : Z) (m : fbmem) : fbmem :=
  match n with
  | O => m
  | S n' => memset44 s n' (dst + 1) (store s dst 0x44444444 m)
  end.

(** [for (i = lo; i <= hi && cond i; i++) body]: at most [hi - lo + 1]
    rounds, each guarded by [cond]. *)
Fixpoint for_upto {St : Type} (n : nat) (cond : Z -> bool)
    (body : Z -> St -> St) (i : Z) (st : St) : St :=
  match n with
  | O => st
  | S n' => if cond i then for_upto n' cond body (i + 1) (body i st) else st
  end.

Definition for_ {St : Type} (lo hi : Z) (cond : Z -> bool)
    (body : Z -> St -> St) (st : St) : St :=
  for_upto (Z.to_nat (hi - lo + 1)) cond body lo st.

(** ** The driver *)

Section Driver.

(** lvgl's colour conversion and area width are inline helpers of the
    framework's headers; the driver is modelled over any such pair. *)
Variable lv_color_to32 : Z -> Z.
Variable lv_area_get_width : lv_area_t -> Z.

Variable cfg : config.

(** The guard of the flush functions: "Return if the area is out the
    screen", with [hres]/[vres] taken from the driver and its rotation. *)
Definition out_of_screen (drv : lv_disp_drv_t) (area : lv_area_t) : bool :=
  let hres := if rotated drv =? 0 then hor_res drv else ver_res drv in
  let vres := if rotated drv =? 0 then ver_res drv else hor_res drv in
  (x2 area <? 0) || (y2 area <? 0) || (x1 area >? hres - 1)
  || (y1 area >? vres - 1).

(** The conversion loop of the builds with LV_COLOR_DEPTH other than 24
    and 32.  The loop state is [color_p] (as an index into the source) and
    the frame buffer. *)
Definition flush_pixels (s : surface) (area : lv_area_t) (src : list Z)
    (m : fbmem) : fbmem :=
  snd (for_ (y1 area) (y2 area) (fun _ => true)
         (fun y st =>
            for_ (x1 area) (x2 area) (fun _ => true)
              (fun x st =>
                 (S (fst st),
                  copy_cell s lv_color_to32 src (fst st)
                    (y * MONITOR_HOR_RES cfg + x) (snd st)))
              st)
         (O, m)).

(** The memcpy loop of the 24/32-bit builds; [w] is a [uint32_t]. *)
Definition flush_rows (s : surface) (area : lv_area_t) (src : list Z)
    (m : fbmem) : fbmem :=
  let w := Z.to_nat (lv_area_get_width area mod 2 ^ 32) in
  snd (for_ (y1 area) (y2 area) (fun y => y <? MONITOR_VER_RES cfg)
         (fun y st =>
            ((fst st + w)%nat,
             memcpy s w (y * MONITOR_HOR_RES cfg + x1 area) src (fst st)
               (snd st)))
         (O, m)).

(** The copy of a single-buffered flush, run on the surface's [tft_fb]. *)
Definition flush_copy (s : surface) (area : lv_area_t) (src : list Z)
    (w : world) : world :=
  let m := mon s w in
  let r := (if per_pixel cfg then flush_pixels else flush_rows)
             s area src (FbMem (tft_fb m) (faults w)) in
  set_faults (flt r)
    (set_mon s (Monitor (sdl_refr_qry m) (tft_fb_act m) (cells r)) w).

(** The common body of [monitor_flush] and [monitor_flush2], which differ
    in the surface they write only. *)
Definition flush (s : surface) (drv : lv_disp_drv_t) (area : lv_area_t)
    (color_p : color_buf) (w : world) : world :=
  if out_of_screen drv area then log (lv_disp_flush_ready drv) w
  else if MONITOR_DOUBLE_BUFFERED cfg then
    log (lv_disp_flush_ready drv)
      (set_refr_qry s true (set_tft_fb_act s (buf_addr color_p) w))
  else
    log (lv_disp_flush_ready drv)
      (set_refr_qry s true (flush_copy s area (buf_px color_p) w)).

Definition monitor_flush := flush Mon1.

(** Compiled under MONITOR_DUAL only. *)
Definition monitor_flush2 := flush Mon2.

(** [window_update] *)
Definition render (s : surface) (w : world) : world :=
  log (SDL_RenderPresent s) (log (SDL_RenderCopy s) (log (SDL_RenderClear s) w)).

Definition pitch : Z := MONITOR_HOR_RES cfg * 4.

Definition window_update (s : surface) (w : world) : world :=
  let w := log (call_window_update s) w in
  if negb (MONITOR_DOUBLE_BUFFERED cfg) then
    render s (log (SDL_UpdateTexture s (px_owned (tft_fb (mon s w))) pitch) w)
  else if tft_fb_act (mon s w) =? NULL then w
  else
    render s (log (SDL_UpdateTexture s (px_ptr (tft_fb_act (mon s w))) pitch) w).

(** [window_create] *)
Definition window_create (s : surface) (w : world) : world :=
  let w := log (SDL_CreateWindow s (MONITOR_HOR_RES cfg * MONITOR_ZOOM cfg)
                  (MONITOR_VER_RES cfg * MONITOR_ZOOM cfg)) w in
  let w := log (SDL_CreateRenderer s
                  (MONITOR_VIRTUAL_MACHINE cfg || MONITOR_EMSCRIPTEN cfg)) w in
  let w := log (SDL_CreateTexture s (MONITOR_HOR_RES cfg) (MONITOR_VER_RES cfg)) w in
  let w := log (SDL_SetTextureBlendMode s) w in
  let w :=
    if MONITOR_DOUBLE_BUFFERED cfg then
      log (SDL_UpdateTexture s (px_ptr (tft_fb_act (mon s w))) pitch) w
    else
      let m := mon s w in
      let r := memset44 s (Z.to_nat (MONITOR_HOR_RES cfg * MONITOR_VER_RES cfg))
                 0 (FbMem (tft_fb m) (faults w)) in
      set_faults (flt r)
        (set_mon s (Monitor (sdl_refr_qry m) (tft_fb_act m) (cells r)) w) in
  set_refr_qry s true w.

(** [monitor_sdl_init] *)
Definition monitor_sdl_init (w : world) : world :=
  let w := log SDL_SetEventFilter (log SDL_Init w) in
  let w := window_create Mon1 w in
  let w :=
    if MONITOR_DUAL cfg then
      let w := window_create Mon2 w in
      let w := log (SDL_GetWindowPosition Mon2) w in
      let '(x, y) := window2_pos w in
      let w := log (SDL_SetWindowPosition Mon1
                      (x + MONITOR_HOR_RES cfg `quot` 2 + 10) y) w in
      log (SDL_SetWindowPosition Mon2
             (x - MONITOR_HOR_RES cfg `quot` 2 - 10) y) w
    else w in
  set_sdl_inited true w.

(** [quit_filter], which SDL runs on every event it adds to its queue. *)
Definition quit_filter (e : SDL_Event) (w : world) : world :=
  match e with
  | SDL_WINDOWEVENT SDL_WINDOWEVENT_CLOSE => set_sdl_quit_qry true w
  | SDL_WINDOWEVENT _ => w
  | SDL_QUIT => set_sdl_quit_qry true w
  | SDL_other _ => w
  end.

(** The [switch] on window events in the polling loop. *)
Definition exposes (e : SDL_Event) : bool :=
  match e with
  | SDL_WINDOWEVENT SDL_WINDOWEVENT_TAKE_FOCUS => SDL_VERSION_ATLEAST_2_0_5 cfg
  | SDL_WINDOWEVENT SDL_WINDOWEVENT_EXPOSED => true
  | _ => false
  end.

(** One round of [while(SDL_PollEvent(&event))]. *)
Definition dispatch (e : SDL_Event) (w : world) : world :=
  let w := if USE_MOUSE cfg then log (mouse_handler e) w else w in
  let w := if USE_MOUSEWHEEL cfg then log (mousewheel_handler e) w else w in
  let w := if USE_KEYBOARD cfg then log (keyboard_handler e) w else w in
  if exposes e then
    let w := window_update Mon1 w in
    if MONITOR_DUAL cfg then window_update Mon2 w else w
  else w.

Definition refresh_if_queried (s : surface) (w : world) : world :=
  if sdl_refr_qry (mon s w)
  then window_update s (set_refr_qry s false w)
  else w.

(** [monitor_sdl_refr_core]; [queued] are the events SDL_PollEvent hands
    out during this cycle. *)
Definition monitor_sdl_refr_core (queued : list SDL_Event) (w : world) : world :=
  let w := refresh_if_queried Mon1 w in
  let w := if MONITOR_DUAL cfg then refresh_if_queried Mon2 w else w in
  let w :=
    if negb (MONITOR_APPLE cfg) && negb (MONITOR_EMSCRIPTEN cfg)
    then fold_left (fun w e => dispatch e w) queued w
    else w in
  log (SDL_Delay SDL_REFR_PERIOD) w.

(** [monitor_sdl_clean_up] *)
Definition destroy (s : surface) (w : world) : world :=
  log (SDL_DestroyWindow s)
    (log (SDL_DestroyRenderer s) (log (SDL_DestroyTexture s) w)).

Definition monitor_sdl_clean_up (w : world) : world :=
  let w := destroy Mon1 w in
  let w := if MONITOR_DUAL cfg then destroy Mon2 w else w in
  log SDL_Quit w.

(** SDL adds the events of one cycle to its queue, running the installed
    filter on each. *)
Definition SDL_add_events (evs : list SDL_Event) (w : world) : world :=
  fold_left (fun w e => quit_filter e w) evs w.

(** [while(sdl_quit_qry == false) monitor_sdl_refr_core();] over the events
    that arrive cycle by cycle.  [None]: the loop is still running when the
    given cycles are used up. *)
Fixpoint refr_loop (cycles : list (list SDL_Event)) (w : world) : option world :=
  match cycles with
  | [] => if sdl_quit_qry w then Some w else None
  | evs :: rest =>
      if sdl_quit_qry w then Some w
      else refr_loop rest (monitor_sdl_refr_core evs (SDL_add_events evs w))
  end.

(** [monitor_sdl_refr_thread] *)
Definition monitor_sdl_refr_thread (cycles : list (list SDL_Event))
    (w : world) : option world :=
  let w := if MONITOR_APPLE cfg then w else monitor_sdl_init w in
  match refr_loop cycles w with
  | Some w => Some (log (exit 0) (monitor_sdl_clean_up w))
  | None => None
  end.

End Driver.

(** ** Reading traces *)

(** The surface a call concerns, if any. *)
Definition surface_of (c : call) : option surface :=
  match c with
  | wr_sdl_refr_qry s _ | call_window_update s
  | SDL_CreateWindow s _ _ | SDL_CreateRenderer s _ | SDL_CreateTexture s _ _
  | SDL_SetTextureBlendMode s | SDL_GetWindowPosition s
  | SDL_SetWindowPosition s _ _ | SDL_UpdateTexture s _ _
  | SDL_RenderClear s | SDL_RenderCopy s | SDL_RenderPresent s
  | SDL_DestroyTexture s | SDL_DestroyRenderer s | SDL_DestroyWindow s => Some s
  | _ => None
  end.

(** SDL calls on the texture or renderer of surface [s]. *)
Definition draws_on (s : surface) (c : call) : bool :=
  match c with
  | SDL_UpdateTexture s' _ _ | SDL_RenderClear s' | SDL_RenderCopy s'
  | SDL_RenderPresent s' => bool_decide (s' = s)
  | _ => false
  end.

Definition is_flush_ready (c : call) : bool :=
  match c with lv_disp_flush_ready _ => true | _ => false end.

Definition is_window_update (s : surface) (c : call) : bool :=
  match c with call_window_update s' => bool_decide (s' = s) | _ => false end.

Definition is_present (s : surface) (c : call) : bool :=
  match c with SDL_RenderPresent s' => bool_decide (s' = s) | _ => false end.

Definition is_teardown (c : call) : bool :=
  match c with
  | SDL_DestroyTexture _ | SDL_DestroyRenderer _ | SDL_DestroyWindow _
  | SDL_Quit | exit _ => true
  | _ => false
  end.

Definition count (p : call -> bool) (l : list call) : nat :=
  length (List.filter p l).

(** The pixel sources handed to SDL_UpdateTexture for surface [s]. *)
Fixpoint pushed (s : surface) (l : list call) : list pixels :=
  match l with
  | [] => []
  | SDL_UpdateTexture s' px _ :: l' =>
      if bool_decide (s' = s) then px :: pushed s l' else pushed s l'
  | _ :: l' => pushed s l'
  end.

(** Events that make [quit_filter] raise the quit request. *)
Definition quits (e : SDL_Event) : bool :=
  match e with
  | SDL_WINDOWEVENT SDL_WINDOWEVENT_CLOSE | SDL_QUIT => true
  | _ => false
  end.

(** The surfaces a build has. *)
Definition configured (cfg : config) (s : surface) : bool :=
  match s with Mon1 => true | Mon2 => MONITOR_DUAL cfg end.

(** The build polls SDL events inside the refresh cycle. *)
Definition pumps (cfg : config) : bool :=
  negb (MONITOR_APPLE cfg) && negb (MONITOR_EMSCRIPTEN cfg).

(** What a surface would present: its own array, or the borrowed pointer. *)
Definition presentable (cfg : config) (m : monitor_t) : pixels :=
  if MONITOR_DOUBLE_BUFFERED cfg then px_ptr (tft_fb_act m)
  else px_owned (tft_fb m).

Definition can_present (cfg : config) (m : monitor_t) : bool :=
  negb (MONITOR_DOUBLE_BUFFERED cfg) || negb (tft_fb_act m =? NULL).

(** ** Closed forms of the refresh cycle *)

Definition logs (l : list call) (w : world) : world :=
  World (monitor w) (monitor2 w) (sdl_inited w) (sdl_quit_qry w)
        (window2_pos w) (trace w ++ l) (faults w).

Definition clear_qry (m : monitor_t) : monitor_t :=
  Monitor false (tft_fb_act m) (tft_fb m).

(** The calls of one [window_update] on a surface in state [m]. *)
Definition update_calls (cfg : config) (s : surface) (m : monitor_t) : list call :=
  call_window_update s ::
  (if can_present cfg m
   then [SDL_UpdateTexture s (presentable cfg m) (pitch cfg);
         SDL_RenderClear s; SDL_RenderCopy s; SDL_RenderPresent s]
   else []).

Definition refresh_calls (cfg : config) (s : surface) (m : monitor_t) : list call :=
  if sdl_refr_qry m then wr_sdl_refr_qry s false :: update_calls cfg s m else [].

Definition dispatch_calls (cfg : config) (m1 m2 : monitor_t) (e : SDL_Event)
    : list call :=
  (if USE_MOUSE cfg then [mouse_handler e] else [])
  ++ (if USE_MOUSEWHEEL cfg then [mousewheel_handler e] else [])
  ++ (if USE_KEYBOARD cfg then [keyboard_handler e] else [])
  ++ (if exposes cfg e
      then update_calls cfg Mon1 m1
           ++ (if MONITOR_DUAL cfg then update_calls cfg Mon2 m2 else [])
      else []).

Definition cycle_calls (cfg : config) (queued : list SDL_Event) (w : world)
    : list call :=
  refresh_calls cfg Mon1 (monitor w)
  ++ (if MONITOR_DUAL cfg then refresh_calls cfg Mon2 (monitor2 w) else [])
  ++ (if pumps cfg
      then concat (map (dispatch_calls cfg (monitor w) (monitor2 w)) queued)
      else [])
  ++ [SDL_Delay SDL_REFR_PERIOD].


(** Calls that concern surface [s]. *)
Definition on (s : surface) (c : call) : bool :=
  bool_decide (surface_of c = Some s).

(** How often the polling loop of one cycle re-presents on its own. *)
Definition exposures (cfg : config) (queued : list SDL_Event) : nat :=
  if pumps cfg then length (List.filter (exposes cfg) queued) else O.

(** The calls of [monitor_sdl_clean_up]. *)
Definition teardown_calls (cfg : config) : list call :=
  [SDL_DestroyTexture Mon1; SDL_DestroyRenderer Mon1; SDL_DestroyWindow Mon1]
  ++ (if MONITOR_DUAL cfg
      then [SDL_DestroyTexture Mon2; SDL_DestroyRenderer Mon2;
            SDL_DestroyWindow Mon2]
      else [])
  ++ [SDL_Quit].

(** ** Sample builds and inputs *)

(** A build with the surface and the array of the same size, all input
    handlers, SDL >= 2.0.5, on a platform that polls in the cycle. *)
Definition build (double dual : bool) (depth hres vres : Z) : config :=
  Config double dual depth hres vres hres vres 1 false false false true
         true true true.

(** A sample conversion of a 16-bit colour (RGB565 to ARGB8888). *)
Definition rgb565_to32 (c : Z) : Z :=
  Z.lor (Z.shiftl 0xFF 24)
    (Z.lor (Z.shiftl (Z.land (Z.shiftr c 11) 0x1F * 8) 16)
       (Z.lor (Z.shiftl (Z.land (Z.shiftr c 5) 0x3F * 4) 8)
          (Z.land c 0x1F * 8))).

(** The width of an area with [x1 <= x2], as lvgl computes it. *)
Definition area_width (a : lv_area_t) : Z := x2 a - x1 a + 1.

(** A world before any call: both flags down, no borrowed pointer, the
    arrays holding [fb]. *)
Definition fresh (fb : list Z) : world :=
  World (Monitor false NULL fb) (Monitor false NULL fb) false false (0, 0) [] [].

(** ** Auxiliary notions for the copy loops *)

(** The faults a single [copy_cell] adds. *)
Definition cell_faults (s : surface) (src : list Z) (k : nat) (off : Z)
    (fb : list Z) : list fault :=
  (match src !! k with Some _ => [] | None => [bad_load k] end)
  ++ (if in_fb fb off then [] else [bad_store s off]).

(** The loop state of the copy loops: [color_p] as an index, and the
    frame buffer. *)
Definition copy_state : Type := nat * fbmem.

(** One row of the copy, as both loops perform it: [n] cells from source
    index [fst st] to offset [y * hres + x], then [color_p += n]. *)
Definition copy_row (s : surface) (hres : Z) (x : Z) (n : nat) (src : list Z)
    (y : Z) (st : copy_state) : copy_state :=
  ((fst st + n)%nat, memcpy s n (y * hres + x) src (fst st) (snd st)).

(** The pixel format a build stores: converted, or as it comes. *)
Definition stored (lv_color_to32 : Z -> Z) (cfg : config) : Z -> Z :=
  if per_pixel cfg then lv_color_to32 else id.

(** The same build at another colour depth. *)
Definition with_depth (d : Z) (cfg : config) : config :=
  Config (MONITOR_DOUBLE_BUFFERED cfg) (MONITOR_DUAL cfg) d
         (LV_HOR_RES_MAX cfg) (LV_VER_RES_MAX cfg)
         (MONITOR_HOR_RES cfg) (MONITOR_VER_RES cfg) (MONITOR_ZOOM cfg)
         (MONITOR_VIRTUAL_MACHINE cfg) (MONITOR_APPLE cfg)
         (MONITOR_EMSCRIPTEN cfg) (SDL_VERSION_ATLEAST_2_0_5 cfg)
         (USE_MOUSE cfg) (USE_MOUSEWHEEL cfg) (USE_KEYBOARD cfg).

(** Every cell of the surface outside the rectangle reads the same in
    [before] and [after]. *)
Definition outside_untouched (cfg : config) (area : lv_area_t)
    (before after : list Z) : Prop :=
  forall x y,
    0 <= x < MONITOR_HOR_RES cfg -> 0 <= y < MONITOR_VER_RES cfg ->
    ~ (x1 area <= x <= x2 area /\ y1 area <= y <= y2 area) ->
    after !! Z.to_nat (y * MONITOR_HOR_RES cfg + x)
    = before !! Z.to_nat (y * MONITOR_HOR_RES cfg + x).

(** [uint32_t tft_fb[LV_HOR_RES_MAX * LV_VER_RES_MAX]]: the declared size
    of the owned array. *)
Definition fb_declared (cfg : config) (m : monitor_t) : Prop :=
  Z.of_nat (length (tft_fb m)) = LV_HOR_RES_MAX cfg * LV_VER_RES_MAX cfg.

(** ** Further notions for reading runs of the driver *)

(** The bounds the flush guard compares against: the driver's resolution,
    swapped when the display is rotated. *)
Definition effective_hres (drv : lv_disp_drv_t) : Z :=
  if rotated drv =? 0 then hor_res drv else ver_res drv.

Definition effective_vres (drv : lv_disp_drv_t) : Z :=
  if rotated drv =? 0 then ver_res drv else hor_res drv.

Definition is_handler (c : call) : bool :=
  match c with
  | mouse_handler _ | mousewheel_handler _ | keyboard_handler _ => true
  | _ => false
  end.

Definition is_delay (c : call) : bool :=
  match c with SDL_Delay _ => true | _ => false end.

Definition is_set_position (c : call) : bool :=
  match c with SDL_SetWindowPosition _ _ _ => true | _ => false end.

(** The input handlers a build offers an event to, in the order of the
    polling loop. *)
Definition handler_calls (cfg : config) (e : SDL_Event) : list call :=
  (if USE_MOUSE cfg then [mouse_handler e] else [])
  ++ (if USE_MOUSEWHEEL cfg then [mousewheel_handler e] else [])
  ++ (if USE_KEYBOARD cfg then [keyboard_handler e] else []).

(** The four SDL calls by which [window_update] presents. *)
Definition present_calls (cfg : config) (s : surface) (m : monitor_t) : list call :=
  [SDL_UpdateTexture s (presentable cfg m) (pitch cfg);
   SDL_RenderClear s; SDL_RenderCopy s; SDL_RenderPresent s].

(** One flush request: the arguments of [monitor_flush]. *)
Record flush_req := FlushReq {
  req_drv : lv_disp_drv_t;
  req_area : lv_area_t;
  req_color_p : color_buf
}.

(** Flush requests served one after the other on surface [s], with no
    refresh cycle in between. *)
Definition flush_all (lv_color_to32 : Z -> Z)
    (lv_area_get_width : lv_area_t -> Z) (cfg : config) (s : surface)
    (reqs : list flush_req) (w : world) : world :=
  fold_left
    (fun w r => flush lv_color_to32 lv_area_get_width cfg s
                  (req_drv r) (req_area r) (req_color_p r) w)
    reqs w.

Definition passes_guard (r : flush_req) : bool :=
  negb (out_of_screen (req_drv r) (req_area r)).

(** The cycles the refresh loop gets to run: up to and including the
    first one in which a quit event arrives. *)
Fixpoint until_quit (cycles : list (list SDL_Event)) : list (list SDL_Event) :=
  match cycles with
  | [] => []
  | evs :: rest => if existsb quits evs then [evs] else evs :: until_quit rest
  end.

(** The calls of [window_create] on a surface in state [m]. *)
Definition create_calls (cfg : config) (s : surface) (m : monitor_t) : list call :=
  [SDL_CreateWindow s (MONITOR_HOR_RES cfg * MONITOR_ZOOM cfg)
     (MONITOR_VER_RES cfg * MONITOR_ZOOM cfg);
   SDL_CreateRenderer s (MONITOR_VIRTUAL_MACHINE cfg || MONITOR_EMSCRIPTEN cfg);
   SDL_CreateTexture s (MONITOR_HOR_RES cfg) (MONITOR_VER_RES cfg);
   SDL_SetTextureBlendMode s]
  ++ (if MONITOR_DOUBLE_BUFFERED cfg
      then [SDL_UpdateTexture s (px_ptr (tft_fb_act m)) (pitch cfg)]
      else [])
  ++ [wr_sdl_refr_qry s true].

(** The calls of [monitor_sdl_init]. *)
Definition init_calls (cfg : config) (w : world) : list call :=
  [SDL_Init; SDL_SetEventFilter]
  ++ create_calls cfg Mon1 (monitor w)
  ++ (if MONITOR_DUAL cfg
      then create_calls cfg Mon2 (monitor2 w)
           ++ [SDL_GetWindowPosition Mon2;
               SDL_SetWindowPosition Mon1
                 (fst (window2_pos w) + MONITOR_HOR_RES cfg `quot` 2 + 10)
                 (snd (window2_pos w));
               SDL_SetWindowPosition Mon2
                 (fst (window2_pos w) - MONITOR_HOR_RES cfg `quot` 2 - 10)
                 (snd (window2_pos w))]
      else []).

(** The gray every cell is set to at start-up. *)
Definition gray : Z := 0x44444444.

(** The number of cells [window_create] sets. *)
Definition surface_cells (cfg : config) : nat :=
  Z.to_nat (MONITOR_HOR_RES cfg * MONITOR_VER_RES cfg).

(** The array and faults [window_create] leaves for a surface in state
    [m]: untouched when double buffered, else after the memset. *)
Definition created (cfg : config) (s : surface) (m : monitor_t)
    (fl : list fault) : fbmem :=
  if MONITOR_DOUBLE_BUFFERED cfg then FbMem (tft_fb m) fl
  else memset44 s (surface_cells cfg) 0 (FbMem (tft_fb m) fl).

(** The calls that create, and those that destroy, a native handle of
    surface [s]. *)
Definition creates (s : surface) (c : call) : bool :=
  match c with
  | SDL_CreateWindow s' _ _ | SDL_CreateRenderer s' _ | SDL_CreateTexture s' _ _ =>
      bool_decide (s' = s)
  | _ => false
  end.

Definition destroys (s : surface) (c : call) : bool :=
  match c with
  | SDL_DestroyTexture s' | SDL_DestroyRenderer s' | SDL_DestroyWindow s' =>
      bool_decide (s' = s)
  | _ => false
  end.

(** The kinds of call a refresh cycle can make. *)
Definition cycle_call (c : call) : bool :=
  match c with
  | wr_sdl_refr_qry _ _ | call_window_update _ | SDL_UpdateTexture _ _ _
  | SDL_RenderClear _ | SDL_RenderCopy _ | SDL_RenderPresent _ | SDL_Delay _
  | mouse_handler _ | mousewheel_handler _ | keyboard_handler _ => true
  | _ => false
  end.

(** How many rows, and how many cells per row, the copy of a build goes
    through for a rectangle: the conversion loop takes the rectangle as
    it is, the memcpy loop stops at the surface's bottom edge and takes
    the width as a [uint32_t]. *)
Definition copied_rows (cfg : config) (area : lv_area_t) : nat :=
  if per_pixel cfg then Z.to_nat (y2 area - y1 area + 1)
  else Z.to_nat (Z.min (y2 area - y1 area + 1) (MONITOR_VER_RES cfg - y1 area)).

Definition copied_width (lv_area_get_width : lv_area_t -> Z) (cfg : config)
    (area : lv_area_t) : nat :=
  if per_pixel cfg then Z.to_nat (x2 area - x1 area + 1)
  else Z.to_nat (lv_area_get_width area mod 2 ^ 32).

(** ** Rectangles within the surface *)

(** A flush of [area] with source [src] into the array [fb] that stays
    within the surface's width and within both arrays: the helper gives
    the rectangle's width, [0 <= x1 <= x2 < MONITOR_HOR_RES], [0 <= y1],
    on the conversion path also [y2 < MONITOR_VER_RES], the array holds
    the surface and the source holds the rectangle. *)
Definition within_surface (lv_area_get_width : lv_area_t -> Z) (cfg : config)
    (area : lv_area_t) (src fb : list Z) : Prop :=
  lv_area_get_width area = x2 area - x1 area + 1
  /\ 0 <= x1 area /\ x1 area <= x2 area /\ x2 area < MONITOR_HOR_RES cfg
  /\ MONITOR_HOR_RES cfg < 2 ^ 31
  /\ 0 <= y1 area
  /\ (per_pixel cfg = true -> y2 area < MONITOR_VER_RES cfg)
  /\ MONITOR_HOR_RES cfg * MONITOR_VER_RES cfg <= Z.of_nat (length fb)
  /\ 0 <= y2 area - y1 area + 1
  /\ (x2 area - x1 area + 1) * (y2 area - y1 area + 1) <= Z.of_nat (length src).

(** The cells of the rectangle above the surface's bottom edge. *)
Definition covers (cfg : config) (area : lv_area_t) (x y : Z) : Prop :=
  x1 area <= x <= x2 area /\ y1 area <= y <= y2 area /\ y < MONITOR_VER_RES cfg.

(** The colour the source holds for cell [(x, y)] of the rectangle
    (row-major), in the form the build stores. *)
Definition source_pixel (lv_color_to32 : Z -> Z) (cfg : config)
    (area : lv_area_t) (src : list Z) (x y : Z) : option Z :=
  stored lv_color_to32 cfg
    <$> src !! Z.to_nat ((y - y1 area) * (x2 area - x1 area + 1) + (x - x1 area)).
Lemma logs_nil w : logs [] w = w.
Proof. destruct w; unfold logs; simpl. by rewrite app_nil_r. Qed.

Lemma logs_logs l1 l2 w : logs l2 (logs l1 w) = logs (l1 ++ l2) w.
Proof. unfold logs; simpl. by rewrite app_assoc. Qed.

Lemma log_logs c w : log c w = logs [c] w.
Proof. reflexivity. Qed.

Lemma mon_logs s l w : mon s (logs l w) = mon s w.
Proof. by destruct s. Qed.

Lemma window_update_logs cfg s w :
  window_update cfg s w = logs (update_calls cfg s (mon s w)) w.
Proof.
  unfold window_update, update_calls, can_present, presentable, render.
  rewrite !log_logs, ?mon_logs.
  destruct (MONITOR_DOUBLE_BUFFERED cfg); simpl.
  - destruct (tft_fb_act (mon s w) =? NULL); simpl; [done|].
    by rewrite !logs_logs.
  - by rewrite !logs_logs.
Qed.

Lemma dispatch_logs cfg e w :
  dispatch cfg e w = logs (dispatch_calls cfg (monitor w) (monitor2 w) e) w.
Proof.
  unfold dispatch, dispatch_calls.
  rewrite !window_update_logs, !log_logs.
  destruct (USE_MOUSE cfg), (USE_MOUSEWHEEL cfg), (USE_KEYBOARD cfg),
    (exposes cfg e), (MONITOR_DUAL cfg);
    rewrite ?logs_logs, ?mon_logs; simpl; rewrite ?app_nil_r, ?logs_nil;
    try reflexivity.
Qed.

Lemma poll_logs cfg queued w :
  fold_left (fun w e => dispatch cfg e w) queued w
  = logs (concat (map (dispatch_calls cfg (monitor w) (monitor2 w)) queued)) w.
Proof.
  revert w. induction queued as [|e q IH]; intros w; simpl.
  - by rewrite logs_nil.
  - rewrite IH, dispatch_logs, logs_logs. reflexivity.
Qed.

Lemma refresh_if_queried_eq cfg s w :
  refresh_if_queried cfg s w
  = logs (refresh_calls cfg s (mon s w))
      (if sdl_refr_qry (mon s w) then set_mon s (clear_qry (mon s w)) w else w).
Proof.
  unfold refresh_if_queried, refresh_calls.
  destruct (sdl_refr_qry (mon s w)) eqn:E; [|by rewrite logs_nil].
  rewrite window_update_logs. unfold set_refr_qry.
  rewrite log_logs, logs_logs, mon_logs.
  destruct s; reflexivity.
Qed.

(** The whole refresh cycle: the flags of the configured surfaces end up
    cleared, nothing else of the state changes, and the calls made are
    [cycle_calls]. *)
Lemma refr_core_eq cfg queued w :
  monitor_sdl_refr_core cfg queued w
  = World (clear_qry (monitor w))
          (if MONITOR_DUAL cfg then clear_qry (monitor2 w) else monitor2 w)
          (sdl_inited w) (sdl_quit_qry w) (window2_pos w)
          (trace w ++ cycle_calls cfg queued w) (faults w).
Proof.
  unfold monitor_sdl_refr_core, cycle_calls, pumps.
  rewrite !refresh_if_queried_eq, poll_logs, !log_logs.
  destruct w as [[q1 p1 f1] [q2 p2 f2] i q pos tr fl].
  destruct (MONITOR_DUAL cfg), (MONITOR_APPLE cfg), (MONITOR_EMSCRIPTEN cfg),
    q1, q2; simpl; unfold logs, clear_qry; simpl;
    rewrite <- ?app_assoc; simpl; rewrite ?app_nil_r; reflexivity.
Qed.

(** ** Projections of a trace *)

Lemma pushed_app s l1 l2 : pushed s (l1 ++ l2) = pushed s l1 ++ pushed s l2.
Proof.
  induction l1 as [|c l1 IH]; simpl; [done|].
  destruct c; simpl; try apply IH.
  case_bool_decide; simpl; by rewrite IH.
Qed.

Lemma pushed_on s l : pushed s (List.filter (on s) l) = pushed s l.
Proof.
  induction l as [|c l IH]; simpl; [done|].
  destruct c; try (destruct (on s _); simpl; exact IH).
  unfold on in *; simpl. destruct s, s0; simpl; first [exact IH | by f_equal].
Qed.

Lemma filter_on p s l :
  (forall c, p c = true -> on s c = true) ->
  List.filter p (List.filter (on s) l) = List.filter p l.
Proof.
  intros Hp. induction l as [|c l IH]; simpl; [done|].
  destruct (on s c) eqn:E; simpl.
  - by rewrite IH.
  - destruct (p c) eqn:Ep; [|done]. apply Hp in Ep. congruence.
Qed.

Lemma count_app p l1 l2 : count p (l1 ++ l2) = (count p l1 + count p l2)%nat.
Proof. unfold count. by rewrite List.filter_app, List.length_app. Qed.

Lemma count_concat_replicate p n l :
  count p (concat (replicate n l)) = (n * count p l)%nat.
Proof.
  induction n as [|n IH]; simpl; [done|]. by rewrite count_app, IH.
Qed.

Lemma pushed_concat_replicate s n l :
  pushed s (concat (replicate n l)) = concat (replicate n (pushed s l)).
Proof.
  induction n as [|n IH]; simpl; [done|]. by rewrite pushed_app, IH.
Qed.

Lemma on_update_calls cfg s s' m :
  List.filter (on s) (update_calls cfg s' m)
  = if bool_decide (s' = s) then update_calls cfg s' m else [].
Proof.
  unfold update_calls. destruct (can_present cfg m), s, s'; reflexivity.
Qed.

Lemma on_refresh_calls cfg s s' m :
  List.filter (on s) (refresh_calls cfg s' m)
  = if bool_decide (s' = s) then refresh_calls cfg s' m else [].
Proof.
  unfold refresh_calls. destruct (sdl_refr_qry m); [|by case_bool_decide].
  change (wr_sdl_refr_qry s' false :: update_calls cfg s' m)
    with ([wr_sdl_refr_qry s' false] ++ update_calls cfg s' m).
  rewrite List.filter_app, on_update_calls. destruct s, s'; reflexivity.
Qed.

Lemma on_dispatch_calls cfg s m1 m2 e :
  configured cfg s = true ->
  List.filter (on s) (dispatch_calls cfg m1 m2 e)
  = if exposes cfg e then update_calls cfg s (mon s (World m1 m2 false false (0, 0) [] []))
    else [].
Proof.
  intros Hs. unfold dispatch_calls.
  rewrite !List.filter_app.
  replace (List.filter (on s) (if USE_MOUSE cfg then [mouse_handler e] else []))
    with (@nil call) by (by destruct (USE_MOUSE cfg)).
  replace (List.filter (on s) (if USE_MOUSEWHEEL cfg then [mousewheel_handler e] else []))
    with (@nil call) by (by destruct (USE_MOUSEWHEEL cfg)).
  replace (List.filter (on s) (if USE_KEYBOARD cfg then [keyboard_handler e] else []))
    with (@nil call) by (by destruct (USE_KEYBOARD cfg)).
  rewrite !app_nil_l. destruct (exposes cfg e); [|done].
  rewrite List.filter_app, on_update_calls.
  destruct (MONITOR_DUAL cfg) eqn:D.
  - rewrite on_update_calls. destruct s; simpl; by rewrite ?app_nil_r.
  - destruct s; simpl in *; [by rewrite app_nil_r | congruence].
Qed.

(** The calls of one cycle that concern a configured surface: the refresh
    its flag asked for, then one [window_update] per exposure. *)
Lemma cycle_calls_on cfg queued w s :
  configured cfg s = true ->
  List.filter (on s) (cycle_calls cfg queued w)
  = refresh_calls cfg s (mon s w)
    ++ concat (replicate (exposures cfg queued) (update_calls cfg s (mon s w))).
Proof.
  intros Hs. unfold cycle_calls, exposures.
  rewrite !List.filter_app, on_refresh_calls.
  assert (Hpoll : forall q,
    List.filter (on s)
      (concat (map (dispatch_calls cfg (monitor w) (monitor2 w)) q))
    = concat (replicate (length (List.filter (exposes cfg) q))
                (update_calls cfg s (mon s w)))).
  { induction q as [|e q IH]; simpl; [done|].
    rewrite List.filter_app, IH, on_dispatch_calls by done.
    destruct (exposes cfg e); simpl; [|done]. by destruct s. }
  replace (List.filter (on s)
             (if pumps cfg
              then concat (map (dispatch_calls cfg (monitor w) (monitor2 w)) queued)
              else []))
    with (concat (replicate
                    (if pumps cfg then length (List.filter (exposes cfg) queued) else O)
                    (update_calls cfg s (mon s w))))
    by (destruct (pumps cfg); [by rewrite Hpoll | done]).
  simpl. rewrite app_nil_r.
  destruct (MONITOR_DUAL cfg) eqn:D.
  - rewrite on_refresh_calls. destruct s; simpl; by rewrite ?app_nil_r.
  - destruct s; simpl in *; [done | congruence].
Qed.

Lemma trace_refr_core cfg queued w :
  trace (monitor_sdl_refr_core cfg queued w) = trace w ++ cycle_calls cfg queued w.
Proof. by rewrite refr_core_eq. Qed.

Lemma mon_refr_core cfg queued w s :
  configured cfg s = true ->
  mon s (monitor_sdl_refr_core cfg queued w) = clear_qry (mon s w).
Proof.
  intros Hs. rewrite refr_core_eq. destruct s; simpl in *; [done|].
  by rewrite Hs.
Qed.

(** ** The flush entry points *)

Section FlushControl.

Variable lv_color_to32 : Z -> Z.
Variable lv_area_get_width : lv_area_t -> Z.
Variable cfg : config.

Local Abbreviation run := (flush lv_color_to32 lv_area_get_width cfg).

Lemma trace_log c w : trace (log c w) = trace w ++ [c].
Proof. reflexivity. Qed.

Lemma trace_set_refr_qry s b w :
  trace (set_refr_qry s b w) = trace w ++ [wr_sdl_refr_qry s b].
Proof. by destruct s. Qed.

Lemma mon_set_refr_qry s b w :
  sdl_refr_qry (mon s (set_refr_qry s b w)) = b.
Proof. by destruct s. Qed.

Lemma flush_copy_trace s area src w :
  trace (flush_copy lv_color_to32 lv_area_get_width cfg s area src w) = trace w.
Proof. unfold flush_copy. by destruct s. Qed.

Lemma flush_copy_other s s' area src w :
  s' <> s ->
  mon s' (flush_copy lv_color_to32 lv_area_get_width cfg s area src w) = mon s' w.
Proof. unfold flush_copy. by destruct s, s'. Qed.

(** C1.  A rectangle that the guard finds fully outside the effective
    bounds is acknowledged and nothing else happens: the call adds
    [lv_disp_flush_ready] to the trace, and both surfaces (owned buffer,
    borrowed pointer, pending-refresh flag) and the fault record are as
    before. *)
Theorem C1_out_of_screen_only_acknowledges s drv area color_p w :
  out_of_screen drv area = true ->
  trace (run s drv area color_p w) = trace w ++ [lv_disp_flush_ready drv]
  /\ mon Mon1 (run s drv area color_p w) = mon Mon1 w
  /\ mon Mon2 (run s drv area color_p w) = mon Mon2 w
  /\ faults (run s drv area color_p w) = faults w.
Proof.
  intros Hout. unfold flush. rewrite Hout. by destruct s.
Qed.

(** C2.  Every call of [monitor_flush] / [monitor_flush2] acknowledges
    exactly once.  The calls it adds to the trace are the acknowledgment
    alone on the early return, and on every other branch the store of
    [true] to the pending-refresh flag followed by the acknowledgment. *)
Theorem C2_one_acknowledgment_after_flag s drv area color_p w :
  trace (run s drv area color_p w)
  = trace w ++ (if out_of_screen drv area
                then [lv_disp_flush_ready drv]
                else [wr_sdl_refr_qry s true; lv_disp_flush_ready drv])
  /\ count is_flush_ready (trace (run s drv area color_p w))
     = S (count is_flush_ready (trace w))
  /\ sdl_refr_qry (mon s (run s drv area color_p w))
     = if out_of_screen drv area then sdl_refr_qry (mon s w) else true.
Proof.
  assert (Ht : trace (run s drv area color_p w)
    = trace w ++ (if out_of_screen drv area
                  then [lv_disp_flush_ready drv]
                  else [wr_sdl_refr_qry s true; lv_disp_flush_ready drv])).
  { unfold flush.
    destruct (out_of_screen drv area); [done|].
    destruct (MONITOR_DOUBLE_BUFFERED cfg);
      rewrite trace_log, trace_set_refr_qry, <- app_assoc.
    - by destruct s.
    - by rewrite flush_copy_trace. }
  split; [exact Ht|]. split.
  - rewrite Ht, count_app.
    destruct (out_of_screen drv area); unfold count; simpl; lia.
  - unfold flush.
    destruct (out_of_screen drv area); [by destruct s|].
    destruct (MONITOR_DOUBLE_BUFFERED cfg);
      rewrite log_logs, mon_logs; apply mon_set_refr_qry.
Qed.

End FlushControl.

Lemma C1_out_of_screen_only_acknowledges_witness :
  let cfg := build false false 32 480 320 in
  let drv := DispDrv 480 320 0 in
  let area := Area 500 10 510 19 in
  let buf := ColorBuf 4096 (replicate 110 0xFF00FF00) in
  let w := fresh (replicate (Z.to_nat (480 * 320)) 0x44444444) in
  out_of_screen drv area = true
  /\ trace (monitor_flush id area_width cfg drv area buf w)
     = trace w ++ [lv_disp_flush_ready drv]
  /\ mon Mon1 (monitor_flush id area_width cfg drv area buf w) = mon Mon1 w.
Proof.
  intros cfg drv area buf w.
  split; [reflexivity|].
  destruct (C1_out_of_screen_only_acknowledges id area_width cfg Mon1 drv area
              buf w eq_refl) as (Ht & Hm & _).
  split; [exact Ht | exact Hm].
Defined.

(** ** The refresh cycle *)

Lemma draws_on_on s c : draws_on s c = true -> on s c = true.
Proof. destruct c; simpl; try done; unfold on; simpl; destruct s, s0; done. Qed.

Lemma is_window_update_on s c : is_window_update s c = true -> on s c = true.
Proof. destruct c; simpl; try done; unfold on; simpl; destruct s, s0; done. Qed.

Lemma is_present_on s c : is_present s c = true -> on s c = true.
Proof. destruct c; simpl; try done; unfold on; simpl; destruct s, s0; done. Qed.

Lemma count_on p s l :
  (forall c, p c = true -> on s c = true) ->
  count p (List.filter (on s) l) = count p l.
Proof. intros Hp. unfold count. by rewrite filter_on. Qed.

Lemma count_refresh_calls p cfg s m :
  p (wr_sdl_refr_qry s false) = false ->
  count p (refresh_calls cfg s m)
  = if sdl_refr_qry m then count p (update_calls cfg s m) else O.
Proof.
  intros Hp. unfold refresh_calls. destruct (sdl_refr_qry m); [|done].
  unfold count. simpl. by rewrite Hp.
Qed.

(** How often a call satisfying [p] is made on a configured surface in one
    cycle, in terms of a single [window_update]. *)
Lemma count_cycle p cfg queued w s :
  configured cfg s = true ->
  (forall c, p c = true -> on s c = true) ->
  p (wr_sdl_refr_qry s false) = false ->
  count p (trace (monitor_sdl_refr_core cfg queued w))
  = (count p (trace w)
     + ((if sdl_refr_qry (mon s w) then 1 else 0) + exposures cfg queued)
       * count p (update_calls cfg s (mon s w)))%nat.
Proof.
  intros Hs Hon Hwr.
  rewrite trace_refr_core, count_app. f_equal.
  rewrite <- (count_on p s) by done.
  rewrite cycle_calls_on, count_app, count_concat_replicate,
    count_refresh_calls by done.
  destruct (sdl_refr_qry (mon s w)); lia.
Qed.

(** C6.  Double-buffered build, borrowed pointer still null: [window_update]
    returns right after being entered, and a whole refresh cycle makes no
    SDL call on that surface's texture or renderer; of the surface's state
    only the pending-refresh flag is touched (it ends up cleared, the
    pointer stays null). *)
Theorem C6_null_pointer_is_not_presented cfg queued s w :
  MONITOR_DOUBLE_BUFFERED cfg = true ->
  configured cfg s = true ->
  tft_fb_act (mon s w) = NULL ->
  window_update cfg s w = log (call_window_update s) w
  /\ mon s (monitor_sdl_refr_core cfg queued w) = clear_qry (mon s w)
  /\ count (draws_on s) (trace (monitor_sdl_refr_core cfg queued w))
     = count (draws_on s) (trace w).
Proof.
  intros Hd Hs Hnull.
  assert (Hu : update_calls cfg s (mon s w) = [call_window_update s]).
  { unfold update_calls, can_present. by rewrite Hd, Hnull. }
  split; [|split].
  - by rewrite window_update_logs, Hu.
  - by apply mon_refr_core.
  - rewrite (count_cycle _ cfg queued w s Hs (draws_on_on s)) by done.
    rewrite Hu. unfold count; simpl. lia.
Qed.

Lemma C6_null_pointer_is_not_presented_witness :
  let cfg := build true true 32 480 320 in
  let w := World (Monitor true NULL []) (Monitor true NULL []) true false
                 (0, 0) [] [] in
  let queued := [SDL_WINDOWEVENT SDL_WINDOWEVENT_EXPOSED] in
  count (draws_on Mon2) (trace (monitor_sdl_refr_core cfg queued w)) = O
  /\ mon Mon2 (monitor_sdl_refr_core cfg queued w) = Monitor false NULL [].
Proof.
  intros cfg w queued.
  destruct (C6_null_pointer_is_not_presented cfg queued Mon2 w
              eq_refl eq_refl eq_refl) as (_ & Hm & Hc).
  split; [exact Hc | exact Hm].
Defined.

(** C9.  On a build whose cycle polls the SDL queue, every window-exposed
    event (and every take-focus event when SDL is at least 2.0.5) makes the
    cycle call [window_update] once on each configured surface, whatever
    the pending-refresh flags are: the number of [window_update] calls on a
    configured surface in a cycle is one for a raised flag plus one per
    such event.  Where the surface has pixels to present (always when
    single buffered), the same holds of SDL_RenderPresent. *)
Theorem C9_exposure_forces_window_update cfg queued w s :
  pumps cfg = true ->
  configured cfg s = true ->
  count (is_window_update s) (trace (monitor_sdl_refr_core cfg queued w))
  = (count (is_window_update s) (trace w)
     + (if sdl_refr_qry (mon s w) then 1 else 0)
     + length (List.filter (exposes cfg) queued))%nat
  /\ (can_present cfg (mon s w) = true ->
      count (is_present s) (trace (monitor_sdl_refr_core cfg queued w))
      = (count (is_present s) (trace w)
         + (if sdl_refr_qry (mon s w) then 1 else 0)
         + length (List.filter (exposes cfg) queued))%nat).
Proof.
  intros Hp Hs.
  assert (He : exposures cfg queued = length (List.filter (exposes cfg) queued)).
  { unfold exposures. by rewrite Hp. }
  split.
  - rewrite (count_cycle _ cfg queued w s Hs (is_window_update_on s)) by done.
    rewrite He. unfold update_calls, count.
    destruct (can_present cfg (mon s w)), s; simpl; lia.
  - intros Hc.
    rewrite (count_cycle _ cfg queued w s Hs (is_present_on s)) by done.
    rewrite He. unfold update_calls, count. rewrite Hc.
    destruct s; simpl; lia.
Qed.

Lemma C9_exposure_forces_window_update_witness :
  let cfg := build false true 32 4 3 in
  let w := fresh (replicate 12 7) in
  let queued := [SDL_other 1024; SDL_WINDOWEVENT SDL_WINDOWEVENT_EXPOSED] in
  sdl_refr_qry (mon Mon2 w) = false
  /\ count (is_window_update Mon2) (trace (monitor_sdl_refr_core cfg queued w)) = 1%nat
  /\ count (is_present Mon2) (trace (monitor_sdl_refr_core cfg queued w)) = 1%nat.
Proof.
  intros cfg w queued.
  destruct (C9_exposure_forces_window_update cfg queued w Mon2 eq_refl eq_refl)
    as (Hu & Hp).
  split; [reflexivity|]. split; [exact Hu | exact (Hp eq_refl)].
Defined.

Lemma pushed_update_calls cfg s m :
  pushed s (update_calls cfg s m)
  = if can_present cfg m then [presentable cfg m] else [].
Proof. unfold update_calls. destruct (can_present cfg m), s; reflexivity. Qed.

(** The pixel sources a configured surface is handed in one cycle. *)
Lemma pushed_cycle cfg queued w s :
  configured cfg s = true ->
  pushed s (trace (monitor_sdl_refr_core cfg queued w))
  = pushed s (trace w)
    ++ replicate
         (if can_present cfg (mon s w)
          then (if sdl_refr_qry (mon s w) then 1 else 0) + exposures cfg queued
          else 0)
         (presentable cfg (mon s w)).
Proof.
  intros Hs. rewrite trace_refr_core, pushed_app. f_equal.
  rewrite <- pushed_on, cycle_calls_on, pushed_app, pushed_concat_replicate,
    pushed_update_calls by done.
  unfold refresh_calls.
  destruct (can_present cfg (mon s w)) eqn:Hc.
  - assert (Hrep : forall n (x : pixels),
              concat (replicate n [x]) = replicate n x).
    { induction n as [|n IH]; intros x; simpl; [done|]. by rewrite IH. }
    rewrite Hrep.
    destruct (sdl_refr_qry (mon s w)); simpl; [|done].
    change (pushed s (update_calls cfg s (mon s w))
            ++ replicate (exposures cfg queued) (presentable cfg (mon s w))
            = presentable cfg (mon s w)
              :: replicate (exposures cfg queued) (presentable cfg (mon s w))).
    by rewrite pushed_update_calls, Hc.
  - assert (Hnil : forall n, concat (replicate n (@nil pixels)) = []).
    { induction n as [|n IH]; simpl; done. }
    rewrite Hnil, app_nil_r.
    destruct (sdl_refr_qry (mon s w)); simpl; [|done].
    change (pushed s (update_calls cfg s (mon s w)) = []).
    by rewrite pushed_update_calls, Hc.
Qed.

Section Coalescing.

Variable lv_color_to32 : Z -> Z.
Variable lv_area_get_width : lv_area_t -> Z.
Variable cfg : config.

Local Abbreviation run := (flush lv_color_to32 lv_area_get_width cfg).

Lemma flush_in_screen_state s drv area color_p w :
  out_of_screen drv area = false ->
  sdl_refr_qry (mon s (run s drv area color_p w)) = true
  /\ (MONITOR_DOUBLE_BUFFERED cfg = true ->
      tft_fb_act (mon s (run s drv area color_p w)) = buf_addr color_p).
Proof.
  intros Hin. unfold flush. rewrite Hin.
  destruct (MONITOR_DOUBLE_BUFFERED cfg); split; try done; by destruct s.
Qed.

(** After two flushes of a configured surface, the second one passing the
    guard: the flag is up, a double-buffered build holds the second
    pointer, and what the next cycle hands to SDL_UpdateTexture is that
    pointer, or the owned array as it then is. *)
Lemma second_flush_is_pushed s drv1 a1 p1 drv2 a2 p2 w queued :
  configured cfg s = true ->
  out_of_screen drv2 a2 = false ->
  sdl_refr_qry (mon s (run s drv2 a2 p2 (run s drv1 a1 p1 w))) = true
  /\ (MONITOR_DOUBLE_BUFFERED cfg = true ->
      tft_fb_act (mon s (run s drv2 a2 p2 (run s drv1 a1 p1 w))) = buf_addr p2)
  /\ pushed s (trace (monitor_sdl_refr_core cfg queued
                        (run s drv2 a2 p2 (run s drv1 a1 p1 w))))
     = pushed s (trace (run s drv2 a2 p2 (run s drv1 a1 p1 w)))
       ++ replicate
            (if negb (MONITOR_DOUBLE_BUFFERED cfg) || negb (buf_addr p2 =? NULL)
             then S (exposures cfg queued) else O)
            (if MONITOR_DOUBLE_BUFFERED cfg then px_ptr (buf_addr p2)
             else px_owned (tft_fb (mon s (run s drv2 a2 p2 (run s drv1 a1 p1 w))))).
Proof.
  intros Hs Hin.
  destruct (flush_in_screen_state s drv2 a2 p2 (run s drv1 a1 p1 w) Hin)
    as [Hq Hp].
  split; [exact Hq|]. split; [exact Hp|].
  rewrite pushed_cycle by done. rewrite Hq.
  unfold can_present, presentable.
  destruct (MONITOR_DOUBLE_BUFFERED cfg); [|done].
  by rewrite (Hp eq_refl).
Qed.

End Coalescing.

(** C7 as stated fails when the second rectangle is off screen: the
    early return records neither the flag nor the pointer.  Here the first
    flush is on screen and the second is not; the borrowed pointer stays
    the first call's and the next cycle presents it.  With both flushes
    off screen the flag is still down after the second.  And in a
    single-buffered build the array the next cycle presents still holds
    the first flush's pixel next to the second's. *)
Lemma C7_counterexample :
  let cfg := build true false 32 480 320 in
  let drv := DispDrv 480 320 0 in
  let first := ColorBuf 4096 [] in
  let second := ColorBuf 8192 [] in
  let w2 := monitor_flush id area_width cfg drv (Area 500 10 510 19) second
              (monitor_flush id area_width cfg drv (Area 10 10 19 19) first
                 (fresh [])) in
  let w2' := monitor_flush id area_width cfg drv (Area 500 10 510 19) second
               (monitor_flush id area_width cfg drv (Area 500 10 510 19) first
                  (fresh [])) in
  let cfg1 := build false false 32 4 3 in
  let drv1 := DispDrv 4 3 0 in
  let w3 := monitor_flush id area_width cfg1 drv1 (Area 1 0 1 0) (ColorBuf 8192 [6])
              (monitor_flush id area_width cfg1 drv1 (Area 0 0 0 0)
                 (ColorBuf 4096 [5]) (fresh (replicate 12 0))) in
  tft_fb_act (monitor w2) = buf_addr first
  /\ tft_fb_act (monitor w2) <> buf_addr second
  /\ pushed Mon1 (trace (monitor_sdl_refr_core cfg [] w2)) = [px_ptr (buf_addr first)]
  /\ sdl_refr_qry (monitor w2') = false
  /\ pushed Mon1 (trace (monitor_sdl_refr_core cfg1 [] w3))
     = [px_owned [5; 6; 0; 0; 0; 0; 0; 0; 0; 0; 0; 0]].
Proof. vm_compute. repeat split; congruence. Qed.

(** ** The refresh thread and its teardown *)

Lemma count_concat_map_zero {A} p (f : A -> list call) l :
  (forall a, count p (f a) = O) -> count p (concat (map f l)) = O.
Proof.
  intros Hf. induction l as [|a l IH]; simpl; [done|].
  by rewrite count_app, Hf, IH.
Qed.

Lemma update_calls_no_teardown cfg s m :
  count is_teardown (update_calls cfg s m) = O.
Proof. unfold update_calls. by destruct (can_present cfg m). Qed.

Lemma cycle_calls_no_teardown cfg queued w :
  count is_teardown (cycle_calls cfg queued w) = O.
Proof.
  unfold cycle_calls. rewrite !count_app.
  assert (Hr : forall s m, count is_teardown (refresh_calls cfg s m) = O).
  { intros s m. unfold refresh_calls. destruct (sdl_refr_qry m); [|done].
    apply (update_calls_no_teardown cfg s m). }
  assert (Hd : forall e, count is_teardown
                 (dispatch_calls cfg (monitor w) (monitor2 w) e) = O).
  { intros e. unfold dispatch_calls. rewrite !count_app.
    destruct (USE_MOUSE cfg), (USE_MOUSEWHEEL cfg), (USE_KEYBOARD cfg),
      (exposes cfg e), (MONITOR_DUAL cfg);
      rewrite ?count_app, ?update_calls_no_teardown; reflexivity. }
  rewrite Hr.
  destruct (MONITOR_DUAL cfg), (pumps cfg);
    rewrite ?Hr, ?(count_concat_map_zero _ _ _ Hd); reflexivity.
Qed.

Lemma SDL_add_events_eq evs w :
  SDL_add_events evs w
  = set_sdl_quit_qry (sdl_quit_qry w || existsb quits evs) w.
Proof.
  unfold SDL_add_events. revert w.
  induction evs as [|e evs IH]; intros w; simpl.
  - destruct w; unfold set_sdl_quit_qry; simpl. by rewrite orb_false_r.
  - rewrite IH. destruct e as [[| | |?]| |?]; simpl;
      destruct w; unfold set_sdl_quit_qry; simpl;
      rewrite ?orb_true_r, ?orb_true_l; reflexivity.
Qed.

(** One pass of the loop body adds no teardown call and leaves the quit
    request as the filter set it. *)
Lemma loop_body cfg evs w :
  let w' := monitor_sdl_refr_core cfg evs (SDL_add_events evs w) in
  sdl_quit_qry w' = sdl_quit_qry w || existsb quits evs
  /\ exists new, trace w' = trace w ++ new /\ count is_teardown new = O.
Proof.
  cbv zeta. rewrite refr_core_eq, SDL_add_events_eq. split; [done|].
  eexists. split; [reflexivity|]. apply cycle_calls_no_teardown.
Qed.

(** The loop ends as soon as the quit request is up, and makes no teardown
    call of its own. *)
Lemma refr_loop_ends cfg cycles w :
  sdl_quit_qry w || existsb (existsb quits) cycles = true ->
  exists w' new,
    refr_loop cfg cycles w = Some w'
    /\ sdl_quit_qry w' = true
    /\ trace w' = trace w ++ new
    /\ count is_teardown new = O.
Proof.
  revert w. induction cycles as [|evs rest IH]; intros w Hq; simpl in *.
  - rewrite orb_false_r in Hq. rewrite Hq.
    exists w, []. by rewrite app_nil_r.
  - destruct (sdl_quit_qry w) eqn:Eq.
    + exists w, []. by rewrite app_nil_r.
    + simpl in Hq.
      destruct (loop_body cfg evs w) as (Hq' & new1 & Ht1 & Hc1).
      destruct (IH (monitor_sdl_refr_core cfg evs (SDL_add_events evs w)))
        as (w' & new2 & Hrun & Hquit & Ht2 & Hc2).
      { rewrite Hq', Eq. exact Hq. }
      exists w', (new1 ++ new2). split; [exact Hrun|]. split; [exact Hquit|].
      split.
      * by rewrite Ht2, Ht1, app_assoc.
      * by rewrite count_app, Hc1, Hc2.
Qed.

(** Without a quit request the loop keeps running: no teardown. *)
Lemma refr_loop_runs cfg cycles w :
  sdl_quit_qry w || existsb (existsb quits) cycles = false ->
  refr_loop cfg cycles w = None.
Proof.
  revert w. induction cycles as [|evs rest IH]; intros w Hq; simpl in *.
  - rewrite orb_false_r in Hq. by rewrite Hq.
  - apply orb_false_elim in Hq as [Hw Hq].
    apply orb_false_elim in Hq as [He Hr].
    rewrite Hw. apply IH.
    destruct (loop_body cfg evs w) as (Hq' & _).
    by rewrite Hq', Hw, He, Hr.
Qed.

Lemma trace_set_faults fl w : trace (set_faults fl w) = trace w.
Proof. reflexivity. Qed.

Lemma trace_set_mon s m w : trace (set_mon s m w) = trace w.
Proof. by destruct s. Qed.

Lemma window_create_calls cfg s w :
  exists new, trace (window_create cfg s w) = trace w ++ new
              /\ count is_teardown new = O
              /\ sdl_quit_qry (window_create cfg s w) = sdl_quit_qry w.
Proof.
  unfold window_create.
  destruct (MONITOR_DOUBLE_BUFFERED cfg).
  - eexists. split; [|split].
    + rewrite trace_set_refr_qry, !trace_log, <- !app_assoc. reflexivity.
    + reflexivity.
    + by destruct s.
  - eexists. split; [|split].
    + rewrite trace_set_refr_qry, trace_set_faults, trace_set_mon, !trace_log,
        <- !app_assoc. reflexivity.
    + reflexivity.
    + by destruct s.
Qed.

Lemma monitor_sdl_init_calls cfg w :
  exists new, trace (monitor_sdl_init cfg w) = trace w ++ new
              /\ count is_teardown new = O
              /\ sdl_quit_qry (monitor_sdl_init cfg w) = sdl_quit_qry w.
Proof.
  unfold monitor_sdl_init.
  destruct (window_create_calls cfg Mon1 (log SDL_SetEventFilter (log SDL_Init w)))
    as (n1 & Ht1 & Hc1 & Hq1).
  set (wa := window_create cfg Mon1 _) in *.
  destruct (MONITOR_DUAL cfg).
  - destruct (window_create_calls cfg Mon2 wa) as (n2 & Ht2 & Hc2 & Hq2).
    set (wb := window_create cfg Mon2 wa) in *.
    change (window2_pos (log (SDL_GetWindowPosition Mon2) wb))
      with (window2_pos wb).
    destruct (window2_pos wb) as [x y].
    eexists. split; [|split].
    + change (trace (set_sdl_inited true ?w)) with (trace w).
      rewrite !trace_log, Ht2, Ht1, !trace_log, <- !app_assoc. reflexivity.
    + rewrite !count_app, Hc1, Hc2. reflexivity.
    + change (sdl_quit_qry wb = sdl_quit_qry w). by rewrite Hq2, Hq1.
  - eexists. split; [|split].
    + change (trace (set_sdl_inited true wa)) with (trace wa).
      rewrite Ht1, !trace_log, <- !app_assoc. reflexivity.
    + rewrite !count_app, Hc1. reflexivity.
    + change (sdl_quit_qry wa = sdl_quit_qry w). by rewrite Hq1.
Qed.

Lemma trace_clean_up cfg w :
  trace (monitor_sdl_clean_up cfg w) = trace w ++ teardown_calls cfg.
Proof.
  unfold monitor_sdl_clean_up, teardown_calls, destroy.
  destruct (MONITOR_DUAL cfg); rewrite !trace_log, <- !app_assoc; reflexivity.
Qed.

(** C10.  Once the quit request is up (it is when the thread starts, or
    some cycle's events contain a window-close or SDL_QUIT event) the
    refresh thread comes to its end, and the calls it has made are: calls
    of start-up and of the refresh cycles, none of them a destroy call,
    SDL_Quit or exit; then, for each configured surface in turn,
    SDL_DestroyTexture, SDL_DestroyRenderer, SDL_DestroyWindow; then
    SDL_Quit; then exit(0).  So the teardown runs once, each handle is
    destroyed once, in that order. *)
Theorem C10_teardown_runs_once cfg cycles w :
  sdl_quit_qry w || existsb (existsb quits) cycles = true ->
  exists w' before,
    monitor_sdl_refr_thread cfg cycles w = Some w'
    /\ trace w' = trace w ++ before ++ teardown_calls cfg ++ [exit 0]
    /\ count is_teardown before = O.
Proof.
  intros Hq. unfold monitor_sdl_refr_thread.
  assert (Hstart : exists new,
            trace (if MONITOR_APPLE cfg then w else monitor_sdl_init cfg w)
            = trace w ++ new
            /\ count is_teardown new = O
            /\ sdl_quit_qry (if MONITOR_APPLE cfg then w else monitor_sdl_init cfg w)
               = sdl_quit_qry w).
  { destruct (MONITOR_APPLE cfg).
    - exists []. by rewrite app_nil_r.
    - apply monitor_sdl_init_calls. }
  destruct Hstart as (n0 & Ht0 & Hc0 & Hq0).
  set (w0 := if MONITOR_APPLE cfg then w else monitor_sdl_init cfg w) in *.
  destruct (refr_loop_ends cfg cycles w0) as (w1 & n1 & Hrun & _ & Ht1 & Hc1).
  { by rewrite Hq0. }
  rewrite Hrun.
  eexists _, (n0 ++ n1). split; [reflexivity|]. split.
  - rewrite trace_log, trace_clean_up, Ht1, Ht0, <- !app_assoc. reflexivity.
  - by rewrite count_app, Hc0, Hc1.
Qed.

Lemma C10_teardown_runs_once_witness :
  let cfg := build false true 32 4 3 in
  let cycles := [[SDL_other 1024]; [SDL_WINDOWEVENT SDL_WINDOWEVENT_CLOSE]; []] in
  exists w' before,
    monitor_sdl_refr_thread cfg cycles (fresh (replicate 12 0)) = Some w'
    /\ trace w' = before ++ teardown_calls cfg ++ [exit 0]
    /\ count is_teardown before = O.
Proof.
  intros cfg cycles.
  destruct (C10_teardown_runs_once cfg cycles (fresh (replicate 12 0)) eq_refl)
    as (w' & before & Hrun & Ht & Hc).
  exists w', before. split; [exact Hrun|]. split; [exact Ht | exact Hc].
Defined.

(** ** Copying into the owned frame buffer *)

Lemma in_fb_spec fb off :
  in_fb fb off = true <-> 0 <= off < Z.of_nat (length fb).
Proof. unfold in_fb. rewrite andb_true_iff, Z.leb_le, Z.ltb_lt. tauto. Qed.

Lemma in_fb_false fb off :
  in_fb fb off = false <-> ~ (0 <= off < Z.of_nat (length fb)).
Proof. rewrite <- in_fb_spec. destruct (in_fb fb off); split; congruence. Qed.

Lemma copy_cell_cells s conv src k off m :
  cells (copy_cell s conv src k off m)
  = if in_fb (cells m) off
    then <[Z.to_nat off := default 0 (conv <$> src !! k)]> (cells m)
    else cells m.
Proof.
  unfold copy_cell, store.
  destruct (src !! k); simpl; by destruct (in_fb (cells m) off).
Qed.

Lemma copy_cell_flt s conv src k off m :
  flt (copy_cell s conv src k off m)
  = flt m ++ cell_faults s src k off (cells m).
Proof.
  unfold copy_cell, store, cell_faults.
  destruct (src !! k); simpl; destruct (in_fb (cells m) off); simpl;
    by rewrite <- ?app_assoc, ?app_nil_r.
Qed.

Lemma copy_cell_length s conv src k off m :
  length (cells (copy_cell s conv src k off m)) = length (cells m).
Proof.
  rewrite copy_cell_cells.
  destruct (in_fb (cells m) off); [apply length_insert | done].
Qed.

Lemma copy_cell_other s conv src k off m (j : nat) :
  Z.of_nat j <> off ->
  cells (copy_cell s conv src k off m) !! j = cells m !! j.
Proof.
  intros Hj. rewrite copy_cell_cells.
  destruct (in_fb (cells m) off) eqn:E; [|done].
  apply in_fb_spec in E. apply list_lookup_insert_ne. lia.
Qed.

Lemma copy_cell_at s conv src k off m :
  in_fb (cells m) off = true ->
  cells (copy_cell s conv src k off m) !! Z.to_nat off
  = Some (default 0 (conv <$> src !! k)).
Proof.
  intros E. rewrite copy_cell_cells, E.
  apply in_fb_spec in E. apply list_lookup_insert_eq. lia.
Qed.

Lemma copy_cell_fmap s conv src k off m :
  copy_cell s id (conv <$> src) k off m = copy_cell s conv src k off m.
Proof.
  unfold copy_cell. rewrite list_lookup_fmap.
  by destruct (src !! k).
Qed.

(** [memcpy] one cell later: the last cell is copied last. *)
Lemma memcpy_snoc s n dst src k m :
  memcpy s (S n) dst src k m
  = copy_cell s id src (k + n) (dst + Z.of_nat n) (memcpy s n dst src k m).
Proof.
  revert dst k m. induction n as [|n IH]; intros dst k m.
  - simpl. by rewrite Nat.add_0_r, Z.add_0_r.
  - change (memcpy s (S (S n)) dst src k m)
      with (memcpy s (S n) (dst + 1) src (S k) (copy_cell s id src k dst m)).
    rewrite IH. simpl memcpy at 2.
    replace (S k + n)%nat with (k + S n)%nat by lia.
    replace (dst + 1 + Z.of_nat n) with (dst + Z.of_nat (S n)) by lia.
    reflexivity.
Qed.

Lemma memcpy_length s n dst src k m :
  length (cells (memcpy s n dst src k m)) = length (cells m).
Proof.
  revert dst k m. induction n as [|n IH]; intros dst k m; simpl; [done|].
  by rewrite IH, copy_cell_length.
Qed.

Lemma memcpy_in_fb s n dst src k m off :
  in_fb (cells (memcpy s n dst src k m)) off = in_fb (cells m) off.
Proof. unfold in_fb. by rewrite memcpy_length. Qed.

(** Cells outside [dst, dst + n) keep their value. *)
Lemma memcpy_other s n dst src k m (j : nat) :
  ~ (dst <= Z.of_nat j < dst + Z.of_nat n) ->
  cells (memcpy s n dst src k m) !! j = cells m !! j.
Proof.
  revert dst k m. induction n as [|n IH]; intros dst k m Hj; simpl; [done|].
  rewrite IH by lia. apply copy_cell_other. lia.
Qed.

(** Cell [dst + i] receives the [i]-th colour read. *)
Lemma memcpy_at s n dst src k m (i : nat) :
  (i < n)%nat ->
  in_fb (cells m) (dst + Z.of_nat i) = true ->
  cells (memcpy s n dst src k m) !! Z.to_nat (dst + Z.of_nat i)
  = Some (default 0 (src !! (k + i)%nat)).
Proof.
  revert dst k m i. induction n as [|n IH]; intros dst k m i Hi Hin; [lia|].
  simpl. destruct i as [|i].
  - rewrite Z.add_0_r in *. rewrite Nat.add_0_r.
    pose proof (proj1 (in_fb_spec _ _) Hin) as Hb.
    rewrite memcpy_other by lia.
    rewrite copy_cell_at by done. by destruct (src !! k).
  - replace (dst + Z.of_nat (S i)) with (dst + 1 + Z.of_nat i) in * by lia.
    replace (k + S i)%nat with (S k + i)%nat by lia.
    apply IH; [lia|].
    unfold in_fb in *. by rewrite copy_cell_length.
Qed.

(** Faults are only ever added. *)
Lemma memcpy_flt_grows s n dst src k m :
  exists extra, flt (memcpy s n dst src k m) = flt m ++ extra.
Proof.
  revert dst k m. induction n as [|n IH]; intros dst k m; simpl.
  - exists []. by rewrite app_nil_r.
  - destruct (IH (dst + 1) (S k) (copy_cell s id src k dst m)) as [e He].
    rewrite He, copy_cell_flt, <- app_assoc. eauto.
Qed.

(** A copy that stays inside both arrays records no fault. *)
Lemma memcpy_flt_safe s n dst src k m :
  0 <= dst -> dst + Z.of_nat n <= Z.of_nat (length (cells m)) ->
  (k + n <= length src)%nat ->
  flt (memcpy s n dst src k m) = flt m.
Proof.
  revert dst k m. induction n as [|n IH]; intros dst k m Hd Hn Hk; simpl; [done|].
  rewrite IH; rewrite ?copy_cell_length; try lia.
  rewrite copy_cell_flt. unfold cell_faults.
  destruct (lookup_lt_is_Some_2 src k ltac:(lia)) as [c ->].
  destruct (in_fb (cells m) dst) eqn:E; [by rewrite app_nil_r|].
  apply in_fb_false in E. lia.
Qed.

(** A cell of the copy that falls outside the array is recorded. *)
Lemma memcpy_bad_store s n dst src k m (i : nat) :
  (i < n)%nat ->
  in_fb (cells m) (dst + Z.of_nat i) = false ->
  In (bad_store s (dst + Z.of_nat i)) (flt (memcpy s n dst src k m)).
Proof.
  revert dst k m i. induction n as [|n IH]; intros dst k m i Hi Hin; [lia|].
  simpl. destruct i as [|i].
  - rewrite Z.add_0_r in *.
    destruct (memcpy_flt_grows s n (dst + 1) src (S k) (copy_cell s id src k dst m))
      as [e ->].
    rewrite copy_cell_flt. unfold cell_faults. rewrite Hin.
    rewrite !in_app_iff. left. right. right. by left.
  - replace (dst + Z.of_nat (S i)) with (dst + 1 + Z.of_nat i) in * by lia.
    apply IH; [lia|]. unfold in_fb in *. by rewrite copy_cell_length.
Qed.

(** ** The loops *)

Lemma for_upto_ext {St} n cond (b1 b2 : Z -> St -> St) i st :
  (forall j t, b1 j t = b2 j t) ->
  for_upto n cond b1 i st = for_upto n cond b2 i st.
Proof.
  intros Hb. revert i st. induction n as [|n IH]; intros i st; simpl; [done|].
  destruct (cond i); [|done]. by rewrite Hb, IH.
Qed.

(** A guard that holds throughout can be dropped. *)
Lemma for_upto_guard {St} n cond (body : Z -> St -> St) i st :
  (forall j, i <= j < i + Z.of_nat n -> cond j = true) ->
  for_upto n cond body i st = for_upto n (fun _ => true) body i st.
Proof.
  revert i st. induction n as [|n IH]; intros i st Hc; simpl; [done|].
  rewrite Hc by lia. apply IH. intros j Hj. apply Hc. lia.
Qed.

(** The guard [y < vres] cuts the loop down to the rows above [vres]. *)
Lemma for_upto_clip {St} n vres (body : Z -> St -> St) i st :
  for_upto n (fun y => y <? vres) body i st
  = for_upto (Z.to_nat (Z.min (Z.of_nat n) (vres - i))) (fun _ => true) body i st.
Proof.
  revert i st. induction n as [|n IH]; intros i st.
  - replace (Z.to_nat (Z.min (Z.of_nat 0) (vres - i))) with O by lia. done.
  - destruct (Z.ltb_spec i vres) as [Hlt|Hge].
    + replace (Z.to_nat (Z.min (Z.of_nat (S n)) (vres - i)))
        with (S (Z.to_nat (Z.min (Z.of_nat n) (vres - (i + 1))))) by lia.
      cbn [for_upto]. rewrite (proj2 (Z.ltb_lt i vres) Hlt). apply IH.
    + replace (Z.to_nat (Z.min (Z.of_nat (S n)) (vres - i))) with O by lia.
      cbn [for_upto]. by rewrite (proj2 (Z.ltb_ge i vres) Hge).
Qed.

(** The last round of an unguarded loop. *)
Lemma for_upto_snoc {St} n (body : Z -> St -> St) i st :
  for_upto (S n) (fun _ => true) body i st
  = body (i + Z.of_nat n) (for_upto n (fun _ => true) body i st).
Proof.
  revert i st. induction n as [|n IH]; intros i st.
  - simpl. by rewrite Z.add_0_r.
  - change (for_upto (S (S n)) (fun _ => true) body i st)
      with (for_upto (S n) (fun _ => true) body (i + 1) (body i st)).
    rewrite IH. simpl.
    replace (i + 1 + Z.of_nat n) with (i + Z.of_nat (S n)) by lia.
    reflexivity.
Qed.

Section Loops.

Variable lv_color_to32 : Z -> Z.
Variable lv_area_get_width : lv_area_t -> Z.
Variable cfg : config.

Local Abbreviation hres := (MONITOR_HOR_RES cfg).
Local Abbreviation vres := (MONITOR_VER_RES cfg).

(** The inner loop of the conversion path copies one row, exactly as a
    memcpy of the converted colours would. *)
Lemma pixel_row s src y n x (st : copy_state) :
  for_upto n (fun _ => true)
    (fun x st =>
       (S (fst st),
        copy_cell s lv_color_to32 src (fst st) (y * hres + x) (snd st)))
    x st
  = copy_row s hres x n (lv_color_to32 <$> src) y st.
Proof.
  unfold copy_row. revert x st.
  induction n as [|n IH]; intros x [k m]; simpl.
  - by rewrite Nat.add_0_r.
  - rewrite IH. simpl. rewrite copy_cell_fmap.
    replace (y * hres + (x + 1)) with (y * hres + x + 1) by lia.
    f_equal. lia.
Qed.

Lemma flush_pixels_rows s area src m :
  flush_pixels lv_color_to32 cfg s area src m
  = snd (for_ (y1 area) (y2 area) (fun _ => true)
           (copy_row s hres (x1 area) (Z.to_nat (x2 area - x1 area + 1))
              (lv_color_to32 <$> src))
           (O, m)).
Proof.
  unfold flush_pixels, for_. f_equal.
  apply for_upto_ext. intros y st. apply pixel_row.
Qed.

Lemma flush_rows_rows s area src m :
  flush_rows lv_area_get_width cfg s area src m
  = snd (for_ (y1 area) (y2 area) (fun y => y <? vres)
           (copy_row s hres (x1 area)
              (Z.to_nat (lv_area_get_width area mod 2 ^ 32)) src)
           (O, m)).
Proof. reflexivity. Qed.

(** The two copy loops agree on every rectangle that does not reach below
    the surface, when the memcpy path is given the converted colours. *)
Lemma paths_agree s area src m :
  lv_area_get_width area = x2 area - x1 area + 1 ->
  x1 area <= x2 area ->
  x2 area - x1 area + 1 < 2 ^ 32 ->
  (y1 area <= y2 area -> y2 area < vres) ->
  flush_pixels lv_color_to32 cfg s area src m
  = flush_rows lv_area_get_width cfg s area (lv_color_to32 <$> src) m.
Proof.
  intros Hw Hx Hlt Hy.
  rewrite flush_pixels_rows, flush_rows_rows. unfold for_.
  rewrite Hw, Z.mod_small by lia.
  f_equal. symmetry. apply for_upto_guard.
  intros j Hj. apply Z.ltb_lt. lia.
Qed.

(** *** What a run of whole rows does *)

Lemma rows_cons s x n src r y0 (st : copy_state) :
  for_upto (S r) (fun _ => true) (copy_row s hres x n src) y0 st
  = for_upto r (fun _ => true) (copy_row s hres x n src) (y0 + 1)
      (copy_row s hres x n src y0 st).
Proof. reflexivity. Qed.

Lemma rows_fst s x n src r y0 (st : copy_state) :
  fst (for_upto r (fun _ => true) (copy_row s hres x n src) y0 st)
  = (fst st + r * n)%nat.
Proof.
  revert y0 st. induction r as [|r IH]; intros y0 st.
  - simpl. lia.
  - rewrite rows_cons, IH. simpl. lia.
Qed.

Lemma rows_length s x n src r y0 (st : copy_state) :
  length (cells (snd (for_upto r (fun _ => true) (copy_row s hres x n src) y0 st)))
  = length (cells (snd st)).
Proof.
  revert y0 st. induction r as [|r IH]; intros y0 st; [done|].
  rewrite rows_cons, IH. simpl. apply memcpy_length.
Qed.

Lemma rows_flt_grows s x n src r y0 (st : copy_state) :
  exists extra,
    flt (snd (for_upto r (fun _ => true) (copy_row s hres x n src) y0 st))
    = flt (snd st) ++ extra.
Proof.
  revert y0 st. induction r as [|r IH]; intros y0 st.
  - exists []. simpl. by rewrite app_nil_r.
  - rewrite rows_cons.
    destruct (IH (y0 + 1) (copy_row s hres x n src y0 st)) as [e1 ->].
    simpl.
    destruct (memcpy_flt_grows s n (y0 * hres + x) src (fst st) (snd st))
      as [e2 ->].
    rewrite <- app_assoc. eauto.
Qed.

(** Cells outside every copied row keep their value. *)
Lemma rows_other s x n src r y0 (st : copy_state) (j : nat) :
  (forall y, y0 <= y < y0 + Z.of_nat r ->
     ~ (y * hres + x <= Z.of_nat j < y * hres + x + Z.of_nat n)) ->
  cells (snd (for_upto r (fun _ => true) (copy_row s hres x n src) y0 st)) !! j
  = cells (snd st) !! j.
Proof.
  revert y0 st. induction r as [|r IH]; intros y0 st Hj; [done|].
  rewrite rows_cons, IH.
  - simpl. apply memcpy_other. apply Hj. lia.
  - intros y Hy. apply Hj. lia.
Qed.

(** Rows that lie inside the surface width and inside the array: every
    cell of every row holds its source colour, and no fault is recorded. *)
Lemma rows_inside s x n src r y0 (st : copy_state) :
  0 <= x -> x + Z.of_nat n <= hres -> 0 <= y0 ->
  (y0 + Z.of_nat r) * hres <= Z.of_nat (length (cells (snd st))) ->
  (fst st + r * n <= length src)%nat ->
  flt (snd (for_upto r (fun _ => true) (copy_row s hres x n src) y0 st))
  = flt (snd st)
  /\ forall y (i : nat),
       y0 <= y < y0 + Z.of_nat r -> (i < n)%nat ->
       cells (snd (for_upto r (fun _ => true) (copy_row s hres x n src) y0 st))
         !! Z.to_nat (y * hres + x + Z.of_nat i)
       = Some (default 0 (src !! (fst st + Z.to_nat (y - y0) * n + i)%nat)).
Proof.
  intros Hx Hxn. revert y0 st.
  induction r as [|r IH]; intros y0 st Hy0 Hlen Hsrc.
  - split; [done|]. intros y i Hy. lia.
  - rewrite rows_cons.
    assert (Hh : 0 <= hres) by lia.
    destruct (IH (y0 + 1) (copy_row s hres x n src y0 st)) as [Hf Hc].
    { lia. }
    { simpl. rewrite memcpy_length. lia. }
    { simpl. lia. }
    split.
    + rewrite Hf. simpl. apply memcpy_flt_safe; nia.
    + intros y i Hy Hi.
      destruct (decide (y = y0)) as [->|Hne].
      * rewrite rows_other.
        -- simpl. rewrite Z.sub_diag. simpl. rewrite Nat.add_0_r.
           apply memcpy_at; [done|]. apply in_fb_spec. nia.
        -- intros y Hy'. rewrite Z2Nat.id by nia. nia.
      * rewrite Hc by lia. simpl. do 3 f_equal.
        replace (Z.to_nat (y - y0)) with (S (Z.to_nat (y - (y0 + 1)))) by lia.
        lia.
Qed.

(** The very last store of a run of rows. *)
Lemma rows_last_store s x n src r y0 (st : copy_state) :
  exists extra,
    flt (snd (for_upto (S r) (fun _ => true) (copy_row s hres x (S n) src) y0 st))
    = flt (snd st) ++ extra
      ++ (if in_fb (cells (snd st)) ((y0 + Z.of_nat r) * hres + x + Z.of_nat n)
          then [] else [bad_store s ((y0 + Z.of_nat r) * hres + x + Z.of_nat n)]).
Proof.
  rewrite for_upto_snoc.
  destruct (rows_flt_grows s x (S n) src r y0 st) as [e1 He1].
  pose proof (rows_length s x (S n) src r y0 st) as Hl.
  set (st' := for_upto r (fun _ => true) (copy_row s hres x (S n) src) y0 st) in *.
  unfold copy_row at 1. cbn [snd]. rewrite memcpy_snoc, copy_cell_flt.
  destruct (memcpy_flt_grows s n ((y0 + Z.of_nat r) * hres + x) src (fst st') (snd st'))
    as [e2 He2].
  rewrite He2, He1. unfold cell_faults.
  replace (in_fb (cells (memcpy s n ((y0 + Z.of_nat r) * hres + x) src (fst st') (snd st')))
             ((y0 + Z.of_nat r) * hres + x + Z.of_nat n))
    with (in_fb (cells (snd st)) ((y0 + Z.of_nat r) * hres + x + Z.of_nat n))
    by (unfold in_fb; by rewrite memcpy_length, Hl).
  exists (e1 ++ e2
          ++ match src !! (fst st' + n)%nat with
             | Some _ => []
             | None => [bad_load (fst st' + n)]
             end).
  by rewrite <- !app_assoc.
Qed.

(** Both copy loops as a run of whole rows over the colours as stored:
    as many rows as lie above the surface's bottom edge. *)
Lemma copy_as_rows s area src m :
  lv_area_get_width area = x2 area - x1 area + 1 ->
  x1 area <= x2 area ->
  x2 area - x1 area + 1 < 2 ^ 32 ->
  (per_pixel cfg = true -> y1 area <= y2 area -> y2 area < vres) ->
  (if per_pixel cfg then flush_pixels lv_color_to32 cfg
   else flush_rows lv_area_get_width cfg) s area src m
  = snd (for_upto
           (Z.to_nat (Z.min (y2 area - y1 area + 1) (vres - y1 area)))
           (fun _ => true)
           (copy_row s hres (x1 area) (Z.to_nat (x2 area - x1 area + 1))
              (stored lv_color_to32 cfg <$> src))
           (y1 area) (O, m)).
Proof.
  intros Hw Hx Hlt Hy. unfold stored.
  destruct (per_pixel cfg).
  - rewrite flush_pixels_rows. unfold for_. do 2 f_equal. lia.
  - rewrite flush_rows_rows, list_fmap_id. unfold for_.
    rewrite for_upto_clip, Hw, Z.mod_small by lia.
    do 2 f_equal. lia.
Qed.

End Loops.

(** ** Single-buffered flushes *)

Section SingleBuffered.

Variable lv_color_to32 : Z -> Z.
Variable lv_area_get_width : lv_area_t -> Z.
Variable cfg : config.

Local Abbreviation hres := (MONITOR_HOR_RES cfg).
Local Abbreviation vres := (MONITOR_VER_RES cfg).
Local Abbreviation run := (flush lv_color_to32 lv_area_get_width cfg).

(** The copy of the build at hand, on a bare frame buffer. *)
Local Abbreviation copy :=
  (if per_pixel cfg then flush_pixels lv_color_to32 cfg
   else flush_rows lv_area_get_width cfg).

(** A single-buffered flush that passes the guard: the surface's array and
    the faults are those of the copy, the flag is up. *)
Lemma flush_single s drv area color_p w :
  MONITOR_DOUBLE_BUFFERED cfg = false ->
  out_of_screen drv area = false ->
  let r := copy s area (buf_px color_p) (FbMem (tft_fb (mon s w)) (faults w)) in
  tft_fb (mon s (run s drv area color_p w)) = cells r
  /\ faults (run s drv area color_p w) = flt r
  /\ sdl_refr_qry (mon s (run s drv area color_p w)) = true.
Proof.
  intros Hd Hin. unfold flush, flush_copy. rewrite Hin, Hd.
  destruct (per_pixel cfg), s; simpl; done.
Qed.

(** The last row of a run of rows has been stored, cell by cell: into the
    array where the offset is inside it, as a recorded fault where not. *)
Lemma last_row_stored s x n src r y0 (st : copy_state) (i : nat) :
  (i < n)%nat ->
  let off := (y0 + Z.of_nat r) * hres + x + Z.of_nat i in
  let st' := for_upto (S r) (fun _ => true) (copy_row s hres x n src) y0 st in
  if in_fb (cells (snd st)) off
  then cells (snd st') !! Z.to_nat off
       = Some (default 0 (src !! (fst st + r * n + i)%nat))
  else In (bad_store s off) (flt (snd st')).
Proof.
  intros Hi off st'. subst st'. rewrite for_upto_snoc.
  pose proof (rows_length cfg s x n src r y0 st) as Hl.
  pose proof (rows_fst cfg s x n src r y0 st) as Hk.
  set (st1 := for_upto r (fun _ => true) (copy_row s hres x n src) y0 st) in *.
  assert (Hfb : in_fb (cells (snd st1)) off = in_fb (cells (snd st)) off).
  { unfold in_fb. by rewrite Hl. }
  unfold copy_row. cbn [snd]. rewrite Hk.
  destruct (in_fb (cells (snd st)) off) eqn:E.
  - subst off. apply memcpy_at; [done | exact Hfb].
  - subst off. apply memcpy_bad_store; [done | exact Hfb].
Qed.

(** C3 (amended).  Single-buffered build, a rectangle that passes the
    guard, lies within the surface's width ([0 <= x1 <= x2 <
    MONITOR_HOR_RES]) and starts on the surface ([0 <= y1]); on the
    conversion path it also ends on the surface ([y2 < MONITOR_VER_RES]).
    After the flush every cell of the rectangle above the bottom edge holds
    the stored form of its source colour (row-major in the source), every
    other cell of the array holds what it held, no access left an array,
    the flag is up. *)
Theorem C3_flush_writes_the_clipped_rectangle s drv area color_p w :
  MONITOR_DOUBLE_BUFFERED cfg = false ->
  out_of_screen drv area = false ->
  lv_area_get_width area = x2 area - x1 area + 1 ->
  0 <= x1 area -> x1 area <= x2 area -> x2 area < hres -> hres < 2 ^ 31 ->
  0 <= y1 area ->
  (per_pixel cfg = true -> y2 area < vres) ->
  hres * vres <= Z.of_nat (length (tft_fb (mon s w))) ->
  0 <= y2 area - y1 area + 1 ->
  (x2 area - x1 area + 1) * (y2 area - y1 area + 1)
    <= Z.of_nat (length (buf_px color_p)) ->
  (forall x y,
      x1 area <= x <= x2 area -> y1 area <= y <= y2 area -> y < vres ->
      tft_fb (mon s (run s drv area color_p w)) !! Z.to_nat (y * hres + x)
      = stored lv_color_to32 cfg
          <$> buf_px color_p
                !! Z.to_nat ((y - y1 area) * (x2 area - x1 area + 1)
                             + (x - x1 area)))
  /\ (forall j : nat,
        (forall x y,
            x1 area <= x <= x2 area -> y1 area <= y <= y2 area -> y < vres ->
            Z.of_nat j <> y * hres + x) ->
        tft_fb (mon s (run s drv area color_p w)) !! j = tft_fb (mon s w) !! j)
  /\ faults (run s drv area color_p w) = faults w
  /\ sdl_refr_qry (mon s (run s drv area color_p w)) = true.
Proof.
  intros Hd Hin Hw Hx1 Hx Hx2 Hh Hy1 Hpp Hlen Hrows Hsrc.
  destruct (flush_single s drv area color_p w Hd Hin) as (Hfb & Hfl & Hq).
  rewrite Hfb, Hfl.
  assert (H31 : (2 ^ 31 : Z) = 2147483648) by reflexivity.
  assert (H32 : (2 ^ 32 : Z) = 4294967296) by reflexivity.
  rewrite (copy_as_rows lv_color_to32 lv_area_get_width cfg)
    by (try done; try lia; intros; auto).
  set (r := Z.to_nat (Z.min (y2 area - y1 area + 1) (vres - y1 area))).
  set (n := Z.to_nat (x2 area - x1 area + 1)).
  set (src := stored lv_color_to32 cfg <$> buf_px color_p).
  set (st := (O, FbMem (tft_fb (mon s w)) (faults w))).
  assert (Hsl : length src = length (buf_px color_p))
    by (unfold src; apply length_fmap).
  destruct (decide (r = O)) as [Hr0|Hr0].
  { rewrite Hr0. simpl. split; [|done].
    intros x y Hx' Hy' Hv. lia. }
  assert (Hr : Z.of_nat r = Z.min (y2 area - y1 area + 1) (vres - y1 area)) by lia.
  destruct (rows_inside cfg s (x1 area) n src r (y1 area) st) as [Hf Hc];
    try (simpl; lia); try (simpl; nia).
  split; [|split; [|split]]; try done.
  - intros x y Hx' Hy' Hv.
    replace (y * hres + x)
      with (y * hres + x1 area + Z.of_nat (Z.to_nat (x - x1 area))) by lia.
    rewrite Hc by lia. simpl.
    replace (Z.to_nat (y - y1 area) * n + Z.to_nat (x - x1 area))%nat
      with (Z.to_nat ((y - y1 area) * (x2 area - x1 area + 1) + (x - x1 area)))
      by nia.
    unfold src. rewrite list_lookup_fmap.
    destruct (lookup_lt_is_Some_2 (buf_px color_p)
                (Z.to_nat ((y - y1 area) * (x2 area - x1 area + 1) + (x - x1 area))))
      as [c ->]; [nia | done].
  - intros j Hj. rewrite rows_other; [done|].
    intros y Hy Hr'. apply (Hj (Z.of_nat j - y * hres) y); lia.
Qed.

(** C8.  On the memcpy path a rectangle that passes the guard is copied at
    its full width, row by row from offset [y * MONITOR_HOR_RES + x1]: in
    the last row copied, the cell of every column [x] of the rectangle,
    also of the columns past the right edge, has been stored at
    [y * MONITOR_HOR_RES + x], into the array where that offset is inside
    it and outside the array (a recorded fault) where not.  When the
    rectangle runs past the right edge in the bottom row of an array of
    the surface's size, the store for its last column is past the end of
    [tft_fb]. *)
Theorem C8_memcpy_path_does_not_clip_width s drv area color_p w :
  MONITOR_DOUBLE_BUFFERED cfg = false ->
  per_pixel cfg = false ->
  out_of_screen drv area = false ->
  lv_area_get_width area = x2 area - x1 area + 1 ->
  x1 area <= x2 area -> x2 area - x1 area + 1 < 2 ^ 32 ->
  hres - 1 < x2 area ->
  y1 area <= y2 area -> y1 area < vres ->
  (forall x, x1 area <= x <= x2 area ->
     let y := Z.min (y2 area) (vres - 1) in
     if in_fb (tft_fb (mon s w)) (y * hres + x)
     then tft_fb (mon s (run s drv area color_p w)) !! Z.to_nat (y * hres + x)
          = Some (default 0
                    (buf_px color_p
                       !! Z.to_nat ((y - y1 area) * (x2 area - x1 area + 1)
                                    + (x - x1 area))))
     else In (bad_store s (y * hres + x)) (faults (run s drv area color_p w)))
  /\ (0 <= hres ->
      Z.of_nat (length (tft_fb (mon s w))) <= hres * vres ->
      vres - 1 <= y2 area ->
      In (bad_store s ((vres - 1) * hres + x2 area))
         (faults (run s drv area color_p w))).
Proof.
  intros Hd Hpp Hin Hw Hx Hlt Hedge Hy Hv.
  destruct (flush_single s drv area color_p w Hd Hin) as (Hfb & Hfl & _).
  rewrite Hfb, Hfl.
  rewrite (copy_as_rows lv_color_to32 lv_area_get_width cfg)
    by (try done; try lia; intros; congruence).
  unfold stored. rewrite Hpp, list_fmap_id.
  set (y := Z.min (y2 area) (vres - 1)).
  replace (Z.to_nat (Z.min (y2 area - y1 area + 1) (vres - y1 area)))
    with (S (Z.to_nat (y - y1 area))) by lia.
  set (n := Z.to_nat (x2 area - x1 area + 1)).
  set (st := (O, FbMem (tft_fb (mon s w)) (faults w))).
  assert (Hcell : forall x, x1 area <= x <= x2 area ->
    if in_fb (tft_fb (mon s w)) (y * hres + x)
    then cells (snd (for_upto (S (Z.to_nat (y - y1 area))) (fun _ => true)
                       (copy_row s hres (x1 area) n (buf_px color_p))
                       (y1 area) st))
           !! Z.to_nat (y * hres + x)
         = Some (default 0
                   (buf_px color_p
                      !! Z.to_nat ((y - y1 area) * (x2 area - x1 area + 1)
                                   + (x - x1 area))))
    else In (bad_store s (y * hres + x))
           (flt (snd (for_upto (S (Z.to_nat (y - y1 area))) (fun _ => true)
                        (copy_row s hres (x1 area) n (buf_px color_p))
                        (y1 area) st)))).
  { intros x Hx'.
    pose proof (last_row_stored s (x1 area) n (buf_px color_p)
                  (Z.to_nat (y - y1 area)) (y1 area) st
                  (Z.to_nat (x - x1 area)) ltac:(lia)) as Hlast.
    cbv zeta in Hlast.
    rewrite !Z2Nat.id in Hlast by lia.
    replace ((y1 area + (y - y1 area)) * hres + x1 area + (x - x1 area))
      with (y * hres + x) in Hlast by ring.
    replace (fst st + Z.to_nat (y - y1 area) * n + Z.to_nat (x - x1 area))%nat
      with (Z.to_nat ((y - y1 area) * (x2 area - x1 area + 1) + (x - x1 area)))
      in Hlast by (simpl; nia).
    exact Hlast. }
  split; [exact Hcell|].
  intros Hh Hlen Hbot.
  specialize (Hcell (x2 area) ltac:(lia)).
  assert (Hyv : y = vres - 1) by lia.
  clearbody y. subst y.
  destruct (in_fb (tft_fb (mon s w)) ((vres - 1) * hres + x2 area)) eqn:E;
    [|exact Hcell].
  apply in_fb_spec in E. nia.
Qed.

(** C4, the conversion path.  That loop has no guard on the surface height:
    for a rectangle that passes the guard and reaches to or below the
    bottom edge, the cells of its last row [y2 >= MONITOR_VER_RES] are
    stored like any other row; with an array of the surface's size and the
    rectangle's right end on or right of column 0 the store for its last
    cell is past the end of [tft_fb]. *)
Theorem C4_conversion_path_does_not_clip_height s drv area color_p w :
  MONITOR_DOUBLE_BUFFERED cfg = false ->
  per_pixel cfg = true ->
  out_of_screen drv area = false ->
  x1 area <= x2 area -> y1 area <= y2 area ->
  vres <= y2 area ->
  (forall x, x1 area <= x <= x2 area ->
     if in_fb (tft_fb (mon s w)) (y2 area * hres + x)
     then tft_fb (mon s (run s drv area color_p w))
            !! Z.to_nat (y2 area * hres + x)
          = Some (default 0
                    (lv_color_to32
                       <$> buf_px color_p
                             !! Z.to_nat ((y2 area - y1 area)
                                          * (x2 area - x1 area + 1)
                                          + (x - x1 area))))
     else In (bad_store s (y2 area * hres + x))
             (faults (run s drv area color_p w)))
  /\ (0 <= hres ->
      Z.of_nat (length (tft_fb (mon s w))) <= hres * vres ->
      In (bad_store s (y2 area * hres + x2 area))
         (faults (run s drv area color_p w))).
Proof.
  intros Hd Hpp Hin Hx Hy Hbelow.
  destruct (flush_single s drv area color_p w Hd Hin) as (Hfb & Hfl & _).
  rewrite Hfb, Hfl, Hpp.
  rewrite flush_pixels_rows. unfold for_.
  replace (Z.to_nat (y2 area - y1 area + 1))
    with (S (Z.to_nat (y2 area - y1 area))) by lia.
  set (n := Z.to_nat (x2 area - x1 area + 1)).
  set (src := lv_color_to32 <$> buf_px color_p).
  set (st := (O, FbMem (tft_fb (mon s w)) (faults w))).
  assert (Hcell : forall x, x1 area <= x <= x2 area ->
    if in_fb (tft_fb (mon s w)) (y2 area * hres + x)
    then cells (snd (for_upto (S (Z.to_nat (y2 area - y1 area))) (fun _ => true)
                       (copy_row s hres (x1 area) n src) (y1 area) st))
           !! Z.to_nat (y2 area * hres + x)
         = Some (default 0
                   (lv_color_to32
                      <$> buf_px color_p
                            !! Z.to_nat ((y2 area - y1 area)
                                         * (x2 area - x1 area + 1)
                                         + (x - x1 area))))
    else In (bad_store s (y2 area * hres + x))
           (flt (snd (for_upto (S (Z.to_nat (y2 area - y1 area))) (fun _ => true)
                        (copy_row s hres (x1 area) n src) (y1 area) st)))).
  { intros x Hx'.
    pose proof (last_row_stored s (x1 area) n src
                  (Z.to_nat (y2 area - y1 area)) (y1 area) st
                  (Z.to_nat (x - x1 area)) ltac:(lia)) as Hlast.
    cbv zeta in Hlast.
    rewrite !Z2Nat.id in Hlast by lia.
    replace ((y1 area + (y2 area - y1 area)) * hres + x1 area + (x - x1 area))
      with (y2 area * hres + x) in Hlast by ring.
    replace (fst st + Z.to_nat (y2 area - y1 area) * n + Z.to_nat (x - x1 area))%nat
      with (Z.to_nat ((y2 area - y1 area) * (x2 area - x1 area + 1)
                      + (x - x1 area)))
      in Hlast by (simpl; nia).
    unfold src in Hlast. rewrite list_lookup_fmap in Hlast.
    exact Hlast. }
  split; [exact Hcell|].
  intros Hh Hlen.
  specialize (Hcell (x2 area) ltac:(lia)).
  destruct (in_fb (tft_fb (mon s w)) (y2 area * hres + x2 area)) eqn:E;
    [|exact Hcell].
  apply in_fb_spec in E.
  assert (0 <= x2 area).
  { unfold out_of_screen in Hin. rewrite !orb_false_iff in Hin.
    destruct Hin as [[[Hx2 _] _] _]. apply Z.ltb_ge in Hx2. exact Hx2. }
  nia.
Qed.

End SingleBuffered.

(** X20.  With [tft_fb] no larger than the surface, the conversion loop
    and the memcpy loop leave the same world behind on every input on
    which the conversion run is defined, that is, makes no access outside
    an array: for a build at a depth that converts and the same build at
    24 or 32 bits, a rectangle with [x1 <= x2], the memcpy build being
    handed the colours already converted.  (On a larger array the two
    differ below the surface, see C5.) *)
Theorem copy_paths_agree_on_surface_sized_array
    lv_color_to32 lv_area_get_width cfg d1 d2 s drv area addr src w :
  per_pixel (with_depth d1 cfg) = true ->
  per_pixel (with_depth d2 cfg) = false ->
  lv_area_get_width area = x2 area - x1 area + 1 ->
  x1 area <= x2 area -> x2 area - x1 area + 1 < 2 ^ 32 ->
  0 <= MONITOR_HOR_RES cfg ->
  Z.of_nat (length (tft_fb (mon s w)))
    <= MONITOR_HOR_RES cfg * MONITOR_VER_RES cfg ->
  faults (flush lv_color_to32 lv_area_get_width (with_depth d1 cfg) s drv area
            (ColorBuf addr src) w) = faults w ->
  flush lv_color_to32 lv_area_get_width (with_depth d1 cfg) s drv area
    (ColorBuf addr src) w
  = flush lv_color_to32 lv_area_get_width (with_depth d2 cfg) s drv area
      (ColorBuf addr (lv_color_to32 <$> src)) w.
Proof.
  intros Hp1 Hp2 Hw Hx Hlt Hh Hlen Hdef.
  unfold flush in *.
  destruct (out_of_screen drv area) eqn:Hin; [done|].
  change (MONITOR_DOUBLE_BUFFERED (with_depth d1 cfg))
    with (MONITOR_DOUBLE_BUFFERED cfg) in *.
  change (MONITOR_DOUBLE_BUFFERED (with_depth d2 cfg))
    with (MONITOR_DOUBLE_BUFFERED cfg).
  destruct (MONITOR_DOUBLE_BUFFERED cfg); [done|].
  do 2 f_equal. unfold flush_copy in *. rewrite Hp1 in *. rewrite Hp2.
  cbn [buf_px] in *.
  set (m := FbMem (tft_fb (mon s w)) (faults w)) in *.
  assert (Hf : flt (flush_pixels lv_color_to32 (with_depth d1 cfg) s area src m)
               = faults w).
  { rewrite <- Hdef. by destruct s. }
  assert (Hy : y1 area <= y2 area -> y2 area < MONITOR_VER_RES cfg).
  { intros Hy. destruct (Z.lt_ge_cases (y2 area) (MONITOR_VER_RES cfg)) as [|Hge];
      [done|exfalso].
    rewrite flush_pixels_rows in Hf. unfold for_ in Hf.
    replace (Z.to_nat (y2 area - y1 area + 1))
      with (S (Z.to_nat (y2 area - y1 area))) in Hf by lia.
    replace (Z.to_nat (x2 area - x1 area + 1))
      with (S (Z.to_nat (x2 area - x1 area))) in Hf by lia.
    destruct (rows_last_store (with_depth d1 cfg) s (x1 area)
                (Z.to_nat (x2 area - x1 area)) (lv_color_to32 <$> src)
                (Z.to_nat (y2 area - y1 area)) (y1 area) (O, m)) as [extra He].
    rewrite He in Hf. cbn [snd m cells flt] in Hf.
    rewrite !Z2Nat.id in Hf by lia.
    change (MONITOR_HOR_RES (with_depth d1 cfg)) with (MONITOR_HOR_RES cfg) in Hf.
    assert (0 <= x2 area).
    { unfold out_of_screen in Hin. rewrite !orb_false_iff in Hin.
      destruct Hin as [[[Hx2 _] _] _]. by apply Z.ltb_ge in Hx2. }
    destruct (in_fb (tft_fb (mon s w))
                ((y1 area + (y2 area - y1 area)) * MONITOR_HOR_RES cfg
                 + x1 area + (x2 area - x1 area))) eqn:E.
    - apply in_fb_spec in E. nia.
    - apply (f_equal length) in Hf. rewrite !length_app in Hf. simpl in Hf. lia. }
  rewrite (paths_agree lv_color_to32 lv_area_get_width (with_depth d1 cfg))
    by done.
  reflexivity.
Qed.

Lemma copy_paths_agree_on_surface_sized_array_witness :
  let cfg := build false false 16 4 3 in
  let drv := DispDrv 4 3 0 in
  let area := Area 1 1 2 2 in
  let src := [0xF800; 0x07E0; 0x001F; 0xFFFF] in
  let w := fresh (replicate 12 0) in
  faults (flush rgb565_to32 area_width (with_depth 16 cfg) Mon1 drv area
            (ColorBuf 4096 src) w) = faults w
  /\ flush rgb565_to32 area_width (with_depth 16 cfg) Mon1 drv area
       (ColorBuf 4096 src) w
     = flush rgb565_to32 area_width (with_depth 32 cfg) Mon1 drv area
         (ColorBuf 4096 (rgb565_to32 <$> src)) w.
Proof.
  intros cfg drv area src w.
  split; [reflexivity|].
  exact (copy_paths_agree_on_surface_sized_array rgb565_to32 area_width cfg 16 32
           Mon1 drv area 4096 src w eq_refl eq_refl eq_refl
           ltac:(cbn; lia) eq_refl ltac:(cbn; lia) ltac:(cbn; lia) eq_refl).
Defined.

(** C3 as stated fails for a rectangle that is only partly on the surface:
    on a 4x3 surface, the rectangle of columns 3..4 of row 0 passes the
    guard, and its second colour lands in column 0 of row 1, a cell
    outside the rectangle. *)
Lemma C3_counterexample :
  let cfg := build false false 32 4 3 in
  let drv := DispDrv 4 3 0 in
  let area := Area 3 0 4 0 in
  let w := fresh (replicate 12 0) in
  out_of_screen drv area = false
  /\ ~ outside_untouched cfg area (tft_fb (monitor w))
         (tft_fb (monitor (monitor_flush id area_width cfg drv area
                             (ColorBuf 4096 [7; 9]) w))).
Proof.
  intros cfg drv area w. split; [reflexivity|].
  intros Hc. specialize (Hc 0 1). vm_compute in Hc.
  assert (Some 9 = Some 0) as Heq; [|discriminate Heq].
  apply Hc; try (split; congruence).
  intros [[Hx _] _]. apply Hx. reflexivity.
Qed.

Lemma C3_flush_writes_the_clipped_rectangle_witness :
  let cfg := build false false 32 480 320 in
  let drv := DispDrv 480 320 0 in
  let area := Area 10 10 19 19 in
  let buf := ColorBuf 4096 (replicate 100 0xFF336699) in
  let w := fresh (replicate (Z.to_nat (480 * 320)) 0x44444444) in
  tft_fb (mon Mon1 (flush id area_width cfg Mon1 drv area buf w))
    !! Z.to_nat (19 * 480 + 19) = Some 0xFF336699
  /\ tft_fb (mon Mon1 (flush id area_width cfg Mon1 drv area buf w))
       !! Z.to_nat (19 * 480 + 20) = Some 0x44444444
  /\ faults (flush id area_width cfg Mon1 drv area buf w) = [].
Proof.
  intros cfg drv area buf w.
  assert (Hlen : 480 * 320 <= Z.of_nat (length (tft_fb (mon Mon1 w)))).
  { vm_compute. discriminate. }
  assert (Hsrc : (19 - 10 + 1) * (19 - 10 + 1) <= Z.of_nat (length (buf_px buf))).
  { vm_compute. discriminate. }
  destruct (C3_flush_writes_the_clipped_rectangle id area_width cfg Mon1 drv
              area buf w eq_refl eq_refl eq_refl
              ltac:(cbn; lia) ltac:(cbn; lia) ltac:(cbn; lia) eq_refl
              ltac:(cbn; lia) ltac:(discriminate) Hlen ltac:(cbn; lia) Hsrc)
    as (Hin & Hout & Hf & _).
  split; [|split].
  - exact (Hin 19 19 ltac:(cbn; lia) ltac:(cbn; lia) eq_refl).
  - refine (eq_trans (Hout (Z.to_nat (19 * 480 + 20)) _) _).
    + intros x y Hx Hy _. cbn in Hx, Hy |- *. lia.
    + vm_compute. reflexivity.
  - exact Hf.
Defined.

Lemma C8_memcpy_path_does_not_clip_width_witness :
  let cfg := build false false 32 4 3 in
  let drv := DispDrv 4 3 0 in
  let w := fresh (replicate 12 0) in
  tft_fb (mon Mon1 (flush id area_width cfg Mon1 drv (Area 3 0 4 0)
                      (ColorBuf 4096 [7; 9]) w)) !! 4%nat = Some 9
  /\ In (bad_store Mon1 12)
        (faults (flush id area_width cfg Mon1 drv (Area 3 2 4 2)
                   (ColorBuf 4096 [7; 9]) w)).
Proof.
  intros cfg drv w. split.
  - pose proof (C8_memcpy_path_does_not_clip_width id area_width cfg Mon1 drv
                  (Area 3 0 4 0) (ColorBuf 4096 [7; 9]) w
                  eq_refl eq_refl eq_refl eq_refl
                  ltac:(cbn; lia) eq_refl ltac:(cbn; lia)
                  ltac:(cbn; lia) ltac:(cbn; lia)) as [Hrow _].
    exact (Hrow 4 ltac:(cbn; lia)).
  - pose proof (C8_memcpy_path_does_not_clip_width id area_width cfg Mon1 drv
                  (Area 3 2 4 2) (ColorBuf 4096 [7; 9]) w
                  eq_refl eq_refl eq_refl eq_refl
                  ltac:(cbn; lia) eq_refl ltac:(cbn; lia)
                  ltac:(cbn; lia) ltac:(cbn; lia)) as [_ Hend].
    exact (Hend ltac:(cbn; lia) ltac:(cbn; lia) ltac:(cbn; lia)).
Defined.

Lemma C4_conversion_path_does_not_clip_height_witness :
  let cfg := build false false 16 480 320 in
  let drv := DispDrv 480 320 0 in
  let area := Area 0 319 0 320 in
  let w := fresh (replicate (Z.to_nat (480 * 320)) 0x44444444) in
  out_of_screen drv area = false
  /\ In (bad_store Mon1 (320 * 480 + 0))
        (faults (flush rgb565_to32 area_width cfg Mon1 drv area
                   (ColorBuf 4096 [0xF800; 0x07E0]) w)).
Proof.
  intros cfg drv area w. split; [reflexivity|].
  assert (Hlen : Z.of_nat (length (tft_fb (mon Mon1 w))) <= 480 * 320).
  { vm_compute. discriminate. }
  pose proof (C4_conversion_path_does_not_clip_height rgb565_to32 area_width cfg
                Mon1 drv area (ColorBuf 4096 [0xF800; 0x07E0]) w
                eq_refl eq_refl eq_refl
                ltac:(cbn; lia) ltac:(cbn; lia) ltac:(cbn; lia)) as [_ Hend].
  exact (Hend ltac:(cbn; lia) Hlen).
Defined.

(** ** The arrays keep their declared size *)

Lemma for_upto_inv {St} (P : St -> Prop) n cond (body : Z -> St -> St) i st :
  (forall j t, P t -> P (body j t)) -> P st -> P (for_upto n cond body i st).
Proof.
  intros Hb. revert i st. induction n as [|n IH]; intros i st Hst; simpl; [done|].
  destruct (cond i); [|done]. apply IH, Hb, Hst.
Qed.

Lemma flush_length lv_color_to32 lv_area_get_width cfg s s' drv area color_p w :
  length (tft_fb (mon s' (flush lv_color_to32 lv_area_get_width cfg s drv area
                            color_p w)))
  = length (tft_fb (mon s' w)).
Proof.
  unfold flush.
  destruct (out_of_screen drv area); [by destruct s'|].
  destruct (MONITOR_DOUBLE_BUFFERED cfg); [by destruct s, s'|].
  rewrite log_logs, mon_logs.
  assert (Hcopy : length (cells ((if per_pixel cfg
                                  then flush_pixels lv_color_to32 cfg
                                  else flush_rows lv_area_get_width cfg)
                                   s area (buf_px color_p)
                                   (FbMem (tft_fb (mon s w)) (faults w))))
                  = length (tft_fb (mon s w))).
  { destruct (per_pixel cfg).
    - unfold flush_pixels, for_.
      apply (for_upto_inv
               (fun st : copy_state => length (cells (snd st))
                                       = length (tft_fb (mon s w)))); [|done].
      intros y t Ht.
      apply (for_upto_inv
               (fun st : copy_state => length (cells (snd st))
                                       = length (tft_fb (mon s w)))); [|done].
      intros x t' Ht'. simpl. by rewrite copy_cell_length.
    - unfold flush_rows, for_.
      apply (for_upto_inv
               (fun st : copy_state => length (cells (snd st))
                                       = length (tft_fb (mon s w)))); [|done].
      intros y t Ht. simpl. by rewrite memcpy_length. }
  unfold flush_copy. destruct s, s'; simpl; done.
Qed.

(** A flush and a refresh cycle leave every array at its declared size. *)
Lemma flush_keeps_declared lv_color_to32 lv_area_get_width cfg s s' drv area
    color_p w :
  fb_declared cfg (mon s' w) ->
  fb_declared cfg (mon s' (flush lv_color_to32 lv_area_get_width cfg s drv area
                             color_p w)).
Proof. unfold fb_declared. by rewrite flush_length. Qed.

Lemma refr_core_keeps_declared cfg queued s w :
  fb_declared cfg (mon s w) ->
  fb_declared cfg (mon s (monitor_sdl_refr_core cfg queued w)).
Proof.
  unfold fb_declared. rewrite refr_core_eq.
  destruct s; simpl; [done|]. by destruct (MONITOR_DUAL cfg).
Qed.

(** The guard lets through exactly the rectangles that reach onto the
    screen on all four sides. *)
Lemma out_of_screen_spec drv area :
  out_of_screen drv area = false
  <-> 0 <= x2 area /\ 0 <= y2 area
      /\ x1 area <= (if rotated drv =? 0 then hor_res drv else ver_res drv) - 1
      /\ y1 area <= (if rotated drv =? 0 then ver_res drv else hor_res drv) - 1.
Proof.
  unfold out_of_screen. rewrite !orb_false_iff, !Z.ltb_ge, !Z.gtb_ltb, !Z.ltb_ge.
  tauto.
Qed.

(** * Further properties of the driver *)

(** ** The guard of the flush functions *)

(** X1.  For a rectangle with [x1 <= x2] and [y1 <= y2] and a screen of at
    least one pixel, the guard lets the flush through exactly when the
    rectangle shares a pixel with the screen [0 .. hres-1] x [0 .. vres-1],
    the bounds being the driver's resolution swapped under rotation. *)
Theorem guard_passes_iff_rectangle_meets_screen drv area :
  x1 area <= x2 area -> y1 area <= y2 area ->
  1 <= effective_hres drv -> 1 <= effective_vres drv ->
  out_of_screen drv area = false
  <-> exists x y,
        (x1 area <= x <= x2 area /\ y1 area <= y <= y2 area)
        /\ 0 <= x <= effective_hres drv - 1
        /\ 0 <= y <= effective_vres drv - 1.
Proof.
  intros Hx Hy Hh Hv. rewrite out_of_screen_spec.
  unfold effective_hres, effective_vres in *. split.
  - intros (Hx2 & Hy2 & Hx1 & Hy1).
    exists (Z.max (x1 area) 0), (Z.max (y1 area) 0). lia.
  - intros (x & y & [Hxr Hyr] & Hxs & Hys). lia.
Qed.

Lemma guard_passes_iff_rectangle_meets_screen_witness :
  out_of_screen (DispDrv 480 320 1) (Area 300 400 330 500) = false
  /\ out_of_screen (DispDrv 480 320 0) (Area 300 400 330 500) = true.
Proof.
  split; [|reflexivity].
  apply (guard_passes_iff_rectangle_meets_screen (DispDrv 480 320 1)
           (Area 300 400 330 500));
    [cbn; lia | cbn; lia | cbn; lia | cbn; lia |].
  exists 319, 479. cbn. lia.
Defined.

(** ** Flushes *)

Section FlushFacts.

Variable lv_color_to32 : Z -> Z.
Variable lv_area_get_width : lv_area_t -> Z.
Variable cfg : config.

Local Abbreviation run := (flush lv_color_to32 lv_area_get_width cfg).
Local Abbreviation run_all := (flush_all lv_color_to32 lv_area_get_width cfg).

Lemma flush_globals s drv area color_p w :
  sdl_quit_qry (run s drv area color_p w) = sdl_quit_qry w
  /\ sdl_inited (run s drv area color_p w) = sdl_inited w
  /\ window2_pos (run s drv area color_p w) = window2_pos w.
Proof.
  unfold flush, flush_copy.
  destruct (out_of_screen drv area); [done|].
  destruct (MONITOR_DOUBLE_BUFFERED cfg); by destruct s.
Qed.

Lemma flush_other_surface s s' drv area color_p w :
  s' <> s -> mon s' (run s drv area color_p w) = mon s' w.
Proof.
  intros Hs. unfold flush.
  destruct (out_of_screen drv area); [by destruct s'|].
  destruct (MONITOR_DOUBLE_BUFFERED cfg).
  - by destruct s, s'.
  - rewrite log_logs, mon_logs.
    transitivity (mon s' (flush_copy lv_color_to32 lv_area_get_width cfg s area
                            (buf_px color_p) w)).
    + by destruct s, s'.
    + by apply flush_copy_other.
Qed.

(** X2.  A double-buffered flush copies nothing: it reads no pixel of the
    source (the outcome is the same for any array behind [color_p]),
    leaves the owned arrays of both surfaces and the fault record as they
    are, and on a rectangle that passes the guard records the pointer as
    given, null or not. *)
Theorem double_buffered_flush_only_records_pointer s s' drv area addr px px' w :
  MONITOR_DOUBLE_BUFFERED cfg = true ->
  run s drv area (ColorBuf addr px) w = run s drv area (ColorBuf addr px') w
  /\ tft_fb (mon s' (run s drv area (ColorBuf addr px) w)) = tft_fb (mon s' w)
  /\ faults (run s drv area (ColorBuf addr px) w) = faults w
  /\ tft_fb_act (mon s (run s drv area (ColorBuf addr px) w))
     = if out_of_screen drv area then tft_fb_act (mon s w) else addr.
Proof.
  intros Hd. unfold flush. rewrite Hd.
  destruct (out_of_screen drv area).
  - repeat split; by destruct s, s'.
  - repeat split; by destruct s, s'.
Qed.


(** *** Any number of flushes before a cycle *)

Lemma flush_all_snoc s reqs r w :
  run_all s (reqs ++ [r]) w
  = run s (req_drv r) (req_area r) (req_color_p r) (run_all s reqs w).
Proof. unfold flush_all. by rewrite fold_left_app. Qed.

Lemma flush_flag s drv area color_p w :
  sdl_refr_qry (mon s (run s drv area color_p w))
  = if out_of_screen drv area then sdl_refr_qry (mon s w) else true.
Proof.
  unfold flush.
  destruct (out_of_screen drv area); [by destruct s|].
  destruct (MONITOR_DOUBLE_BUFFERED cfg);
    rewrite log_logs, mon_logs; apply mon_set_refr_qry.
Qed.

Lemma flush_trace s drv area color_p w :
  trace (run s drv area color_p w)
  = trace w ++ (if out_of_screen drv area
                then [lv_disp_flush_ready drv]
                else [wr_sdl_refr_qry s true; lv_disp_flush_ready drv]).
Proof.
  unfold flush.
  destruct (out_of_screen drv area); [done|].
  destruct (MONITOR_DOUBLE_BUFFERED cfg);
    rewrite trace_log, trace_set_refr_qry, <- app_assoc.
  - by destruct s.
  - by rewrite flush_copy_trace.
Qed.

Lemma flush_all_flag s reqs w :
  sdl_refr_qry (mon s (run_all s reqs w))
  = sdl_refr_qry (mon s w) || existsb passes_guard reqs.
Proof.
  induction reqs as [|r reqs IH] using rev_ind.
  - simpl. by rewrite orb_false_r.
  - rewrite flush_all_snoc, existsb_app. simpl. rewrite orb_false_r.
    rewrite flush_flag, IH.
    destruct (sdl_refr_qry (mon s w)), (existsb passes_guard reqs);
      unfold passes_guard;
      destruct (out_of_screen (req_drv r) (req_area r)); reflexivity.
Qed.

(** Calls other than the flag store and the acknowledgment are not made
    by flushes. *)
Lemma flush_all_count p s reqs w :
  (forall drv, p (lv_disp_flush_ready drv) = false) ->
  p (wr_sdl_refr_qry s true) = false ->
  count p (trace (run_all s reqs w)) = count p (trace w).
Proof.
  intros Hack Hwr.
  induction reqs as [|r reqs IH] using rev_ind; [done|].
  rewrite flush_all_snoc, flush_trace, count_app, IH.
  destruct (out_of_screen (req_drv r) (req_area r)); unfold count; simpl;
    rewrite ?Hack, ?Hwr; simpl; lia.
Qed.

Lemma flush_all_acks s reqs w :
  count is_flush_ready (trace (run_all s reqs w))
  = (count is_flush_ready (trace w) + length reqs)%nat.
Proof.
  induction reqs as [|r reqs IH] using rev_ind; [simpl; lia|].
  rewrite flush_all_snoc, flush_trace, count_app, IH, length_app.
  destruct (out_of_screen (req_drv r) (req_area r)); unfold count; simpl; lia.
Qed.

(** X3.  Single-buffered build, any number of flushes of one configured
    surface with no cycle in between: each flush is acknowledged once,
    and the next cycle presents the surface once if the flag was up
    before or any of the rectangles passed the guard (plus once per
    exposure), not once per flush. *)
Theorem flushes_coalesce_into_one_redraw s reqs queued w :
  MONITOR_DOUBLE_BUFFERED cfg = false ->
  configured cfg s = true ->
  count is_flush_ready (trace (run_all s reqs w))
  = (count is_flush_ready (trace w) + length reqs)%nat
  /\ count (is_present s)
       (trace (monitor_sdl_refr_core cfg queued (run_all s reqs w)))
     = (count (is_present s) (trace w)
        + (if sdl_refr_qry (mon s w) || existsb passes_guard reqs then 1 else 0)
        + exposures cfg queued)%nat.
Proof.
  intros Hd Hs. split; [apply flush_all_acks|].
  rewrite (count_cycle _ cfg queued _ s Hs (is_present_on s)) by done.
  rewrite flush_all_flag, flush_all_count by (try done; by destruct s).
  unfold update_calls, can_present, count. rewrite Hd.
  destruct (sdl_refr_qry (mon s w) || existsb passes_guard reqs), s; simpl; lia.
Qed.

End FlushFacts.

Lemma double_buffered_flush_only_records_pointer_witness :
  let cfg := build true true 32 480 320 in
  let w := fresh (replicate 4 gray) in
  tft_fb_act (mon Mon2 (flush id area_width cfg Mon2 (DispDrv 480 320 0)
                          (Area 0 0 9 9) (ColorBuf NULL []) w)) = NULL
  /\ tft_fb (mon Mon2 (flush id area_width cfg Mon2 (DispDrv 480 320 0)
                         (Area 0 0 9 9) (ColorBuf NULL []) w))
     = replicate 4 gray.
Proof.
  intros cfg w.
  destruct (double_buffered_flush_only_records_pointer id area_width cfg
              Mon2 Mon2 (DispDrv 480 320 0) (Area 0 0 9 9) NULL [] [] w eq_refl)
    as (_ & Hfb & _ & Hp).
  split; [exact Hp | exact Hfb].
Defined.

Lemma flushes_coalesce_into_one_redraw_witness :
  let cfg := build false false 32 4 3 in
  let drv := DispDrv 4 3 0 in
  let reqs := [FlushReq drv (Area 0 0 0 0) (ColorBuf 4096 [1]);
               FlushReq drv (Area 9 9 9 9) (ColorBuf 4096 [2]);
               FlushReq drv (Area 1 1 1 1) (ColorBuf 4096 [3])] in
  let w := fresh (replicate 12 gray) in
  count is_flush_ready (trace (flush_all id area_width cfg Mon1 reqs w)) = 3%nat
  /\ count (is_present Mon1)
       (trace (monitor_sdl_refr_core cfg []
                 (flush_all id area_width cfg Mon1 reqs w))) = 1%nat.
Proof.
  intros cfg drv reqs w.
  destruct (flushes_coalesce_into_one_redraw id area_width cfg Mon1 reqs [] w
              eq_refl eq_refl) as [Ha Hp].
  split; [exact Ha | exact Hp].
Defined.

(** ** More on the refresh cycle *)

Lemma filter_concat_map {A} p (f : A -> list call) l :
  List.filter p (concat (map f l))
  = concat (map (fun a => List.filter p (f a)) l).
Proof.
  induction l as [|a l IH]; simpl; [done|]. by rewrite List.filter_app, IH.
Qed.

Lemma filter_concat_replicate p n (l : list call) :
  List.filter p (concat (replicate n l)) = concat (replicate n (List.filter p l)).
Proof.
  induction n as [|n IH]; simpl; [done|]. by rewrite List.filter_app, IH.
Qed.

Lemma handlers_update_calls cfg s m :
  List.filter is_handler (update_calls cfg s m) = [].
Proof. unfold update_calls. by destruct (can_present cfg m). Qed.

Lemma handlers_refresh_calls cfg s m :
  List.filter is_handler (refresh_calls cfg s m) = [].
Proof.
  unfold refresh_calls. destruct (sdl_refr_qry m); [|done].
  simpl. apply handlers_update_calls.
Qed.

Lemma handlers_dispatch_calls cfg m1 m2 e :
  List.filter is_handler (dispatch_calls cfg m1 m2 e) = handler_calls cfg e.
Proof.
  unfold dispatch_calls, handler_calls. rewrite !List.filter_app.
  replace (List.filter is_handler
             (if exposes cfg e
              then update_calls cfg Mon1 m1
                   ++ (if MONITOR_DUAL cfg then update_calls cfg Mon2 m2 else [])
              else []))
    with (@nil call).
  - destruct (USE_MOUSE cfg), (USE_MOUSEWHEEL cfg), (USE_KEYBOARD cfg);
      reflexivity.
  - destruct (exposes cfg e); [|done].
    rewrite List.filter_app, handlers_update_calls.
    destruct (MONITOR_DUAL cfg); [by rewrite handlers_update_calls | done].
Qed.

(** X4.  In a refresh cycle every polled event is offered to the mouse
    handler, then the wheel handler, then the keyboard handler (those the
    build has), event by event in arrival order, whatever else the cycle
    does; a build that does not poll in the cycle calls no handler. *)
Theorem handlers_called_in_arrival_order cfg queued w :
  List.filter is_handler (trace (monitor_sdl_refr_core cfg queued w))
  = List.filter is_handler (trace w)
    ++ (if pumps cfg then concat (map (handler_calls cfg) queued) else []).
Proof.
  rewrite trace_refr_core, List.filter_app. f_equal.
  unfold cycle_calls. rewrite !List.filter_app, handlers_refresh_calls.
  replace (List.filter is_handler
             (if MONITOR_DUAL cfg
              then refresh_calls cfg Mon2 (monitor2 w) else []))
    with (@nil call)
    by (destruct (MONITOR_DUAL cfg); [by rewrite handlers_refresh_calls | done]).
  simpl. rewrite app_nil_r.
  destruct (pumps cfg); [|done].
  rewrite filter_concat_map. f_equal.
  apply map_ext. intros e. apply handlers_dispatch_calls.
Qed.

(** X5.  A refresh cycle never writes pixel data: for either surface the
    owned array and the borrowed pointer are as before, and so are the
    fault record and the quit and init flags.  The pending-refresh flag
    of every configured surface is down afterwards; an unconfigured
    second surface is not touched at all. *)
Theorem cycle_only_clears_flags cfg queued w s :
  tft_fb (mon s (monitor_sdl_refr_core cfg queued w)) = tft_fb (mon s w)
  /\ tft_fb_act (mon s (monitor_sdl_refr_core cfg queued w)) = tft_fb_act (mon s w)
  /\ sdl_refr_qry (mon s (monitor_sdl_refr_core cfg queued w))
     = (if configured cfg s then false else sdl_refr_qry (mon s w))
  /\ faults (monitor_sdl_refr_core cfg queued w) = faults w
  /\ sdl_quit_qry (monitor_sdl_refr_core cfg queued w) = sdl_quit_qry w
  /\ sdl_inited (monitor_sdl_refr_core cfg queued w) = sdl_inited w.
Proof.
  rewrite refr_core_eq.
  destruct s; simpl; [done|]. by destruct (MONITOR_DUAL cfg).
Qed.

Lemma draws_update_calls cfg s m :
  List.filter (draws_on s) (update_calls cfg s m)
  = if can_present cfg m then present_calls cfg s m else [].
Proof. unfold update_calls. destruct (can_present cfg m), s; reflexivity. Qed.

(** X6.  The SDL calls a cycle makes on a configured surface's texture and
    renderer are whole presentations, each SDL_UpdateTexture (with the
    surface's array or borrowed pointer and a pitch of four bytes per
    column), SDL_RenderClear, SDL_RenderCopy, SDL_RenderPresent in that
    order: one for a raised flag and one per exposure, none at all when
    there is nothing to present or nothing asked for it. *)
Theorem draws_are_whole_presentations cfg queued w s :
  configured cfg s = true ->
  List.filter (draws_on s) (trace (monitor_sdl_refr_core cfg queued w))
  = List.filter (draws_on s) (trace w)
    ++ concat (replicate
                 (if can_present cfg (mon s w)
                  then (if sdl_refr_qry (mon s w) then 1 else 0)
                       + exposures cfg queued
                  else 0)
                 (present_calls cfg s (mon s w))).
Proof.
  intros Hs. rewrite trace_refr_core, List.filter_app. f_equal.
  rewrite <- (filter_on _ s) by apply draws_on_on.
  rewrite cycle_calls_on, List.filter_app, filter_concat_replicate,
    draws_update_calls by done.
  unfold refresh_calls.
  destruct (can_present cfg (mon s w)) eqn:Hc.
  - destruct (sdl_refr_qry (mon s w)); [|done].
    change (List.filter (draws_on s)
              (wr_sdl_refr_qry s false :: update_calls cfg s (mon s w)))
      with (List.filter (draws_on s) (update_calls cfg s (mon s w))).
    by rewrite draws_update_calls, Hc.
  - assert (Hnil : forall n, concat (replicate n (@nil call)) = []).
    { induction n as [|n IH]; simpl; done. }
    rewrite Hnil, app_nil_r.
    destruct (sdl_refr_qry (mon s w)); [|done].
    change (List.filter (draws_on s)
              (wr_sdl_refr_qry s false :: update_calls cfg s (mon s w)))
      with (List.filter (draws_on s) (update_calls cfg s (mon s w))).
    by rewrite draws_update_calls, Hc.
Qed.

Lemma draws_are_whole_presentations_witness :
  let cfg := build false true 32 4 3 in
  let w := World (Monitor true NULL [1; 2]) (Monitor false NULL [3]) true false
                 (0, 0) [] [] in
  List.filter (draws_on Mon1)
    (trace (monitor_sdl_refr_core cfg [SDL_WINDOWEVENT SDL_WINDOWEVENT_EXPOSED] w))
  = [SDL_UpdateTexture Mon1 (px_owned [1; 2]) 16; SDL_RenderClear Mon1;
     SDL_RenderCopy Mon1; SDL_RenderPresent Mon1;
     SDL_UpdateTexture Mon1 (px_owned [1; 2]) 16; SDL_RenderClear Mon1;
     SDL_RenderCopy Mon1; SDL_RenderPresent Mon1].
Proof.
  intros cfg w.
  exact (draws_are_whole_presentations cfg
           [SDL_WINDOWEVENT SDL_WINDOWEVENT_EXPOSED] w Mon1 eq_refl).
Defined.

(** X7.  A raised flag is used up by the cycle that serves it: the cycle
    after makes no SDL call on the surface's texture or renderer unless an
    exposure is polled in it. *)
Theorem raised_flag_is_served_once cfg q1 q2 w s :
  configured cfg s = true ->
  exposures cfg q2 = O ->
  count (draws_on s)
    (trace (monitor_sdl_refr_core cfg q2 (monitor_sdl_refr_core cfg q1 w)))
  = count (draws_on s) (trace (monitor_sdl_refr_core cfg q1 w)).
Proof.
  intros Hs He.
  rewrite (count_cycle _ cfg q2 _ s Hs (draws_on_on s)) by done.
  rewrite mon_refr_core, He by done. simpl. lia.
Qed.

Lemma raised_flag_is_served_once_witness :
  let cfg := build false false 32 4 3 in
  let w := World (Monitor true NULL [1; 2]) (Monitor false NULL []) true false
                 (0, 0) [] [] in
  count (draws_on Mon1)
    (trace (monitor_sdl_refr_core cfg [SDL_other 1024]
              (monitor_sdl_refr_core cfg [] w))) = 4%nat.
Proof.
  intros cfg w.
  exact (raised_flag_is_served_once cfg [] [SDL_other 1024] w Mon1
           eq_refl eq_refl).
Defined.

(** ** Start-up *)

Lemma store_length s off v m :
  length (cells (store s off v m)) = length (cells m).
Proof.
  unfold store.
  destruct (in_fb (cells m) off); simpl; [apply length_insert | done].
Qed.

Lemma memset44_length s n dst m :
  length (cells (memset44 s n dst m)) = length (cells m).
Proof.
  revert dst m. induction n as [|n IH]; intros dst m; simpl; [done|].
  by rewrite IH, store_length.
Qed.

Lemma memset44_flt_grows s n dst m :
  exists extra, flt (memset44 s n dst m) = flt m ++ extra.
Proof.
  revert dst m. induction n as [|n IH]; intros dst m; simpl.
  - exists []. by rewrite app_nil_r.
  - destruct (IH (dst + 1) (store s dst 0x44444444 m)) as [e ->].
    unfold store. destruct (in_fb (cells m) dst); simpl; [eauto|].
    rewrite <- app_assoc. eauto.
Qed.

(** A memset inside the array: the cells of [dst .. dst + n - 1] are gray,
    the others keep their value, no fault. *)
Lemma memset44_inside s n dst m :
  0 <= dst -> dst + Z.of_nat n <= Z.of_nat (length (cells m)) ->
  flt (memset44 s n dst m) = flt m
  /\ forall j : nat,
       cells (memset44 s n dst m) !! j
       = if decide (dst <= Z.of_nat j < dst + Z.of_nat n)
         then Some gray else cells m !! j.
Proof.
  revert dst m. induction n as [|n IH]; intros dst m Hd Hn.
  - simpl. split; [done|]. intros j. case_decide; [lia | done].
  - simpl. assert (Hin : in_fb (cells m) dst = true) by (apply in_fb_spec; lia).
    destruct (IH (dst + 1) (store s dst 0x44444444 m)) as [Hf Hc].
    { lia. }
    { unfold store. rewrite Hin. simpl. rewrite length_insert. lia. }
    split.
    + rewrite Hf. unfold store. by rewrite Hin.
    + intros j. rewrite Hc. unfold store. rewrite Hin. simpl.
      repeat case_decide; try lia; try done.
      * assert (j = Z.to_nat dst) as -> by lia.
        apply list_lookup_insert_eq. lia.
      * apply list_lookup_insert_ne. lia.
Qed.

(** A memset that runs past the end of the array is recorded. *)
Lemma memset44_bad_store s n dst m (i : nat) :
  (i < n)%nat ->
  in_fb (cells m) (dst + Z.of_nat i) = false ->
  In (bad_store s (dst + Z.of_nat i)) (flt (memset44 s n dst m)).
Proof.
  revert dst m i. induction n as [|n IH]; intros dst m i Hi Hin; [lia|].
  simpl. destruct i as [|i].
  - rewrite Z.add_0_r in *.
    destruct (memset44_flt_grows s n (dst + 1) (store s dst 0x44444444 m))
      as [e ->].
    unfold store. rewrite Hin. simpl. rewrite !in_app_iff. left. right. by left.
  - replace (dst + Z.of_nat (S i)) with (dst + 1 + Z.of_nat i) in * by lia.
    apply IH; [lia|].
    unfold in_fb in *. by rewrite store_length.
Qed.

Lemma window_create_eq cfg s w :
  window_create cfg s w
  = logs (create_calls cfg s (mon s w))
      (set_faults (flt (created cfg s (mon s w) (faults w)))
         (set_mon s
            (Monitor true (tft_fb_act (mon s w))
               (cells (created cfg s (mon s w) (faults w))))
            w)).
Proof.
  unfold window_create, create_calls, created, surface_cells, set_refr_qry.
  destruct w as [[q1 p1 f1] [q2 p2 f2] i q pos tr fl].
  destruct (MONITOR_DOUBLE_BUFFERED cfg), s; unfold logs, log; simpl;
    rewrite <- ?app_assoc; reflexivity.
Qed.

Lemma mon_window_create_other cfg s s' w :
  s' <> s -> mon s' (window_create cfg s w) = mon s' w.
Proof. intros Hs. rewrite window_create_eq, mon_logs. by destruct s, s'. Qed.

Lemma mon_window_create cfg s w :
  mon s (window_create cfg s w)
  = Monitor true (tft_fb_act (mon s w))
      (cells (created cfg s (mon s w) (faults w))).
Proof. rewrite window_create_eq, mon_logs. by destruct s. Qed.

Lemma trace_window_create cfg s w :
  trace (window_create cfg s w) = trace w ++ create_calls cfg s (mon s w).
Proof. rewrite window_create_eq. by destruct s. Qed.

Lemma window2_pos_window_create cfg s w :
  window2_pos (window_create cfg s w) = window2_pos w.
Proof. rewrite window_create_eq. by destruct s. Qed.

(** The calls of start-up. *)
Lemma trace_monitor_sdl_init cfg w :
  trace (monitor_sdl_init cfg w) = trace w ++ init_calls cfg w.
Proof.
  unfold monitor_sdl_init, init_calls.
  set (w0 := log SDL_SetEventFilter (log SDL_Init w)).
  assert (Hm0 : forall s, mon s w0 = mon s w) by (by intros []).
  destruct (MONITOR_DUAL cfg).
  - change (window2_pos (log (SDL_GetWindowPosition Mon2)
                           (window_create cfg Mon2 (window_create cfg Mon1 w0))))
      with (window2_pos (window_create cfg Mon2 (window_create cfg Mon1 w0))).
    rewrite !window2_pos_window_create.
    change (window2_pos w0) with (window2_pos w).
    destruct (window2_pos w) as [x y].
    change (trace (set_sdl_inited true ?v)) with (trace v).
    rewrite !trace_log, !trace_window_create.
    rewrite mon_window_create_other by done. rewrite !Hm0.
    unfold w0. rewrite !trace_log, <- !app_assoc. reflexivity.
  - change (trace (set_sdl_inited true ?v)) with (trace v).
    rewrite trace_window_create, Hm0.
    unfold w0. rewrite !trace_log, <- !app_assoc, app_nil_r. reflexivity.
Qed.

(** The state of a configured surface after start-up is that after its
    own [window_create]. *)
Lemma mon_monitor_sdl_init cfg w s :
  configured cfg s = true ->
  exists fl,
    mon s (monitor_sdl_init cfg w)
    = Monitor true (tft_fb_act (mon s w)) (cells (created cfg s (mon s w) fl)).
Proof.
  intros Hs. unfold monitor_sdl_init.
  set (w0 := log SDL_SetEventFilter (log SDL_Init w)).
  assert (Hm0 : forall s, mon s w0 = mon s w) by (by intros []).
  destruct (MONITOR_DUAL cfg) eqn:D.
  - destruct (window2_pos _) as [x y].
    destruct s.
    + exists (faults w0).
      change (mon Mon1 (set_sdl_inited true ?v)) with (mon Mon1 v).
      rewrite !log_logs, !mon_logs, mon_window_create_other by done.
      by rewrite mon_window_create, Hm0.
    + exists (faults (window_create cfg Mon1 w0)).
      change (mon Mon2 (set_sdl_inited true ?v)) with (mon Mon2 v).
      rewrite !log_logs, !mon_logs, mon_window_create.
      by rewrite mon_window_create_other, Hm0 by done.
  - destruct s; [|simpl in Hs; congruence].
    exists (faults w0).
    change (mon Mon1 (set_sdl_inited true ?v)) with (mon Mon1 v).
    by rewrite mon_window_create, Hm0.
Qed.

(** X8.  Single-buffered [window_create] on an array that holds the
    surface: the first MONITOR_HOR_RES * MONITOR_VER_RES cells are set to
    0x44444444, the cells behind them keep their value, nothing is stored
    outside the array, and the pending-refresh flag is raised. *)
Theorem window_create_grays_the_surface cfg s w :
  MONITOR_DOUBLE_BUFFERED cfg = false ->
  (surface_cells cfg <= length (tft_fb (mon s w)))%nat ->
  (forall j : nat,
      tft_fb (mon s (window_create cfg s w)) !! j
      = if decide (j < surface_cells cfg)%nat then Some gray
        else tft_fb (mon s w) !! j)
  /\ faults (window_create cfg s w) = faults w
  /\ sdl_refr_qry (mon s (window_create cfg s w)) = true
  /\ tft_fb_act (mon s (window_create cfg s w)) = tft_fb_act (mon s w).
Proof.
  intros Hd Hfit.
  destruct (memset44_inside s (surface_cells cfg) 0
              (FbMem (tft_fb (mon s w)) (faults w))) as [Hf Hc];
    [lia | simpl; lia |].
  split; [|split; [|split]].
  - intros j. rewrite mon_window_create. cbn [tft_fb].
    unfold created. rewrite Hd, Hc. cbn [cells].
    repeat case_decide; try lia; done.
  - rewrite window_create_eq. unfold created. rewrite Hd.
    transitivity (flt (memset44 s (surface_cells cfg) 0
                         (FbMem (tft_fb (mon s w)) (faults w))));
      [by destruct s | exact Hf].
  - by rewrite mon_window_create.
  - by rewrite mon_window_create.
Qed.

Lemma window_create_grays_the_surface_witness :
  let cfg := build false false 32 2 2 in
  let w := World (Monitor false NULL [1; 2; 3; 4; 5]) (Monitor false NULL [])
                 false false (0, 0) [] [] in
  tft_fb (mon Mon1 (window_create cfg Mon1 w)) !! 3%nat = Some gray
  /\ tft_fb (mon Mon1 (window_create cfg Mon1 w)) !! 4%nat = Some 5
  /\ faults (window_create cfg Mon1 w) = [].
Proof.
  intros cfg w.
  destruct (window_create_grays_the_surface cfg Mon1 w eq_refl
              ltac:(vm_compute; lia)) as (Hc & Hf & _).
  split; [exact (Hc 3%nat) | split; [exact (Hc 4%nat) | exact Hf]].
Defined.

(** X9.  Single-buffered [window_create] on an array shorter than the
    surface: the memset covers MONITOR_HOR_RES * MONITOR_VER_RES cells all
    the same, and its store just past the last cell of the array is
    outside [tft_fb]. *)
Theorem window_create_overruns_short_array cfg s w :
  MONITOR_DOUBLE_BUFFERED cfg = false ->
  (length (tft_fb (mon s w)) < surface_cells cfg)%nat ->
  In (bad_store s (Z.of_nat (length (tft_fb (mon s w)))))
     (faults (window_create cfg s w)).
Proof.
  intros Hd Hshort.
  rewrite window_create_eq. unfold created. rewrite Hd.
  pose proof (memset44_bad_store s (surface_cells cfg) 0
                (FbMem (tft_fb (mon s w)) (faults w))
                (length (tft_fb (mon s w))) Hshort) as Hbad.
  rewrite Z.add_0_l in Hbad.
  destruct s; apply Hbad; apply in_fb_false; simpl; lia.
Qed.

Lemma window_create_overruns_short_array_witness :
  let cfg := Config false false 32 2 2 3 2 1 false false false true
                    true true true in
  let w := fresh (replicate 4 0) in
  In (bad_store Mon1 4) (faults (window_create cfg Mon1 w)).
Proof.
  intros cfg w.
  exact (window_create_overruns_short_array cfg Mon1 w eq_refl
           ltac:(vm_compute; lia)).
Defined.

Lemma pushed_create_calls cfg s s' m :
  pushed s (create_calls cfg s' m)
  = if MONITOR_DOUBLE_BUFFERED cfg && bool_decide (s' = s)
    then [px_ptr (tft_fb_act m)] else [].
Proof.
  unfold create_calls.
  destruct (MONITOR_DOUBLE_BUFFERED cfg), s, s'; reflexivity.
Qed.

Lemma pushed_init_calls cfg w s :
  configured cfg s = true ->
  pushed s (init_calls cfg w)
  = if MONITOR_DOUBLE_BUFFERED cfg then [px_ptr (tft_fb_act (mon s w))] else [].
Proof.
  intros Hs. unfold init_calls.
  destruct (MONITOR_DUAL cfg) eqn:D.
  - rewrite !pushed_app, !pushed_create_calls.
    destruct (MONITOR_DOUBLE_BUFFERED cfg), s; reflexivity.
  - destruct s; [|simpl in Hs; congruence].
    rewrite !pushed_app, !pushed_create_calls.
    destruct (MONITOR_DOUBLE_BUFFERED cfg); reflexivity.
Qed.

(** X10.  Start-up followed by the first refresh cycle, single-buffered,
    arrays of the surface's size: start-up itself hands SDL no pixels, and
    the first cycle presents every configured surface as a uniformly gray
    frame (every cell 0x44444444), once for the flag start-up raised and
    once per exposure. *)
Theorem first_frame_is_gray cfg queued w s :
  MONITOR_DOUBLE_BUFFERED cfg = false ->
  configured cfg s = true ->
  length (tft_fb (mon s w)) = surface_cells cfg ->
  pushed s (trace (monitor_sdl_init cfg w)) = pushed s (trace w)
  /\ pushed s (trace (monitor_sdl_refr_core cfg queued (monitor_sdl_init cfg w)))
     = pushed s (trace w)
       ++ replicate (S (exposures cfg queued))
            (px_owned (replicate (surface_cells cfg) gray)).
Proof.
  intros Hd Hs Hlen.
  assert (Hp : pushed s (trace (monitor_sdl_init cfg w)) = pushed s (trace w)).
  { rewrite trace_monitor_sdl_init, pushed_app, pushed_init_calls by done.
    rewrite Hd. apply app_nil_r. }
  split; [exact Hp|].
  rewrite pushed_cycle, Hp by done. f_equal.
  destruct (mon_monitor_sdl_init cfg w s Hs) as [fl ->].
  assert (Hgray : cells (created cfg s (mon s w) fl)
                  = replicate (surface_cells cfg) gray).
  { unfold created. rewrite Hd.
    destruct (memset44_inside s (surface_cells cfg) 0
                (FbMem (tft_fb (mon s w)) fl)) as [_ Hc];
      [lia | simpl; lia |].
    apply list_eq. intros j. rewrite Hc.
    case_decide.
    - symmetry. apply lookup_replicate_2. lia.
    - simpl. rewrite lookup_ge_None_2 by lia.
      symmetry. apply lookup_replicate_None. lia. }
  unfold can_present, presentable. rewrite Hd. simpl. by rewrite Hgray.
Qed.

Lemma first_frame_is_gray_witness :
  let cfg := build false true 32 2 2 in
  let w := fresh [1; 2; 3; 4] in
  pushed Mon2 (trace (monitor_sdl_refr_core cfg [] (monitor_sdl_init cfg w)))
  = [px_owned [gray; gray; gray; gray]].
Proof.
  intros cfg w.
  destruct (first_frame_is_gray cfg [] w Mon2 eq_refl eq_refl eq_refl)
    as [_ Hp].
  exact Hp.
Defined.

(** X11.  In a double-buffered build start-up hands SDL_UpdateTexture the
    borrowed pointer of every configured surface as it finds it, without
    the null test [window_update] makes: when no flush has run before
    start-up that pointer is still null. *)
Theorem start_up_pushes_the_unset_pointer cfg w s :
  MONITOR_DOUBLE_BUFFERED cfg = true ->
  configured cfg s = true ->
  pushed s (trace (monitor_sdl_init cfg w))
  = pushed s (trace w) ++ [px_ptr (tft_fb_act (mon s w))].
Proof.
  intros Hd Hs.
  rewrite trace_monitor_sdl_init, pushed_app, pushed_init_calls by done.
  by rewrite Hd.
Qed.

Lemma start_up_pushes_the_unset_pointer_witness :
  pushed Mon1 (trace (monitor_sdl_init (build true false 32 480 320) (fresh [])))
  = [px_ptr NULL].
Proof.
  exact (start_up_pushes_the_unset_pointer (build true false 32 480 320)
           (fresh []) Mon1 eq_refl eq_refl).
Defined.

Lemma positions_create_calls cfg s m :
  List.filter is_set_position (create_calls cfg s m) = [].
Proof. unfold create_calls. by destruct (MONITOR_DOUBLE_BUFFERED cfg). Qed.

(** X12.  Start-up moves windows only in a dual build, and then both
    relative to the position SDL reports for the second window: the first
    window to [MONITOR_HOR_RES / 2 + 10] right of it, the second the same
    distance left of it, both at its height; so the two end up
    [2 * (MONITOR_HOR_RES / 2 + 10)] apart. *)
Theorem windows_placed_side_by_side cfg w :
  List.filter is_set_position (trace (monitor_sdl_init cfg w))
  = List.filter is_set_position (trace w)
    ++ (if MONITOR_DUAL cfg
        then [SDL_SetWindowPosition Mon1
                (fst (window2_pos w) + MONITOR_HOR_RES cfg `quot` 2 + 10)
                (snd (window2_pos w));
              SDL_SetWindowPosition Mon2
                (fst (window2_pos w) - MONITOR_HOR_RES cfg `quot` 2 - 10)
                (snd (window2_pos w))]
        else []).
Proof.
  rewrite trace_monitor_sdl_init, List.filter_app. f_equal.
  unfold init_calls. rewrite !List.filter_app, positions_create_calls.
  destruct (MONITOR_DUAL cfg); [|done].
  by rewrite List.filter_app, positions_create_calls.
Qed.

(** ** The global flags *)

(** X13.  The quit request is raised by the event filter alone, on a
    window-close or SDL_QUIT event, and nothing lowers it: a flush, a
    refresh cycle and start-up leave it as it is, and [quit_filter], run on
    one event or on a batch, can only raise it. *)
Theorem quit_request_is_raised_only_by_the_filter
    lv_color_to32 lv_area_get_width cfg s drv area color_p queued e evs w :
  sdl_quit_qry (flush lv_color_to32 lv_area_get_width cfg s drv area color_p w)
  = sdl_quit_qry w
  /\ sdl_quit_qry (monitor_sdl_refr_core cfg queued w) = sdl_quit_qry w
  /\ sdl_quit_qry (monitor_sdl_init cfg w) = sdl_quit_qry w
  /\ sdl_quit_qry (quit_filter e w) = sdl_quit_qry w || quits e
  /\ sdl_quit_qry (SDL_add_events evs w) = sdl_quit_qry w || existsb quits evs.
Proof.
  split; [apply flush_globals|].
  split; [by rewrite refr_core_eq|].
  split; [by destruct (monitor_sdl_init_calls cfg w) as (? & _ & _ & ?)|].
  split.
  - destruct e as [[| | |?]| |?]; simpl; by rewrite ?orb_false_r, ?orb_true_r.
  - by rewrite SDL_add_events_eq.
Qed.

(** ** The refresh thread, cycle by cycle *)

Lemma cycle_calls_kinds cfg queued w :
  forallb cycle_call (cycle_calls cfg queued w) = true.
Proof.
  assert (Hu : forall s m, forallb cycle_call (update_calls cfg s m) = true).
  { intros s m. unfold update_calls. by destruct (can_present cfg m). }
  assert (Hr : forall s m, forallb cycle_call (refresh_calls cfg s m) = true).
  { intros s m. unfold refresh_calls.
    destruct (sdl_refr_qry m); [|done]. simpl. apply Hu. }
  assert (Hd : forall e, forallb cycle_call
                 (dispatch_calls cfg (monitor w) (monitor2 w) e) = true).
  { intros e. unfold dispatch_calls. rewrite !forallb_app.
    destruct (USE_MOUSE cfg), (USE_MOUSEWHEEL cfg), (USE_KEYBOARD cfg),
      (exposes cfg e), (MONITOR_DUAL cfg);
      rewrite ?forallb_app, ?Hu; reflexivity. }
  unfold cycle_calls. rewrite !forallb_app, Hr.
  assert (Hq : forallb cycle_call
                 (concat (map (dispatch_calls cfg (monitor w) (monitor2 w)) queued))
               = true).
  { induction queued as [|e q IH]; simpl; [done|].
    by rewrite forallb_app, Hd, IH. }
  destruct (MONITOR_DUAL cfg), (pumps cfg); rewrite ?Hr, ?Hq; reflexivity.
Qed.

Lemma count_none p (l : list call) :
  (forall c, cycle_call c = true -> p c = false) ->
  forallb cycle_call l = true -> count p l = O.
Proof.
  intros Hp. induction l as [|c l IH]; simpl; [done|].
  intros [Hc Hl]%andb_true_iff. unfold count in *. simpl.
  rewrite (Hp c Hc). by apply IH.
Qed.

Lemma refr_loop_quit cfg cycles w :
  sdl_quit_qry w = true -> refr_loop cfg cycles w = Some w.
Proof. intros Hq. destruct cycles; simpl; by rewrite Hq. Qed.

(** The loop runs the cycles up to the first quit event, and a call made
    [k] times per cycle is made [k] times for each of them. *)
Lemma refr_loop_count cfg p k cycles w :
  (forall q v, count p (cycle_calls cfg q v) = k) ->
  sdl_quit_qry w = false ->
  existsb (existsb quits) cycles = true ->
  exists w',
    refr_loop cfg cycles w = Some w'
    /\ count p (trace w') = (count p (trace w) + k * length (until_quit cycles))%nat.
Proof.
  intros Hk. revert w.
  induction cycles as [|evs rest IH]; intros w Hq Hex; [done|].
  simpl in *. rewrite Hq.
  set (w1 := monitor_sdl_refr_core cfg evs (SDL_add_events evs w)).
  assert (Hq1 : sdl_quit_qry w1 = existsb quits evs).
  { unfold w1. rewrite refr_core_eq, SDL_add_events_eq. simpl. by rewrite Hq. }
  assert (Ht1 : count p (trace w1) = (count p (trace w) + k)%nat).
  { unfold w1. rewrite trace_refr_core, count_app, Hk.
    by rewrite SDL_add_events_eq. }
  destruct (existsb quits evs) eqn:E.
  - exists w1. rewrite refr_loop_quit by done. split; [done|].
    rewrite Ht1. simpl. lia.
  - simpl in Hex. destruct (IH w1 Hq1 Hex) as (w' & Hrun & Hc).
    exists w'. split; [done|]. rewrite Hc, Ht1. simpl. lia.
Qed.

Lemma handlers_cycle_calls cfg queued w :
  List.filter is_handler (cycle_calls cfg queued w)
  = if pumps cfg then concat (map (handler_calls cfg) queued) else [].
Proof.
  unfold cycle_calls. rewrite !List.filter_app, handlers_refresh_calls.
  replace (List.filter is_handler
             (if MONITOR_DUAL cfg
              then refresh_calls cfg Mon2 (monitor2 w) else []))
    with (@nil call)
    by (destruct (MONITOR_DUAL cfg); [by rewrite handlers_refresh_calls | done]).
  simpl. rewrite app_nil_r.
  destruct (pumps cfg); [|done].
  rewrite filter_concat_map. f_equal.
  apply map_ext. intros e. apply handlers_dispatch_calls.
Qed.

Lemma refr_loop_handlers cfg cycles w :
  sdl_quit_qry w = false ->
  existsb (existsb quits) cycles = true ->
  exists w',
    refr_loop cfg cycles w = Some w'
    /\ List.filter is_handler (trace w')
       = List.filter is_handler (trace w)
         ++ (if pumps cfg
             then concat (map (handler_calls cfg) (concat (until_quit cycles)))
             else []).
Proof.
  revert w. induction cycles as [|evs rest IH]; intros w Hq Hex; [done|].
  simpl in *. rewrite Hq.
  set (w1 := monitor_sdl_refr_core cfg evs (SDL_add_events evs w)).
  assert (Hq1 : sdl_quit_qry w1 = existsb quits evs).
  { unfold w1. rewrite refr_core_eq, SDL_add_events_eq. simpl. by rewrite Hq. }
  assert (Ht1 : List.filter is_handler (trace w1)
                = List.filter is_handler (trace w)
                  ++ (if pumps cfg then concat (map (handler_calls cfg) evs)
                      else [])).
  { unfold w1. rewrite trace_refr_core, List.filter_app, handlers_cycle_calls.
    by rewrite SDL_add_events_eq. }
  destruct (existsb quits evs) eqn:E.
  - exists w1. rewrite refr_loop_quit by done. split; [done|].
    rewrite Ht1. simpl. by rewrite app_nil_r.
  - simpl in Hex. destruct (IH w1 Hq1 Hex) as (w' & Hrun & Hc).
    exists w'. split; [done|]. rewrite Hc, Ht1, <- app_assoc. f_equal.
    destruct (pumps cfg); [|done].
    simpl. by rewrite map_app, concat_app.
Qed.

Lemma count_init_calls p cfg w :
  (forall c, p c = true -> cycle_call c = true) ->
  (forall s b, p (wr_sdl_refr_qry s b) = false) ->
  (forall s px n, p (SDL_UpdateTexture s px n) = false) ->
  count p (init_calls cfg w) = O.
Proof.
  intros Hp Hwr Hup.
  assert (Hn : forall c, cycle_call c = false -> p c = false).
  { intros c Hc. destruct (p c) eqn:E; [|done]. apply Hp in E. congruence. }
  assert (Hcr : forall s m, count p (create_calls cfg s m) = O).
  { intros s m. unfold create_calls, count.
    destruct (MONITOR_DOUBLE_BUFFERED cfg); simpl;
      rewrite ?Hwr, ?Hup, !Hn by done; reflexivity. }
  unfold init_calls. rewrite !count_app, Hcr.
  destruct (MONITOR_DUAL cfg).
  - rewrite count_app, Hcr. unfold count. simpl. by rewrite !Hn.
  - unfold count. simpl. by rewrite !Hn.
Qed.

Lemma count_teardown_calls p cfg :
  (forall c, p c = true -> cycle_call c = true) ->
  count p (teardown_calls cfg ++ [exit 0]) = O.
Proof.
  intros Hp.
  assert (Hn : forall c, cycle_call c = false -> p c = false).
  { intros c Hc. destruct (p c) eqn:E; [|done]. apply Hp in E. congruence. }
  unfold teardown_calls, count.
  destruct (MONITOR_DUAL cfg); simpl; by rewrite !Hn.
Qed.

Lemma is_delay_kind c : is_delay c = true -> cycle_call c = true.
Proof. by destruct c. Qed.

Lemma is_handler_kind c : is_handler c = true -> cycle_call c = true.
Proof. by destruct c. Qed.

(** X14.  The refresh thread goes on for as long as no quit is requested:
    over any given cycles it is still in its loop, with no teardown and no
    exit, exactly when the quit request was down at its start and none of
    those cycles brought a window-close or SDL_QUIT event. *)
Theorem thread_runs_until_quit_is_requested cfg cycles w :
  monitor_sdl_refr_thread cfg cycles w = None
  <-> sdl_quit_qry w || existsb (existsb quits) cycles = false.
Proof.
  unfold monitor_sdl_refr_thread.
  set (w0 := if MONITOR_APPLE cfg then w else monitor_sdl_init cfg w).
  assert (Hq0 : sdl_quit_qry w0 = sdl_quit_qry w).
  { unfold w0. destruct (MONITOR_APPLE cfg); [done|].
    by destruct (monitor_sdl_init_calls cfg w) as (? & _ & _ & ?). }
  destruct (sdl_quit_qry w || existsb (existsb quits) cycles) eqn:E.
  - destruct (refr_loop_ends cfg cycles w0) as (w' & new & -> & _);
      [by rewrite Hq0|].
    split; discriminate.
  - rewrite refr_loop_runs by (by rewrite Hq0). done.
Qed.

(** X15.  A thread started with the quit request down runs whole cycles up
    to and including the first one that brings a quit event, and none
    after: it sleeps SDL_REFR_PERIOD once per such cycle, offers exactly
    the events of those cycles to the input handlers (in order, on a build
    that polls), and the events of later cycles to none. *)
Theorem thread_stops_after_the_quit_cycle cfg cycles w :
  sdl_quit_qry w = false ->
  existsb (existsb quits) cycles = true ->
  exists w',
    monitor_sdl_refr_thread cfg cycles w = Some w'
    /\ count is_delay (trace w')
       = (count is_delay (trace w) + length (until_quit cycles))%nat
    /\ List.filter is_handler (trace w')
       = List.filter is_handler (trace w)
         ++ (if pumps cfg
             then concat (map (handler_calls cfg) (concat (until_quit cycles)))
             else []).
Proof.
  intros Hq Hex. unfold monitor_sdl_refr_thread.
  set (w0 := if MONITOR_APPLE cfg then w else monitor_sdl_init cfg w).
  assert (Hq0 : sdl_quit_qry w0 = false).
  { unfold w0. destruct (MONITOR_APPLE cfg); [done|].
    destruct (monitor_sdl_init_calls cfg w) as (? & _ & _ & ->). done. }
  assert (Hd0 : count is_delay (trace w0) = count is_delay (trace w)).
  { unfold w0. destruct (MONITOR_APPLE cfg); [done|].
    rewrite trace_monitor_sdl_init, count_app, count_init_calls;
      [lia | apply is_delay_kind | done | done]. }
  assert (Hh0 : List.filter is_handler (trace w0) = List.filter is_handler (trace w)).
  { unfold w0. destruct (MONITOR_APPLE cfg); [done|].
    rewrite trace_monitor_sdl_init, List.filter_app.
    assert (Hz : count is_handler (init_calls cfg w) = O)
      by (apply count_init_calls; [apply is_handler_kind | done | done]).
    unfold count in Hz. apply length_zero_iff_nil in Hz. rewrite Hz.
    apply app_nil_r. }
  destruct (refr_loop_count cfg is_delay 1 cycles w0) as (w1 & Hrun & Hd1);
    try done.
  { intros q v. unfold cycle_calls. rewrite !count_app.
    assert (Hr : forall s m, count is_delay (refresh_calls cfg s m) = O).
    { intros s m. unfold refresh_calls, update_calls.
      by destruct (sdl_refr_qry m), (can_present cfg m). }
    rewrite Hr.
    replace (count is_delay
               (if MONITOR_DUAL cfg then refresh_calls cfg Mon2 (monitor2 v) else []))
      with O by (destruct (MONITOR_DUAL cfg); [by rewrite Hr | done]).
    replace (count is_delay
               (if pumps cfg
                then concat (map (dispatch_calls cfg (monitor v) (monitor2 v)) q)
                else []))
      with O; [done|].
    destruct (pumps cfg); [|done]. symmetry.
    apply count_concat_map_zero. intros e.
    unfold dispatch_calls. rewrite !count_app.
    assert (Hu : forall s m, count is_delay (update_calls cfg s m) = O).
    { intros s m. unfold update_calls. by destruct (can_present cfg m). }
    destruct (USE_MOUSE cfg), (USE_MOUSEWHEEL cfg), (USE_KEYBOARD cfg),
      (exposes cfg e), (MONITOR_DUAL cfg);
      rewrite ?count_app, ?Hu; reflexivity. }
  destruct (refr_loop_handlers cfg cycles w0 Hq0 Hex) as (w1' & Hrun' & Hh1).
  rewrite Hrun in Hrun'. injection Hrun' as <-.
  rewrite Hrun. eexists. split; [reflexivity|].
  rewrite trace_log, trace_clean_up, <- app_assoc. split.
  - rewrite count_app, count_teardown_calls by apply is_delay_kind.
    rewrite Hd1, Hd0. lia.
  - rewrite List.filter_app.
    assert (Hz : count is_handler (teardown_calls cfg ++ [exit 0]) = O)
      by (apply count_teardown_calls, is_handler_kind).
    unfold count in Hz. apply length_zero_iff_nil in Hz.
    rewrite Hz, app_nil_r, Hh1, Hh0. done.
Qed.

Lemma thread_stops_after_the_quit_cycle_witness :
  let cfg := build false false 32 2 2 in
  let cycles := [[SDL_other 1024]; [SDL_other 1025; SDL_QUIT]; [SDL_other 768]] in
  exists w',
    monitor_sdl_refr_thread cfg cycles (fresh [0; 0; 0; 0]) = Some w'
    /\ count is_delay (trace w') = 2%nat
    /\ count is_handler (trace w') = 9%nat.
Proof.
  intros cfg cycles.
  destruct (thread_stops_after_the_quit_cycle cfg cycles (fresh [0; 0; 0; 0])
              eq_refl eq_refl) as (w' & Hrun & Hd & Hh).
  exists w'. split; [exact Hrun|]. split; [exact Hd|].
  unfold count. rewrite Hh. reflexivity.
Defined.

Lemma refr_loop_silent cfg p cycles w :
  (forall c, cycle_call c = true -> p c = false) ->
  sdl_quit_qry w || existsb (existsb quits) cycles = true ->
  exists w',
    refr_loop cfg cycles w = Some w' /\ count p (trace w') = count p (trace w).
Proof.
  intros Hp. revert w.
  induction cycles as [|evs rest IH]; intros w Hq; simpl in *.
  - rewrite orb_false_r in Hq. rewrite Hq. by exists w.
  - destruct (sdl_quit_qry w) eqn:Eq; [by exists w|]. simpl in Hq.
    set (w1 := monitor_sdl_refr_core cfg evs (SDL_add_events evs w)).
    destruct (IH w1) as (w' & Hrun & Hc).
    { unfold w1. rewrite refr_core_eq, SDL_add_events_eq. simpl.
      by rewrite Eq. }
    exists w'. split; [done|]. rewrite Hc. unfold w1.
    rewrite trace_refr_core, count_app.
    rewrite (count_none p (cycle_calls cfg evs (SDL_add_events evs w)))
      by (try done; apply cycle_calls_kinds).
    rewrite SDL_add_events_eq. simpl. lia.
Qed.

(** X16.  On a build that starts SDL inside the thread, a thread that ends
    has created and destroyed the same handles: a window, a renderer and a
    texture for each configured surface, each destroyed once, and for an
    unconfigured second surface nothing is created and nothing
    destroyed. *)
Theorem handles_created_are_destroyed cfg cycles w s :
  MONITOR_APPLE cfg = false ->
  sdl_quit_qry w || existsb (existsb quits) cycles = true ->
  exists w',
    monitor_sdl_refr_thread cfg cycles w = Some w'
    /\ count (creates s) (trace w')
       = (count (creates s) (trace w) + (if configured cfg s then 3 else 0))%nat
    /\ count (destroys s) (trace w')
       = (count (destroys s) (trace w) + (if configured cfg s then 3 else 0))%nat.
Proof.
  intros Ha Hq. unfold monitor_sdl_refr_thread. rewrite Ha.
  assert (Hq0 : sdl_quit_qry (monitor_sdl_init cfg w) = sdl_quit_qry w)
    by (by destruct (monitor_sdl_init_calls cfg w) as (? & _ & _ & ?)).
  destruct (refr_loop_silent cfg (creates s) cycles (monitor_sdl_init cfg w))
    as (w1 & Hrun & Hc1); [by intros [] | by rewrite Hq0 |].
  destruct (refr_loop_silent cfg (destroys s) cycles (monitor_sdl_init cfg w))
    as (w1' & Hrun' & Hd1); [by intros [] | by rewrite Hq0 |].
  rewrite Hrun in Hrun'. injection Hrun' as <-.
  rewrite Hrun. eexists. split; [reflexivity|].
  rewrite trace_log, trace_clean_up, <- app_assoc.
  rewrite !(count_app _ (trace w1)), Hc1, Hd1.
  rewrite trace_monitor_sdl_init, !(count_app _ (trace w)).
  assert (Hci : count (creates s) (init_calls cfg w)
                = if configured cfg s then 3%nat else O).
  { unfold init_calls, create_calls, count, configured.
    destruct s, (MONITOR_DUAL cfg), (MONITOR_DOUBLE_BUFFERED cfg); reflexivity. }
  assert (Hdi : count (destroys s) (init_calls cfg w) = O).
  { unfold init_calls, create_calls, count, configured.
    destruct s, (MONITOR_DUAL cfg), (MONITOR_DOUBLE_BUFFERED cfg); reflexivity. }
  assert (Hct : count (creates s) (teardown_calls cfg ++ [exit 0]) = O).
  { unfold teardown_calls, count, configured.
    destruct s, (MONITOR_DUAL cfg); reflexivity. }
  assert (Hdt : count (destroys s) (teardown_calls cfg ++ [exit 0])
                = if configured cfg s then 3%nat else O).
  { unfold teardown_calls, count, configured.
    destruct s, (MONITOR_DUAL cfg); reflexivity. }
  rewrite Hci, Hdi, Hct, Hdt. lia.
Qed.

Lemma handles_created_are_destroyed_witness :
  let cfg := build false false 32 2 2 in
  exists w',
    monitor_sdl_refr_thread cfg [[SDL_QUIT]] (fresh [0; 0; 0; 0]) = Some w'
    /\ count (creates Mon1) (trace w') = 3%nat
    /\ count (destroys Mon1) (trace w') = 3%nat.
Proof.
  intros cfg.
  destruct (handles_created_are_destroyed cfg [[SDL_QUIT]] (fresh [0; 0; 0; 0])
              Mon1 eq_refl eq_refl) as (w' & Hrun & Hc & Hd).
  exists w'. split; [exact Hrun|]. split; [exact Hc | exact Hd].
Defined.

(** X17.  A build that does not poll in the cycle (MONITOR_APPLE or
    MONITOR_EMSCRIPTEN) ignores the pending events altogether: the cycle
    does the same whatever is queued, so an exposure is not served and no
    handler is called. *)
Theorem cycle_without_polling_ignores_events cfg queued w :
  pumps cfg = false ->
  monitor_sdl_refr_core cfg queued w = monitor_sdl_refr_core cfg [] w.
Proof.
  intros Hp. rewrite !refr_core_eq. unfold cycle_calls. by rewrite Hp.
Qed.

Lemma cycle_without_polling_ignores_events_witness :
  let cfg := Config false false 32 2 2 2 2 1 false true false true
                    true true true in
  let w := fresh [0; 0; 0; 0] in
  trace (monitor_sdl_refr_core cfg
           [SDL_WINDOWEVENT SDL_WINDOWEVENT_EXPOSED; SDL_other 1024] w)
  = [SDL_Delay 50].
Proof.
  intros cfg w.
  rewrite (cycle_without_polling_ignores_events cfg
             [SDL_WINDOWEVENT SDL_WINDOWEVENT_EXPOSED; SDL_other 1024] w eq_refl).
  reflexivity.
Defined.

(** ** Flushing again *)

Section Again.

Variable lv_color_to32 : Z -> Z.
Variable lv_area_get_width : lv_area_t -> Z.
Variable cfg : config.

Local Abbreviation hres := (MONITOR_HOR_RES cfg).
Local Abbreviation run := (flush lv_color_to32 lv_area_get_width cfg).

(** What a cell holds after a run of rows depends on what it held before
    only if no row covers it. *)
Lemma rows_determined s x n src r y0 k m1 m2 (j : nat) :
  length (cells m1) = length (cells m2) ->
  ((forall y, y0 <= y < y0 + Z.of_nat r ->
      ~ (y * hres + x <= Z.of_nat j < y * hres + x + Z.of_nat n)) ->
   cells m1 !! j = cells m2 !! j) ->
  cells (snd (for_upto r (fun _ => true) (copy_row s hres x n src) y0 (k, m1))) !! j
  = cells (snd (for_upto r (fun _ => true) (copy_row s hres x n src) y0 (k, m2))) !! j.
Proof.
  intros Hlen. induction r as [|r IH]; intros Hj.
  - simpl. apply Hj. intros y Hy. lia.
  - rewrite !for_upto_snoc.
    pose proof (rows_length cfg s x n src r y0 (k, m1)) as Hl1.
    pose proof (rows_length cfg s x n src r y0 (k, m2)) as Hl2.
    pose proof (rows_fst cfg s x n src r y0 (k, m1)) as Hk1.
    pose proof (rows_fst cfg s x n src r y0 (k, m2)) as Hk2.
    set (st1 := for_upto r (fun _ => true) (copy_row s hres x n src) y0 (k, m1)) in *.
    set (st2 := for_upto r (fun _ => true) (copy_row s hres x n src) y0 (k, m2)) in *.
    simpl in Hl1, Hl2, Hk1, Hk2.
    unfold copy_row. cbn [snd]. rewrite Hk1, Hk2.
    set (dst := (y0 + Z.of_nat r) * hres + x).
    destruct (decide (dst <= Z.of_nat j < dst + Z.of_nat n)) as [Hin|Hout].
    + destruct (in_fb (cells (snd st1)) (Z.of_nat j)) eqn:E.
      * assert (E2 : in_fb (cells (snd st2)) (Z.of_nat j) = true).
        { unfold in_fb in *. by rewrite Hl2, <- Hlen, <- Hl1. }
        replace j with (Z.to_nat (dst + Z.of_nat (Z.to_nat (Z.of_nat j - dst))))
          by lia.
        rewrite !memcpy_at; try lia; try done.
        -- by replace (dst + Z.of_nat (Z.to_nat (Z.of_nat j - dst)))
             with (Z.of_nat j) by lia.
        -- by replace (dst + Z.of_nat (Z.to_nat (Z.of_nat j - dst)))
             with (Z.of_nat j) by lia.
      * apply in_fb_false in E.
        rewrite !lookup_ge_None_2; [done | |]; rewrite memcpy_length; lia.
    + rewrite !memcpy_other by done. apply IH.
      intros Hcov. apply Hj. intros y Hy.
      destruct (decide (y = y0 + Z.of_nat r)) as [->|]; [done|].
      apply Hcov. lia.
Qed.

(** Copying the same rows a second time changes no cell. *)
Lemma rows_again s x n src r y0 m fl :
  cells (snd (for_upto r (fun _ => true) (copy_row s hres x n src) y0
                (O, FbMem
                      (cells (snd (for_upto r (fun _ => true)
                                     (copy_row s hres x n src) y0 (O, m))))
                      fl)))
  = cells (snd (for_upto r (fun _ => true) (copy_row s hres x n src) y0 (O, m))).
Proof.
  apply list_eq. intros j.
  apply rows_determined.
  - simpl. apply (rows_length cfg).
  - intros Hj. simpl. by apply (rows_other cfg).
Qed.

Lemma copy_again s area src m fl :
  cells ((if per_pixel cfg then flush_pixels lv_color_to32 cfg
          else flush_rows lv_area_get_width cfg) s area src
           (FbMem
              (cells ((if per_pixel cfg then flush_pixels lv_color_to32 cfg
                       else flush_rows lv_area_get_width cfg) s area src m))
              fl))
  = cells ((if per_pixel cfg then flush_pixels lv_color_to32 cfg
            else flush_rows lv_area_get_width cfg) s area src m).
Proof.
  destruct (per_pixel cfg).
  - rewrite !flush_pixels_rows. unfold for_. apply rows_again.
  - rewrite !flush_rows_rows. unfold for_. rewrite !for_upto_clip.
    apply rows_again.
Qed.

(** X18.  Flushing the same rectangle with the same pixels a second time
    changes nothing of either surface: the owned array, the borrowed
    pointer and the flag are as the first flush left them.  This holds on
    every build and for every rectangle, also one that overlaps itself by
    running past the right edge. *)
Theorem flushing_again_changes_nothing s s' drv area color_p w :
  mon s' (run s drv area color_p (run s drv area color_p w))
  = mon s' (run s drv area color_p w).
Proof.
  destruct (decide (s' = s)) as [->|Hne];
    [|by rewrite flush_other_surface].
  unfold flush.
  destruct (out_of_screen drv area) eqn:Hin; [by destruct s|].
  destruct (MONITOR_DOUBLE_BUFFERED cfg) eqn:Hd; [by destruct s|].
  rewrite !log_logs, !mon_logs.
  set (w1 := logs [lv_disp_flush_ready drv]
               (set_refr_qry s true
                  (flush_copy lv_color_to32 lv_area_get_width cfg s area
                     (buf_px color_p) w))).
  assert (Hm : forall v,
    mon s (set_refr_qry s true
             (flush_copy lv_color_to32 lv_area_get_width cfg s area
                (buf_px color_p) v))
    = Monitor true (tft_fb_act (mon s v))
        (cells ((if per_pixel cfg then flush_pixels lv_color_to32 cfg
                 else flush_rows lv_area_get_width cfg) s area (buf_px color_p)
                  (FbMem (tft_fb (mon s v)) (faults v))))).
  { intros v. unfold flush_copy. by destruct s. }
  rewrite !Hm. unfold w1. rewrite mon_logs, Hm. cbn [tft_fb tft_fb_act].
  f_equal. apply copy_again.
Qed.

End Again.

(** ** Exactly which accesses leave an array *)

Lemma cell_faults_length s src k off fb fb' :
  length fb = length fb' ->
  cell_faults s src k off fb = cell_faults s src k off fb'.
Proof. intros Hl. unfold cell_faults, in_fb. by rewrite Hl. Qed.

Lemma memcpy_faults s n dst src k m f :
  In f (flt (memcpy s n dst src k m))
  <-> In f (flt m)
      \/ exists i : nat,
           (i < n)%nat
           /\ In f (cell_faults s src (k + i) (dst + Z.of_nat i) (cells m)).
Proof.
  revert dst k m. induction n as [|n IH]; intros dst k m; simpl.
  - split; [tauto|]. intros [H|(i & Hi & _)]; [done | lia].
  - rewrite IH, copy_cell_flt, in_app_iff. split.
    + intros [[H|H]|(i & Hi & H)].
      * by left.
      * right. exists O. rewrite Nat.add_0_r, Z.add_0_r. split; [lia | done].
      * right. exists (S i). split; [lia|].
        replace (k + S i)%nat with (S k + i)%nat by lia.
        replace (dst + Z.of_nat (S i)) with (dst + 1 + Z.of_nat i) by lia.
        by rewrite (cell_faults_length _ _ _ _ _ (cells (copy_cell s id src k dst m)))
          by (by rewrite copy_cell_length).
    + intros [H|(i & Hi & H)]; [by left; left|].
      destruct i as [|i].
      * rewrite Nat.add_0_r, Z.add_0_r in H. left. by right.
      * right. exists i. split; [lia|].
        replace (k + S i)%nat with (S k + i)%nat in H by lia.
        replace (dst + Z.of_nat (S i)) with (dst + 1 + Z.of_nat i) in H by lia.
        by rewrite (cell_faults_length _ _ _ _ _ (cells m))
          by (by rewrite copy_cell_length).
Qed.

Section Faults.

Variable lv_color_to32 : Z -> Z.
Variable lv_area_get_width : lv_area_t -> Z.
Variable cfg : config.

Local Abbreviation hres := (MONITOR_HOR_RES cfg).
Local Abbreviation run := (flush lv_color_to32 lv_area_get_width cfg).

Lemma rows_faults s x n src r y0 (st : copy_state) f :
  In f (flt (snd (for_upto r (fun _ => true) (copy_row s hres x n src) y0 st)))
  <-> In f (flt (snd st))
      \/ exists j i : nat,
           (j < r)%nat /\ (i < n)%nat
           /\ In f (cell_faults s src (fst st + j * n + i)
                      ((y0 + Z.of_nat j) * hres + x + Z.of_nat i)
                      (cells (snd st))).
Proof.
  induction r as [|r IH].
  - simpl. split; [tauto|]. intros [H|(j & i & Hj & _)]; [done | lia].
  - rewrite for_upto_snoc.
    pose proof (rows_length cfg s x n src r y0 st) as Hl.
    pose proof (rows_fst cfg s x n src r y0 st) as Hk.
    set (st1 := for_upto r (fun _ => true) (copy_row s hres x n src) y0 st) in *.
    unfold copy_row. cbn [snd]. rewrite memcpy_faults, IH, Hk. split.
    + intros [[H|(j & i & Hj & Hi & H)]|(i & Hi & H)].
      * by left.
      * right. exists j, i. repeat split; [lia | done | done].
      * right. exists r, i. repeat split; [lia | done |].
        by rewrite (cell_faults_length _ _ _ _ _ (cells (snd st1))).
    + intros [H|(j & i & Hj & Hi & H)]; [by left; left|].
      destruct (decide (j = r)) as [->|Hne].
      * right. exists i. split; [done|].
        by rewrite (cell_faults_length _ _ _ _ _ (cells (snd st))).
      * left. right. exists j, i. repeat split; [lia | done | done].
Qed.

(** X19.  The accesses of a single-buffered flush that leave an array, in
    full: over the rows and columns the build's copy goes through, a read
    is past the source exactly where the running index [j * width + i]
    reaches the source's length, and a store is outside [tft_fb] exactly
    where the offset [(y1 + j) * MONITOR_HOR_RES + x1 + i] is negative or
    reaches the array's length; no other fault is recorded.  So the flush
    is memory-safe precisely when neither happens. *)
Theorem flush_faults_exactly s drv area color_p w f :
  MONITOR_DOUBLE_BUFFERED cfg = false ->
  out_of_screen drv area = false ->
  In f (faults (run s drv area color_p w))
  <-> In f (faults w)
      \/ exists j i : nat,
           (j < copied_rows cfg area)%nat
           /\ (i < copied_width lv_area_get_width cfg area)%nat
           /\ (f = bad_load (j * copied_width lv_area_get_width cfg area + i)
               /\ (length (buf_px color_p)
                   <= j * copied_width lv_area_get_width cfg area + i)%nat
               \/ f = bad_store s ((y1 area + Z.of_nat j) * hres + x1 area
                                  + Z.of_nat i)
                  /\ ~ (0 <= (y1 area + Z.of_nat j) * hres + x1 area + Z.of_nat i
                        < Z.of_nat (length (tft_fb (mon s w))))).
Proof.
  intros Hd Hin.
  destruct (flush_single lv_color_to32 lv_area_get_width cfg s drv area
              color_p w Hd Hin) as (_ & -> & _).
  assert (Hcell : forall src k off fb,
    In f (cell_faults s src k off fb)
    <-> (f = bad_load k /\ (length src <= k)%nat)
        \/ (f = bad_store s off /\ ~ (0 <= off < Z.of_nat (length fb)))).
  { intros src k off fb. unfold cell_faults. rewrite in_app_iff.
    destruct (src !! k) eqn:Ek; destruct (in_fb fb off) eqn:Eo; simpl.
    - apply lookup_lt_Some in Ek. apply in_fb_spec in Eo. split; [tauto|].
      intros [[_ ?]|[_ ?]]; [lia | tauto].
    - apply lookup_lt_Some in Ek. apply in_fb_false in Eo. split.
      + intros [[]|[<-|[]]]. by right.
      + intros [[_ ?]|[-> _]]; [lia | tauto].
    - apply lookup_ge_None in Ek. apply in_fb_spec in Eo. split.
      + intros [[<-|[]]|[]]. by left.
      + intros [[-> _]|[_ ?]]; tauto.
    - apply lookup_ge_None in Ek. apply in_fb_false in Eo. split.
      + intros [[<-|[]]|[<-|[]]]; [by left | by right].
      + intros [[-> _]|[-> _]]; tauto. }
  unfold copied_rows, copied_width.
  destruct (per_pixel cfg).
  - rewrite flush_pixels_rows. unfold for_. rewrite rows_faults. simpl.
    split; (intros [H|(j & i & Hj & Hi & H)]; [by left|]; right; exists j, i;
            repeat split; try done).
    + apply Hcell in H. by rewrite length_fmap in H.
    + apply Hcell. by rewrite length_fmap.
  - rewrite flush_rows_rows. unfold for_. rewrite for_upto_clip, rows_faults.
    simpl.
    split; (intros [H|(j & i & Hj & Hi & H)]; [by left|]; right; exists j, i;
            repeat split; try done; try lia).
    + by apply Hcell in H.
    + by apply Hcell.
Qed.

End Faults.

Lemma flush_faults_exactly_witness :
  let cfg := build false false 32 4 3 in
  let w := fresh (replicate 12 0) in
  In (bad_load 1)
     (faults (flush id area_width cfg Mon1 (DispDrv 4 3 0) (Area 0 0 1 0)
                (ColorBuf 4096 [7]) w)).
Proof.
  intros cfg w.
  apply (flush_faults_exactly id area_width cfg Mon1 (DispDrv 4 3 0)
           (Area 0 0 1 0) (ColorBuf 4096 [7]) w (bad_load 1) eq_refl eq_refl).
  right. exists O, 1%nat.
  split; [vm_compute; lia|]. split; [vm_compute; lia|].
  left. split; [reflexivity | vm_compute; lia].
Defined.

(** * Two flushes and the frame that follows *)

Section TwoFlushes.

Variable lv_color_to32 : Z -> Z.
Variable lv_area_get_width : lv_area_t -> Z.
Variable cfg : config.

Local Abbreviation hres := (MONITOR_HOR_RES cfg).
Local Abbreviation vres := (MONITOR_VER_RES cfg).
Local Abbreviation run := (flush lv_color_to32 lv_area_get_width cfg).

(** A single-buffered flush of a rectangle within the surface: its cells
    hold their source colours, every other cell keeps its value. *)
Lemma flush_within s drv area color_p w :
  MONITOR_DOUBLE_BUFFERED cfg = false ->
  out_of_screen drv area = false ->
  within_surface lv_area_get_width cfg area (buf_px color_p) (tft_fb (mon s w)) ->
  (forall x y, covers cfg area x y ->
     tft_fb (mon s (run s drv area color_p w)) !! Z.to_nat (y * hres + x)
     = source_pixel lv_color_to32 cfg area (buf_px color_p) x y)
  /\ (forall j : nat,
        (forall x y, covers cfg area x y -> Z.of_nat j <> y * hres + x) ->
        tft_fb (mon s (run s drv area color_p w)) !! j = tft_fb (mon s w) !! j).
Proof.
  intros Hd Hin (Hw & Hx1 & Hx & Hx2 & Hh & Hy1 & Hpp & Hlen & Hrows & Hsrc).
  unfold covers, source_pixel.
  destruct (flush_single lv_color_to32 lv_area_get_width cfg s drv area
              color_p w Hd Hin) as (Hfb & _ & _).
  rewrite Hfb.
  assert (H31 : (2 ^ 31 : Z) = 2147483648) by reflexivity.
  assert (H32 : (2 ^ 32 : Z) = 4294967296) by reflexivity.
  rewrite (copy_as_rows lv_color_to32 lv_area_get_width cfg)
    by (try done; try lia; intros; auto).
  set (r := Z.to_nat (Z.min (y2 area - y1 area + 1) (vres - y1 area))).
  set (n := Z.to_nat (x2 area - x1 area + 1)).
  set (src := stored lv_color_to32 cfg <$> buf_px color_p).
  set (st := (O, FbMem (tft_fb (mon s w)) (faults w))).
  assert (Hsl : length src = length (buf_px color_p))
    by (unfold src; apply length_fmap).
  destruct (decide (r = O)) as [Hr0|Hr0].
  { rewrite Hr0. simpl. split; [|done].
    intros x y (Hx' & Hy' & Hv). lia. }
  destruct (rows_inside cfg s (x1 area) n src r (y1 area) st) as [_ Hc];
    try (simpl; lia); try (simpl; nia).
  split.
  - intros x y (Hx' & Hy' & Hv).
    replace (y * hres + x)
      with (y * hres + x1 area + Z.of_nat (Z.to_nat (x - x1 area))) by lia.
    rewrite Hc by lia. simpl.
    replace (Z.to_nat (y - y1 area) * n + Z.to_nat (x - x1 area))%nat
      with (Z.to_nat ((y - y1 area) * (x2 area - x1 area + 1) + (x - x1 area)))
      by nia.
    unfold src. rewrite list_lookup_fmap.
    destruct (lookup_lt_is_Some_2 (buf_px color_p)
                (Z.to_nat ((y - y1 area) * (x2 area - x1 area + 1) + (x - x1 area))))
      as [c ->]; [nia | done].
  - intros j Hj. rewrite rows_other; [done|].
    intros y Hy Hr'. apply (Hj (Z.of_nat j - y * hres) y); [|lia].
    repeat split; lia.
Qed.

(** Two cells of the surface at the same offset are the same cell. *)
Lemma same_offset x y x' y' :
  0 <= x < hres -> 0 <= x' < hres ->
  y * hres + x = y' * hres + x' -> x = x' /\ y = y'.
Proof.
  intros Hx Hx' He.
  assert (y = y') as -> by nia. lia.
Qed.

(** C7 (amended).  Two flushes of the same configured surface with no
    cycle in between, the second one not rejected by the out-of-screen
    guard.  The pending-refresh flag is up, and every pixel source the
    next cycle hands to SDL_UpdateTexture for that surface is the second
    flush's, once for the raised flag and once per exposure.  In a
    double-buffered build that is the second call's [color_p] (the first
    call's pointer is gone, and a null pointer is not pushed).  In a
    single-buffered build it is the owned array as the second flush left
    it; for rectangles within the surface that array holds the second
    flush's colours in the second rectangle and is elsewhere as the first
    flush left it, so the cells of the first rectangle outside the second
    hold the first flush's colours. *)
Theorem C7_next_cycle_presents_second_flush s drv1 a1 p1 drv2 a2 p2 w queued :
  configured cfg s = true ->
  out_of_screen drv2 a2 = false ->
  sdl_refr_qry (mon s (run s drv2 a2 p2 (run s drv1 a1 p1 w))) = true
  /\ (MONITOR_DOUBLE_BUFFERED cfg = true ->
      tft_fb_act (mon s (run s drv2 a2 p2 (run s drv1 a1 p1 w))) = buf_addr p2)
  /\ pushed s (trace (monitor_sdl_refr_core cfg queued
                        (run s drv2 a2 p2 (run s drv1 a1 p1 w))))
     = pushed s (trace (run s drv2 a2 p2 (run s drv1 a1 p1 w)))
       ++ replicate
            (if negb (MONITOR_DOUBLE_BUFFERED cfg) || negb (buf_addr p2 =? NULL)
             then S (exposures cfg queued) else O)
            (if MONITOR_DOUBLE_BUFFERED cfg then px_ptr (buf_addr p2)
             else px_owned (tft_fb (mon s (run s drv2 a2 p2 (run s drv1 a1 p1 w)))))
  /\ (MONITOR_DOUBLE_BUFFERED cfg = false ->
      within_surface lv_area_get_width cfg a2 (buf_px p2) (tft_fb (mon s w)) ->
      (forall x y, covers cfg a2 x y ->
         tft_fb (mon s (run s drv2 a2 p2 (run s drv1 a1 p1 w)))
           !! Z.to_nat (y * hres + x)
         = source_pixel lv_color_to32 cfg a2 (buf_px p2) x y)
      /\ (forall j : nat,
            (forall x y, covers cfg a2 x y -> Z.of_nat j <> y * hres + x) ->
            tft_fb (mon s (run s drv2 a2 p2 (run s drv1 a1 p1 w))) !! j
            = tft_fb (mon s (run s drv1 a1 p1 w)) !! j)
      /\ (out_of_screen drv1 a1 = false ->
          within_surface lv_area_get_width cfg a1 (buf_px p1) (tft_fb (mon s w)) ->
          forall x y, covers cfg a1 x y -> ~ covers cfg a2 x y ->
            tft_fb (mon s (run s drv2 a2 p2 (run s drv1 a1 p1 w)))
              !! Z.to_nat (y * hres + x)
            = source_pixel lv_color_to32 cfg a1 (buf_px p1) x y)).
Proof.
  intros Hs Hin.
  destruct (second_flush_is_pushed lv_color_to32 lv_area_get_width cfg s
              drv1 a1 p1 drv2 a2 p2 w queued Hs Hin) as (Hq & Hp & Hpush).
  split; [exact Hq|]. split; [exact Hp|]. split; [exact Hpush|].
  intros Hd Hw2.
  assert (Hw2' : within_surface lv_area_get_width cfg a2 (buf_px p2)
                   (tft_fb (mon s (run s drv1 a1 p1 w)))).
  { unfold within_surface in *. by rewrite flush_length. }
  destruct (flush_within s drv2 a2 p2 (run s drv1 a1 p1 w) Hd Hin Hw2')
    as [Hin2 Hout2].
  split; [exact Hin2|]. split; [exact Hout2|].
  intros Hin1 Hw1 x y Hc1 Hn2.
  destruct (flush_within s drv1 a1 p1 w Hd Hin1 Hw1) as [Hin1' _].
  rewrite <- (Hin1' x y Hc1).
  apply Hout2. intros x' y' Hc2.
  destruct Hw1 as (_ & Ha1 & Ha2 & Ha3 & _ & Ha4 & _).
  destruct Hw2 as (_ & Hb1 & Hb2 & Hb3 & _).
  destruct Hc1 as (Hcx & Hcy & _). pose proof Hc2 as (Hdx & _).
  assert (0 <= y * hres) by nia.
  rewrite Z2Nat.id by lia.
  intros He. apply same_offset in He as [-> ->]; [by apply Hn2 | lia | lia].
Qed.

End TwoFlushes.

Lemma C7_next_cycle_presents_second_flush_witness :
  let cfg := build false false 32 4 3 in
  let drv := DispDrv 4 3 0 in
  let first := ColorBuf 4096 [5; 6] in
  let second := ColorBuf 8192 [7; 8] in
  let w := fresh (replicate 12 0) in
  let w2 := flush id area_width cfg Mon1 drv (Area 1 0 2 0) second
              (flush id area_width cfg Mon1 drv (Area 0 0 1 0) first w) in
  let cfg' := build true false 32 4 3 in
  let w2' := flush id area_width cfg' Mon1 drv (Area 1 0 2 0) second
               (flush id area_width cfg' Mon1 drv (Area 0 0 1 0) first w) in
  (sdl_refr_qry (mon Mon1 w2) = true
   /\ pushed Mon1 (trace (monitor_sdl_refr_core cfg [] w2))
      = [px_owned (tft_fb (mon Mon1 w2))]
   /\ tft_fb (mon Mon1 w2) !! Z.to_nat (0 * 4 + 0) = Some 5
   /\ tft_fb (mon Mon1 w2) !! Z.to_nat (0 * 4 + 1) = Some 7
   /\ tft_fb (mon Mon1 w2) !! Z.to_nat (0 * 4 + 2) = Some 8)
  /\ (sdl_refr_qry (mon Mon1 w2') = true
      /\ pushed Mon1 (trace (monitor_sdl_refr_core cfg' [] w2')) = [px_ptr 8192]).
Proof.
  intros cfg drv first second w w2 cfg' w2'.
  assert (W1 : within_surface area_width cfg (Area 0 0 1 0) (buf_px first)
                 (tft_fb (mon Mon1 w))).
  { repeat split; try (cbn; lia); try reflexivity; try discriminate. }
  assert (W2 : within_surface area_width cfg (Area 1 0 2 0) (buf_px second)
                 (tft_fb (mon Mon1 w))).
  { repeat split; try (cbn; lia); try reflexivity; try discriminate. }
  destruct (C7_next_cycle_presents_second_flush id area_width cfg Mon1
              drv (Area 0 0 1 0) first drv (Area 1 0 2 0) second w []
              eq_refl eq_refl) as (Hq & _ & Hpush & Hfb).
  destruct (Hfb eq_refl W2) as (Hin2 & _ & Hin1).
  destruct (C7_next_cycle_presents_second_flush id area_width cfg' Mon1
              drv (Area 0 0 1 0) first drv (Area 1 0 2 0) second w []
              eq_refl eq_refl) as (Hq' & _ & Hpush' & _).
  split; [|split; [exact Hq' | exact Hpush']].
  split; [exact Hq|]. split; [exact Hpush|].
  split; [|split].
  - refine (Hin1 eq_refl W1 0 0 _ _).
    + repeat split; cbn; lia.
    + intros ([? _] & _). cbn in *. lia.
  - refine (Hin2 1 0 _). repeat split; cbn; lia.
  - refine (Hin2 2 0 _). repeat split; cbn; lia.
Defined.

(** * The two copy loops on an array taller than the surface *)

(** C5.  The copy loops do not agree wherever both are defined.  On an
    array with room below the surface ([tft_fb] is declared with the
    LV_..._RES_MAX sizes, the loops go by MONITOR_..._RES), a rectangle
    within the surface's width that reaches to or below the bottom edge
    is copied without any out-of-array access by the build that converts
    and by the 24/32-bit build alike, but only the conversion loop, which
    lacks the guard [y < MONITOR_VER_RES], stores the rectangle's last
    row: there the one array holds the converted colours and the other
    what it held before. *)
Theorem C5_copy_paths_differ_below_the_surface
    lv_color_to32 lv_area_get_width cfg d1 d2 s drv area addr src w :
  MONITOR_DOUBLE_BUFFERED cfg = false ->
  per_pixel (with_depth d1 cfg) = true ->
  per_pixel (with_depth d2 cfg) = false ->
  out_of_screen drv area = false ->
  lv_area_get_width area = x2 area - x1 area + 1 ->
  0 <= x1 area -> x1 area <= x2 area -> x2 area < MONITOR_HOR_RES cfg ->
  MONITOR_HOR_RES cfg < 2 ^ 31 ->
  0 <= y1 area -> y1 area <= y2 area ->
  MONITOR_VER_RES cfg <= y2 area ->
  (y2 area + 1) * MONITOR_HOR_RES cfg <= Z.of_nat (length (tft_fb (mon s w))) ->
  (x2 area - x1 area + 1) * (y2 area - y1 area + 1) <= Z.of_nat (length src) ->
  faults (flush lv_color_to32 lv_area_get_width (with_depth d1 cfg) s drv area
            (ColorBuf addr src) w) = faults w
  /\ faults (flush lv_color_to32 lv_area_get_width (with_depth d2 cfg) s drv area
               (ColorBuf addr (lv_color_to32 <$> src)) w) = faults w
  /\ forall x, x1 area <= x <= x2 area ->
       tft_fb (mon s (flush lv_color_to32 lv_area_get_width (with_depth d1 cfg)
                        s drv area (ColorBuf addr src) w))
         !! Z.to_nat (y2 area * MONITOR_HOR_RES cfg + x)
       = lv_color_to32
           <$> src !! Z.to_nat ((y2 area - y1 area) * (x2 area - x1 area + 1)
                                + (x - x1 area))
       /\ tft_fb (mon s (flush lv_color_to32 lv_area_get_width (with_depth d2 cfg)
                           s drv area (ColorBuf addr (lv_color_to32 <$> src)) w))
            !! Z.to_nat (y2 area * MONITOR_HOR_RES cfg + x)
          = tft_fb (mon s w) !! Z.to_nat (y2 area * MONITOR_HOR_RES cfg + x).
Proof.
  intros Hd Hp1 Hp2 Hin Hw Hx1 Hx Hx2 Hh Hy1 Hy Hbelow Hlen Hsrc.
  assert (H31 : (2 ^ 31 : Z) = 2147483648) by reflexivity.
  assert (H32 : (2 ^ 32 : Z) = 4294967296) by reflexivity.
  destruct (flush_single lv_color_to32 lv_area_get_width (with_depth d1 cfg)
              s drv area (ColorBuf addr src) w Hd Hin) as (Hfb1 & Hfl1 & _).
  destruct (flush_single lv_color_to32 lv_area_get_width (with_depth d2 cfg)
              s drv area (ColorBuf addr (lv_color_to32 <$> src)) w Hd Hin)
    as (Hfb2 & Hfl2 & _).
  rewrite Hfb1, Hfl1, Hfb2, Hfl2, Hp1, Hp2. cbn [buf_px].
  rewrite flush_pixels_rows, flush_rows_rows. unfold for_.
  rewrite for_upto_clip, Hw, Z.mod_small by lia.
  change (MONITOR_HOR_RES (with_depth d1 cfg)) with (MONITOR_HOR_RES cfg).
  change (MONITOR_HOR_RES (with_depth d2 cfg)) with (MONITOR_HOR_RES cfg).
  change (MONITOR_VER_RES (with_depth d2 cfg)) with (MONITOR_VER_RES cfg).
  set (n := Z.to_nat (x2 area - x1 area + 1)).
  set (csrc := lv_color_to32 <$> src).
  set (st := (O, FbMem (tft_fb (mon s w)) (faults w))).
  set (r1 := Z.to_nat (y2 area - y1 area + 1)).
  set (r2 := Z.to_nat (Z.min (Z.of_nat r1) (MONITOR_VER_RES cfg - y1 area))).
  assert (Hcl : length csrc = length src) by (unfold csrc; apply length_fmap).
  destruct (rows_inside cfg s (x1 area) n csrc r1 (y1 area) st)
    as [Hf1 Hc1]; try (simpl; lia); try (simpl; nia).
  destruct (rows_inside cfg s (x1 area) n csrc r2 (y1 area) st)
    as [Hf2 _]; try (simpl; lia); try (simpl; nia).
  split; [exact Hf1|]. split; [exact Hf2|].
  intros x Hx'. split.
  - replace (y2 area * MONITOR_HOR_RES cfg + x)
      with (y2 area * MONITOR_HOR_RES cfg + x1 area
            + Z.of_nat (Z.to_nat (x - x1 area))) by lia.
    rewrite (Hc1 (y2 area) (Z.to_nat (x - x1 area))) by lia. simpl.
    replace (Z.to_nat (y2 area - y1 area) * n + Z.to_nat (x - x1 area))%nat
      with (Z.to_nat ((y2 area - y1 area) * (x2 area - x1 area + 1)
                      + (x - x1 area)))
      by nia.
    unfold csrc. rewrite list_lookup_fmap.
    destruct (lookup_lt_is_Some_2 src
                (Z.to_nat ((y2 area - y1 area) * (x2 area - x1 area + 1)
                           + (x - x1 area))))
      as [c ->]; [nia | done].
  - rewrite (rows_other cfg); [done|].
    intros y Hyr. rewrite Z2Nat.id by nia. nia.
Qed.

Lemma C5_copy_paths_differ_below_the_surface_witness :
  let cfg := Config false false 16 4 4 4 3 1 false false false true
                    true true true in
  let drv := DispDrv 4 3 0 in
  let area := Area 0 2 0 3 in
  let src := [0xF800; 0x07E0] in
  let w := fresh (replicate 16 0) in
  (faults (flush rgb565_to32 area_width (with_depth 16 cfg) Mon1 drv area
             (ColorBuf 4096 src) w) = []
   /\ faults (flush rgb565_to32 area_width (with_depth 32 cfg) Mon1 drv area
                (ColorBuf 4096 (rgb565_to32 <$> src)) w) = [])
  /\ tft_fb (mon Mon1 (flush rgb565_to32 area_width (with_depth 16 cfg) Mon1 drv
                         area (ColorBuf 4096 src) w)) !! Z.to_nat (3 * 4 + 0)
     = Some (rgb565_to32 0x07E0)
  /\ tft_fb (mon Mon1 (flush rgb565_to32 area_width (with_depth 32 cfg) Mon1 drv
                         area (ColorBuf 4096 (rgb565_to32 <$> src)) w))
       !! Z.to_nat (3 * 4 + 0)
     = Some 0
  /\ rgb565_to32 0x07E0 <> 0.
Proof.
  intros cfg drv area src w.
  destruct (C5_copy_paths_differ_below_the_surface rgb565_to32 area_width cfg
              16 32 Mon1 drv area 4096 src w
              eq_refl eq_refl eq_refl eq_refl eq_refl
              ltac:(cbn; lia) ltac:(cbn; lia) ltac:(cbn; lia) eq_refl
              ltac:(cbn; lia) ltac:(cbn; lia) ltac:(cbn; lia)
              ltac:(cbn; lia) ltac:(cbn; lia)) as (Hf1 & Hf2 & Hcell).
  destruct (Hcell 0 ltac:(cbn; lia)) as [Hc1 Hc2].
  split; [split; [exact Hf1 | exact Hf2]|].
  split; [exact Hc1|]. split; [exact Hc2|].
  vm_compute. discriminate.
Defined.
